(** * AAG cloud sensor driver (src/AAG.py): shallow embedding

    The driver talks to the sensor over a serial line (module
    [Protocol]), aggregates repeated readings by a median (module
    [Aggregator]), drives the rain-sensor heater (module [Heater]) and
    decides whether the weather is safe (module [Safety]).

    Modelling conventions.
    - Python floats are rationals ([Q]); rounding error, infinities and NaN
      are outside the model.  Comparisons are the boolean ones of [Q].
    - Text is 7-bit ASCII ([string]); the [decode('utf-8')] of [send] is the
      identity on it.
    - Python dictionaries with string keys are [gmap string _]; the values
      of a sample dictionary are dynamically typed ([pyval]).
    - The object [self] is the record [sensor]; every method is a function
      in the state-and-exception monad [M] over it.  Calls of the logger
      have no effect on the state and are left out.
    - [while] loops run on a fuel that is never exhausted (each use is
      proved to stop by its own condition); running out of fuel would show
      as the outcome [Raise Unterminated]. *)

From Stdlib Require Import ZArith QArith String Ascii List Bool Lia Lqa.
From stdpp Require Import gmap strings.
Import ListNotations.

Open Scope string_scope.
Open Scope Z_scope.

(** ** Python values and exceptions *)

#[warnings="-register-all"]
Inductive pyval :=
| PyNone
| PyBool (b : bool)
| PyFloat (q : Q)
| PyStr (s : string)
| PyDict (kv : list (string * pyval)).

Inductive exn :=
| KeyError (key : string)
| TypeError
| ValueError
| IndexError
| ZeroDivisionError
| UnboundLocalError (var : string)
| Unterminated.

Inductive outcome (A : Type) :=
| Ok (a : A)
| Raise (e : exn).
Arguments Ok {A} a.
Arguments Raise {A} e.

(** ** Rational helpers *)

Definition Qlt_bool (a b : Q) : bool := negb (Qle_bool b a).
Definition Qgt_bool (a b : Q) : bool := Qlt_bool b a.

(** Python's [int(x)] on a float: truncation toward zero. *)
Definition py_int (x : Q) : Z := Z.quot (Qnum x) (Z.pos (Qden x)).

(** ** Strings *)

Fixpoint str_take (n : nat) (s : string) : string :=
  match n, s with
  | S n', String c s' => String c (str_take n' s')
  | _, _ => EmptyString
  end.

Fixpoint str_drop (n : nat) (s : string) : string :=
  match n, s with
  | S n', String _ s' => str_drop n' s'
  | _, _ => s
  end.

(** ** Regular expressions: the fragment of Python's [re] the driver uses

    A pattern is a sequence of atoms, each with an optional greedy
    quantifier, and non-nested capture groups.  [re_match] is [re.match]:
    anchored at the start of the text, free at its end, longest repetition
    first with backtracking; it returns [groups()] of the match. *)
Module Re.

Inductive cset :=
| CChr (c : ascii)   (* a literal character *)
| CSpace             (* \s *)
| CDigit             (* \d *)
| CWord.             (* \w *)

Inductive atom :=
| AAny                     (* .  : anything but a newline *)
| ASet (cs : list cset).   (* a literal, an escape or a [...] class *)

Inductive item :=
| One (a : atom)
| Plus (a : atom)
| Star (a : atom)
| Times (n : nat) (a : atom)
| GOpen
| GClose.

Definition regex := list item.

Definition code (c : ascii) : nat := nat_of_ascii c.

(** [\s] of a text pattern in Python 3: codes 9 to 13 and 28 to 32. *)
Definition is_space (c : ascii) : bool :=
  let n := code c in
  ((9 <=? n) && (n <=? 13) || (28 <=? n) && (n <=? 32))%nat.

Definition is_digit (c : ascii) : bool :=
  let n := code c in ((48 <=? n) && (n <=? 57))%nat.

Definition is_word (c : ascii) : bool :=
  let n := code c in
  (is_digit c || (65 <=? n) && (n <=? 90) || (97 <=? n) && (n <=? 122)
   || (n =? 95))%nat.

Definition in_cset (c : ascii) (x : cset) : bool :=
  match x with
  | CChr d => Ascii.eqb c d
  | CSpace => is_space c
  | CDigit => is_digit c
  | CWord => is_word c
  end.

Definition accepts (a : atom) (c : ascii) : bool :=
  match a with
  | AAny => negb (Ascii.eqb c "010"%char)
  | ASet cs => existsb (in_cset c) cs
  end.

(** *** Parsing a pattern *)

Definition hex_val (c : ascii) : option nat :=
  let n := code c in
  if is_digit c then Some (n - 48)%nat
  else if ((97 <=? n) && (n <=? 102))%nat then Some (n - 87)%nat
  else if ((65 <=? n) && (n <=? 70))%nat then Some (n - 55)%nat
  else None.

(** One escape sequence, after its backslash. *)
Definition parse_escape (s : string) : option (cset * string) :=
  match s with
  | String "s" r => Some (CSpace, r)
  | String "d" r => Some (CDigit, r)
  | String "w" r => Some (CWord, r)
  | String "x" (String h (String l r)) =>
      match hex_val h, hex_val l with
      | Some a, Some b => Some (CChr (ascii_of_nat (16 * a + b)), r)
      | _, _ => None
      end
  | String c r => if is_word c then None else Some (CChr c, r)
  | EmptyString => None
  end.

(** The inside of a [...] class, up to its closing bracket. *)
Fixpoint parse_class (fuel : nat) (s : string) (acc : list cset)
  : option (list cset * string) :=
  match fuel with
  | O => None
  | S fuel' =>
      match s with
      | EmptyString => None
      | String "]" r => Some (rev acc, r)
      | String "\" r =>
          match parse_escape r with
          | Some (x, r') => parse_class fuel' r' (x :: acc)
          | None => None
          end
      | String c r => parse_class fuel' r (CChr c :: acc)
      end
  end.

Fixpoint parse_nat (s : string) (acc : nat) : nat * string :=
  match s with
  | String c r =>
      if is_digit c then parse_nat r (10 * acc + (code c - 48))%nat
      else (acc, s)
  | EmptyString => (acc, s)
  end.

(** The quantifier that may follow an atom. *)
Definition parse_quant (a : atom) (s : string) : option (item * string) :=
  match s with
  | String "+" r => Some (Plus a, r)
  | String "*" r => Some (Star a, r)
  | String "{" r =>
      match parse_nat r 0%nat with
      | (n, String "}" r') => Some (Times n a, r')
      | _ => None
      end
  | _ => Some (One a, s)
  end.

Fixpoint parse (fuel : nat) (s : string) : option regex :=
  match fuel with
  | O => None
  | S fuel' =>
      let atom_then (a : atom) (r : string) :=
        match parse_quant a r with
        | Some (it, r') => option_map (cons it) (parse fuel' r')
        | None => None
        end in
      match s with
      | EmptyString => Some []
      | String "(" r => option_map (cons GOpen) (parse fuel' r)
      | String ")" r => option_map (cons GClose) (parse fuel' r)
      | String "." r => atom_then AAny r
      | String "[" r =>
          match parse_class fuel' r [] with
          | Some (cs, r') => atom_then (ASet cs) r'
          | None => None
          end
      | String "\" r =>
          match parse_escape r with
          | Some (x, r') => atom_then (ASet [x]) r'
          | None => None
          end
      | String c r => atom_then (ASet [CChr c]) r
      end
  end.

Definition compile (pattern : string) : option regex :=
  parse (S (String.length pattern)) pattern.

(** *** Matching *)

(** Length of the longest prefix of [s] made of characters of [a]. *)
Fixpoint run (a : atom) (s : string) : nat :=
  match s with
  | String c r => if accepts a c then S (run a r) else O
  | EmptyString => O
  end.

(** [f k] for [k] from [hi] down to [lo], the first success. *)
Fixpoint first_down {R : Type} (hi lo : nat) (f : nat -> option R) : option R :=
  if (hi <? lo)%nat then None
  else match f hi with
       | Some r => Some r
       | None => match hi with
                 | O => None
                 | S hi' => first_down hi' lo f
                 end
       end.

Definition grow (cur : option string) (t : string) : option string :=
  option_map (fun g => g +:+ t) cur.

(** [cur] is the text of the group being captured, [acc] the closed groups
    (latest first). *)
Fixpoint exec (r : regex) (s : string) (cur : option string)
  (acc : list string) : option (list string) :=
  match r with
  | [] => Some (rev acc)
  | GOpen :: r' => exec r' s (Some EmptyString) acc
  | GClose :: r' =>
      match cur with
      | Some g => exec r' s None (g :: acc)
      | None => None
      end
  | One a :: r' =>
      if (1 <=? run a s)%nat
      then exec r' (str_drop 1 s) (grow cur (str_take 1 s)) acc
      else None
  | Times n a :: r' =>
      if (n <=? run a s)%nat
      then exec r' (str_drop n s) (grow cur (str_take n s)) acc
      else None
  | Plus a :: r' =>
      first_down (run a s) 1
        (fun k => exec r' (str_drop k s) (grow cur (str_take k s)) acc)
  | Star a :: r' =>
      first_down (run a s) 0
        (fun k => exec r' (str_drop k s) (grow cur (str_take k s)) acc)
  end.

(** [re.match(pattern, text)]: [Some groups] on a match. *)
Definition re_match (pattern text : string) : option (list string) :=
  match compile pattern with
  | Some r => exec r text None []
  | None => None
  end.

End Re.

(** ** The sensor object and the monad of its methods *)

(** What the driver does to the outside world, in order. *)
Inductive event :=
| EvWrite (bytes : string)    (* [self.AAG.write] *)
| EvSleep (seconds : Q).      (* [time.sleep] *)

(** The serial port [self.AAG] (pyserial), seen from the driver. *)
Class Transport (D : Type) := {
  port_read : D -> string * D;      (* [read(inWaiting())], decoded *)
  port_write : string -> D -> D;    (* [write(request.encode('utf-8'))] *)
  port_wait : Q -> D -> D           (* the line while the driver sleeps *)
}.

(** One stored document of the [weather] collection. *)
Record entry := { date : Q; data : gmap string pyval }.

(** Modelled from the spec: the state of the heater's PID controller
    ([self.heater_PID]; its class PID is not in src/AAG.py): the gains, the
    maximum age of the integral history, the output clamp and the
    time-ordered (timestamp, error) samples. *)
Record pid := {
  Kp : Q; Ki : Q; Kd : Q;
  max_age : Q;
  output_limits : Q * Q;
  history : list (Q * Q)
}.

Record sensor (D : Type) := {
  AAG : D;
  trace : list event;                       (* latest event first *)
  clock : Q;                                (* seconds, UTC *)
  name : string;
  firmware_version : string;
  serial_number : string;
  cfg : gmap string Q;
  heater_cfg : gmap string Q;
  heater_PID : pid;
  PWM : option Q;
  impulse_heating : option bool;            (* None, False or True *)
  impulse_start : option Q;
  db_weather : list entry;                  (* [self.db.weather] *)
  db_current : list (string * gmap string pyval)  (* [self.db.current] *)
}.
Arguments AAG {D} s.
Arguments trace {D} s.
Arguments clock {D} s.
Arguments name {D} s.
Arguments firmware_version {D} s.
Arguments serial_number {D} s.
Arguments cfg {D} s.
Arguments heater_cfg {D} s.
Arguments heater_PID {D} s.
Arguments PWM {D} s.
Arguments impulse_heating {D} s.
Arguments impulse_start {D} s.
Arguments db_weather {D} s.
Arguments db_current {D} s.

Section Monad.
Context {D : Type}.

Definition M (A : Type) : Type := sensor D -> outcome A * sensor D.

Definition ret {A} (a : A) : M A := fun s => (Ok a, s).

Definition bind {A B} (m : M A) (k : A -> M B) : M B :=
  fun s => match m s with
           | (Ok a, s') => k a s'
           | (Raise e, s') => (Raise e, s')
           end.

Definition raise {A} (e : exn) : M A := fun s => (Raise e, s).

(** [try: body / except: handler] with a bare [except]. *)
Definition try_except {A} (body handler : M A) : M A :=
  fun s => match body s with
           | (Ok a, s') => (Ok a, s')
           | (Raise _, s') => handler s'
           end.

Definition gets {A} (f : sensor D -> A) : M A := fun s => (Ok (f s), s).

Definition modify (f : sensor D -> sensor D) : M unit := fun s => (Ok tt, f s).

Definition with_AAG (d : D) (s : sensor D) : sensor D :=
  {| AAG := d; trace := trace s; clock := clock s;
     name := name s; firmware_version := firmware_version s;
     serial_number := serial_number s; cfg := cfg s;
     heater_cfg := heater_cfg s; heater_PID := heater_PID s;
     PWM := PWM s;
     impulse_heating := impulse_heating s; impulse_start := impulse_start s;
     db_weather := db_weather s; db_current := db_current s |}.

Definition with_event (e : event) (s : sensor D) : sensor D :=
  {| AAG := AAG s; trace := e :: trace s; clock := clock s;
     name := name s; firmware_version := firmware_version s;
     serial_number := serial_number s; cfg := cfg s;
     heater_cfg := heater_cfg s; heater_PID := heater_PID s;
     PWM := PWM s;
     impulse_heating := impulse_heating s; impulse_start := impulse_start s;
     db_weather := db_weather s; db_current := db_current s |}.

Definition with_clock (t : Q) (s : sensor D) : sensor D :=
  {| AAG := AAG s; trace := trace s; clock := t;
     name := name s; firmware_version := firmware_version s;
     serial_number := serial_number s; cfg := cfg s;
     heater_cfg := heater_cfg s; heater_PID := heater_PID s;
     PWM := PWM s;
     impulse_heating := impulse_heating s; impulse_start := impulse_start s;
     db_weather := db_weather s; db_current := db_current s |}.

Definition with_PWM (p : option Q) (s : sensor D) : sensor D :=
  {| AAG := AAG s; trace := trace s; clock := clock s;
     name := name s; firmware_version := firmware_version s;
     serial_number := serial_number s; cfg := cfg s;
     heater_cfg := heater_cfg s; heater_PID := heater_PID s;
     PWM := p;
     impulse_heating := impulse_heating s; impulse_start := impulse_start s;
     db_weather := db_weather s; db_current := db_current s |}.

Definition with_PID (c : pid) (s : sensor D) : sensor D :=
  {| AAG := AAG s; trace := trace s; clock := clock s;
     name := name s; firmware_version := firmware_version s;
     serial_number := serial_number s; cfg := cfg s;
     heater_cfg := heater_cfg s; heater_PID := c; PWM := PWM s;
     impulse_heating := impulse_heating s; impulse_start := impulse_start s;
     db_weather := db_weather s; db_current := db_current s |}.

Definition with_weather (w : list entry) (s : sensor D) : sensor D :=
  {| AAG := AAG s; trace := trace s; clock := clock s;
     name := name s; firmware_version := firmware_version s;
     serial_number := serial_number s; cfg := cfg s;
     heater_cfg := heater_cfg s; heater_PID := heater_PID s; PWM := PWM s;
     impulse_heating := impulse_heating s; impulse_start := impulse_start s;
     db_weather := w; db_current := db_current s |}.

Definition with_impulse (h : option bool) (t : option Q) (s : sensor D)
  : sensor D :=
  {| AAG := AAG s; trace := trace s; clock := clock s;
     name := name s; firmware_version := firmware_version s;
     serial_number := serial_number s; cfg := cfg s;
     heater_cfg := heater_cfg s; heater_PID := heater_PID s;
     PWM := PWM s;
     impulse_heating := h; impulse_start := t;
     db_weather := db_weather s; db_current := db_current s |}.

Definition with_current (c : list (string * gmap string pyval))
  (s : sensor D) : sensor D :=
  {| AAG := AAG s; trace := trace s; clock := clock s;
     name := name s; firmware_version := firmware_version s;
     serial_number := serial_number s; cfg := cfg s;
     heater_cfg := heater_cfg s; heater_PID := heater_PID s;
     PWM := PWM s;
     impulse_heating := impulse_heating s; impulse_start := impulse_start s;
     db_weather := db_weather s; db_current := c |}.

End Monad.

Arguments M : clear implicits.

Notation "x <- m ;; k" := (bind m (fun x => k))
  (at level 100, m at next level, right associativity).
Notation "m ;;; k" := (bind m (fun _ => k))
  (at level 100, right associativity).

(** Number of [write]s in a trace. *)
Fixpoint writes (tr : list event) : nat :=
  match tr with
  | EvWrite _ :: tr' => S (writes tr')
  | EvSleep _ :: tr' => writes tr'
  | [] => O
  end.

(** The [sleep]s of a given length in a trace. *)
Fixpoint sleeps (d : Q) (tr : list event) : nat :=
  match tr with
  | EvSleep x :: tr' => if Qeq_bool x d then S (sleeps d tr') else sleeps d tr'
  | EvWrite _ :: tr' => sleeps d tr'
  | [] => O
  end.

(** ** Protocol engine: [send] and [query] *)
Module Protocol.

(** [self.commands], in the order of the source. *)
Definition commands : list (string * string) :=
  [ ("!A", "Get internal name");
    ("!B", "Get firmware version");
    ("!C", "Get values");
    ("!D", "Get internal errors");
    ("!E", "Get rain frequency");
    ("!F", "Get switch status");
    ("!G", "Set switch open");
    ("!H", "Set switch closed");
    ("P\d\d\d\d!", "Set PWM value");
    ("!Q", "Get PWM value");
    ("!S", "Get sky IR temperature");
    ("!T", "Get sensor temperature");
    ("!z", "Reset RS232 buffer pointers");
    ("!K", "Get serial number");
    ("v!", "Query if anemometer enabled");
    ("V!", "Get wind speed");
    ("M!", "Get electrical constants");
    ("!Pxxxx", "Set PWM value to xxxx") ].

(** [self.expects]. *)
Definition expects_table : list (string * string) :=
  [ ("!A", "!N\s+(\w+)!");
    ("!B", "!V\s+([\d\.\-]+)!");
    ("!C", "!6\s+([\d\.\-]+)!4\s+([\d\.\-]+)!5\s+([\d\.\-]+)!");
    ("!D", "!E1\s+([\d\.]+)!E2\s+([\d\.]+)!E3\s+([\d\.]+)!E4\s+([\d\.]+)!");
    ("!E", "!R\s+([\d\.\-]+)!");
    ("!F", "!Y\s+([\d\.\-]+)!");
    ("P\d\d\d\d!", "!Q\s+([\d\.\-]+)!");
    ("!Q", "!Q\s+([\d\.\-]+)!");
    ("!S", "!1\s+([\d\.\-]+)!");
    ("!T", "!2\s+([\d\.\-]+)!");
    ("!K", "!K(\d+)\s*\x00!");
    ("v!", "!v\s+([\d\.\-]+)!");
    ("V!", "!w\s+([\d\.\-]+)!");
    ("M!", "!M(.{12})") ].

Definition expects : gmap string string := list_to_map expects_table.

(** The pattern of the trailer that [send] strips from a reply. *)
Definition trailer : string := "(!.*)\x11\s{12}0".

(** [self.delays]. *)
Definition delays : gmap string Q :=
  list_to_map [ ("!E", 0.350%Q); ("P\d\d\d\d!", 0.750%Q) ].

(** [self.hibernate]: time to wait after a failed query. *)
Definition hibernate : Q := 0.500%Q.

Definition matches (pattern text : string) : bool :=
  match Re.re_match pattern text with
  | Some _ => true
  | None => false
  end.

(** The [for cmd in self.commands.keys()] loop with its [break]: the first
    key that matches the request. *)
Definition find_command (request : string) : option string :=
  option_map fst (find (fun kv => matches (fst kv) request) commands).

Section WithPort.
Context {D : Type} `{Transport D}.

Definition read_all : M D string :=
  fun s => let (txt, d) := port_read (AAG s) in (Ok txt, with_AAG d s).

Definition write (bytes : string) : M D unit :=
  modify (fun s => with_event (EvWrite bytes)
                     (with_AAG (port_write bytes (AAG s)) s)).

Definition sleep (seconds : Q) : M D unit :=
  modify (fun s => with_event (EvSleep seconds)
                     (with_clock (clock s + seconds)%Q
                        (with_AAG (port_wait seconds (AAG s)) s))).

(** [send(self, send, delay)]; [None] for an unknown command. *)
Definition send (request : string) (delay : Q) : M D (option string) :=
  match find_command request with
  | None => ret None
  | Some _ =>
      _ <- read_all ;;
      write request ;;;
      sleep delay ;;;
      response <- read_all ;;
      match Re.re_match trailer response with
      | Some (g :: _) => ret (Some g)
      | Some [] => raise IndexError
      | None => ret (Some response)
      end
  end.

(** Truth value of [result] in [while not result]: [None] and the empty
    tuple are false. *)
Definition truthy (result : option (list string)) : bool :=
  match result with
  | Some (_ :: _) => true
  | _ => false
  end.

(** The [while] loop of [query]. *)
Fixpoint query_loop (fuel : nat) (request : string) (delay : Q)
  (expect : string) (maxtries count : Z) (result : option (list string))
  : M D (option (list string)) :=
  if negb (truthy result) && (count <=? maxtries) then
    match fuel with
    | O => raise Unterminated
    | S fuel' =>
        let count := count + 1 in
        r <- send request delay ;;
        match r with
        | None => raise TypeError          (* [re.match(expect, None)] *)
        | Some text =>
            match Re.re_match expect text with
            | None =>
                sleep hibernate ;;;
                query_loop fuel' request delay expect maxtries count None
            | Some groups =>
                query_loop fuel' request delay expect maxtries count
                  (Some groups)
            end
        end
    end
  else ret result.

(** [query(self, send, maxtries)]. *)
Definition query (request : string) (maxtries : Z)
  : M D (option (list string)) :=
  match find_command request with
  | None => ret None
  | Some cmd =>
      let delay := default 0.200%Q (delays !! cmd) in
      match expects !! cmd with
      | None => raise (KeyError cmd)
      | Some expect =>
          query_loop (Z.to_nat (maxtries + 2)) request delay expect
            maxtries 0 None
      end
  end.

End WithPort.
End Protocol.

(** ** Test devices *)

(** A device that plays a script: each [write] makes the next reply of the
    script readable; reading empties the buffer. *)
Record scripted := { buffer : string; script : list string }.

#[export] Instance scripted_port : Transport scripted := {|
  port_read d := (buffer d, {| buffer := EmptyString; script := script d |});
  port_write _ d :=
    match script d with
    | reply :: rest => {| buffer := buffer d +:+ reply; script := rest |}
    | [] => d
    end;
  port_wait _ d := d
|}.

(** A fresh driver object on a port, at time 0 with an empty store. *)
Definition fresh {D : Type} (port : D) : sensor D :=
  {| AAG := port; trace := []; clock := 0%Q;
     name := "CloudWatcher"; firmware_version := "5.6";
     serial_number := "0905"; cfg := ∅;
     heater_cfg := list_to_map
       [ ("low_temp", 0%Q); ("low_delta", 6%Q); ("high_temp", 20%Q);
         ("high_delta", 4%Q); ("min_power", 10%Q); ("impulse_temp", 10%Q);
         ("impulse_duration", 60%Q); ("impulse_cycle", 600%Q) ];
     heater_PID := {| Kp := 3.0; Ki := 0.02; Kd := 200.0; max_age := 300;
                      output_limits := (10%Q, 100%Q); history := [] |};
     PWM := None; impulse_heating := None; impulse_start := None;
     db_weather := []; db_current := [] |}.

Definition play (replies : list string) : sensor scripted :=
  fresh {| buffer := EmptyString; script := replies |}.

(** ** Numbers as text *)

Definition digit_char (d : Z) : ascii := ascii_of_nat (48 + Z.to_nat d).

(** Decimal digits of a natural number, most significant first. *)
Fixpoint digits_of (fuel : nat) (n : Z) (acc : string) : string :=
  match fuel with
  | O => acc
  | S fuel' =>
      let acc' := String (digit_char (n mod 10)) acc in
      if n <? 10 then acc' else digits_of fuel' (n / 10) acc'
  end.

Definition decimal (n : Z) : string :=
  digits_of (S (Z.to_nat (Z.log2 n))) n EmptyString.

(** [str(z)] for an integer. *)
Definition py_str_int (z : Z) : string :=
  if z <? 0 then String "-" (decimal (- z)) else decimal z.

Fixpoint zeros (n : nat) : string :=
  match n with
  | O => EmptyString
  | S n' => String "0" (zeros n')
  end.

(** ['{:04d}'.format(z)]: at least four characters, zeros after the sign. *)
Definition format_04d (z : Z) : string :=
  if z <? 0
  then String "-" (zeros (3 - String.length (decimal (- z))) +:+ decimal (- z))
  else zeros (4 - String.length (decimal z)) +:+ decimal z.

(** Round to the nearest integer, ties to even. *)
Definition round_half_even (x : Q) : Z :=
  let d := Z.pos (Qden x) in
  let f := Qnum x / d in
  let r := 2 * (Qnum x mod d) in
  if r <? d then f
  else if d <? r then f + 1
  else if Z.even f then f else f + 1.

(** ["{:.02f}".format(x)]: two digits after the point. *)
Definition format_02f (x : Q) : string :=
  let c := round_half_even (x * 100) in
  let a := Z.abs c in
  (if Qlt_bool x 0 then "-" else "")
  +:+ decimal (a / 100) +:+ "."
  +:+ String (digit_char (a / 10 mod 10)) (String (digit_char (a mod 10)) "").

(** The leading digits of a text: their value, their number, the rest. *)
Fixpoint take_digits (s : string) (acc : Z) (n : nat) : Z * nat * string :=
  match s with
  | String c r =>
      if Re.is_digit c
      then take_digits r (10 * acc + Z.of_nat (Re.code c - 48)) (S n)
      else (acc, n, s)
  | EmptyString => (acc, n, s)
  end.

(** [float(text)] on the texts the reply patterns capture (digits, points
    and minus signs): an optional sign, digits with at most one point, at
    least one digit; anything else is a [ValueError]. *)
Definition py_float (text : string) : option Q :=
  let '(neg, s1) := match text with
                    | String "-" r => (true, r)
                    | _ => (false, text)
                    end in
  let '(ip, ni, s2) := take_digits s1 0 O in
  let signed (q : Q) := if neg : bool then Qopp q else q in
  match s2 with
  | EmptyString => if (ni =? 0)%nat then None else Some (signed (ip # 1))
  | String "." s3 =>
      let '(fp, nf, s4) := take_digits s3 0 O in
      match s4 with
      | EmptyString =>
          if (ni + nf =? 0)%nat then None
          else Some (signed (Qred ((ip * 10 ^ Z.of_nat nf + fp)
                                   # Z.to_pos (10 ^ Z.of_nat nf))))
      | _ => None
      end
  | _ => None
  end.

(** [int(text)] on the same texts: an optional sign and digits. *)
Definition py_int_of_text (text : string) : option Z :=
  let '(neg, s1) := match text with
                    | String "-" r => (true, r)
                    | _ => (false, text)
                    end in
  match take_digits s1 0 O with
  | (v, S _, EmptyString) => Some (if neg : bool then - v else v)
  | _ => None
  end.

(** ** numpy's median *)

Fixpoint insert_sorted (x : Q) (l : list Q) : list Q :=
  match l with
  | [] => [x]
  | y :: l' => if Qle_bool x y then x :: l else y :: insert_sorted x l'
  end.

Definition sort (l : list Q) : list Q := fold_right insert_sorted [] l.

(** [np.median(values)]: the middle of the sorted values, or the mean of
    the two middle ones.  (Of no value numpy makes a NaN, which the model
    does not have; the getters ask for it only when [n <= 1].) *)
Definition np_median (values : list Q) : Q :=
  let s := sort values in
  let k := (length s / 2)%nat in
  if Nat.even (length s)
  then Qred ((nth (k - 1) s 0 + nth k s 0) / 2)%Q
  else nth k s 0%Q.

(** ** Sample aggregator: the [get_*] methods *)
Module Aggregator.
Import Protocol.

Section WithPort.
Context {D : Type} `{Transport D}.

(** [result[0]] of what [query] returned. *)
Definition item0 (result : option (list string)) : M D string :=
  match result with
  | Some (x :: _) => ret x
  | Some [] => raise IndexError
  | None => raise TypeError
  end.

Definition float_ (text : string) : M D Q :=
  match py_float text with
  | Some q => ret q
  | None => raise ValueError
  end.

(** Python's float division. *)
Definition fdiv (a b : Q) : M D Q :=
  if Qeq_bool b 0 then raise ZeroDivisionError else ret (a / b)%Q.

(** [for i in range(0, n): try: v = attempt() / except: pass / else:
    values.append(v)]. *)
Fixpoint collect (n : nat) (attempt : M D Q) (values : list Q) : M D (list Q) :=
  match n with
  | O => ret values
  | S n' =>
      r <- try_except (v <- attempt ;; ret (Some v)) (ret None) ;;
      collect n' attempt
        (match r with Some v => values ++ [v] | None => values end)
  end.

(** The closing [if len(values) >= n - 1]. *)
Definition median_if_enough (n : Z) (values : list Q) : option Q :=
  if n - 1 <=? Z.of_nat (length values)
  then Some (np_median values) else None.

Definition get_ambient_temperature (n : Z) : M D (option Q) :=
  values <- collect (Z.to_nat n)
              (r <- query "!T" 5 ;; x <- item0 r ;; value <- float_ x ;;
               ret (value / 100)%Q) [] ;;
  ret (median_if_enough n values).

Definition get_sky_temperature (n : Z) : M D (option Q) :=
  values <- collect (Z.to_nat n)
              (r <- query "!S" 5 ;; x <- item0 r ;; value <- float_ x ;;
               ret (value / 100)%Q) [] ;;
  ret (median_if_enough n values).

Definition get_rain_frequency (n : Z) : M D (option Q) :=
  values <- collect (Z.to_nat n)
              (r <- query "!E" 5 ;; x <- item0 r ;; float_ x) [] ;;
  ret (median_if_enough n values).

(** [get_PWM]; the result is also stored in [self.PWM]. *)
Definition get_PWM : M D (option Q) :=
  p <- try_except
         (r <- query "!Q" 5 ;; value <- item0 r ;; v <- float_ value ;;
          ret (Some (v * 100 / 1023)%Q))
         (ret None) ;;
  modify (with_PWM p) ;;;
  ret p.

(** [get_errors]: the four counters as texts, or four [None]s. *)
Definition get_errors : M D pyval :=
  response <- query "!D" 5 ;;
  if truthy response then
    let counter (i : nat) : M D pyval :=
      match nth_error (default [] response) i with
      | None => raise IndexError
      | Some x => match py_int_of_text x with
                  | Some z => ret (PyStr (py_str_int z))
                  | None => raise ValueError
                  end
      end in
    e1 <- counter 0%nat ;; e2 <- counter 1%nat ;;
    e3 <- counter 2%nat ;; e4 <- counter 3%nat ;;
    ret (PyDict [("error_1", e1); ("error_2", e2);
                 ("error_3", e3); ("error_4", e4)])
  else
    ret (PyDict [("error_1", PyNone); ("error_2", PyNone);
                 ("error_3", PyNone); ("error_4", PyNone)]).

(** [wind_speed_enabled]: [bool(text)] is true of a text that is not
    empty; [None] when the query failed. *)
Definition wind_speed_enabled : M D (option bool) :=
  try_except
    (r <- query "v!" 5 ;; x <- item0 r ;;
     ret (Some (negb (String.eqb x EmptyString))))
    (ret None).

(** The [for] loop of [get_wind_speed]; no [try] here. *)
Fixpoint wind_loop (n : nat) (values : list Q) : M D (list Q) :=
  match n with
  | O => ret values
  | S n' =>
      result <- query "V!" 5 ;;
      if truthy result then
        x <- item0 result ;; value <- float_ x ;;
        wind_loop n' (values ++ [value])
      else wind_loop n' values
  end.

Definition get_wind_speed (n : Z) : M D (option Q) :=
  enabled <- wind_speed_enabled ;;
  if default false enabled then
    values <- wind_loop (Z.to_nat n) [] ;;
    ret (if 3 <=? Z.of_nat (length values)
         then Some (np_median values) else None)
  else ret None.

(** [get_values]: three quantities from one query.  [np_log] is numpy's
    logarithm. *)
Section Values.
Variable np_log : Q -> Q.

Definition ZenerConstant : Q := 3.
Definition LDRPullupResistance : Q := 56.
Definition RainPullUpResistance : Q := 1.
Definition RainResAt25 : Q := 1.
Definition RainBeta : Q := 3450.
Definition ABSZERO : Q := 273.15.

Definition field (responses : option (list string)) (i : nat) : M D string :=
  match responses with
  | None => raise TypeError
  | Some l => match nth_error l i with
              | Some x => ret x
              | None => raise IndexError
              end
  end.

(** One turn of the loop: the three lists grow one after the other, and an
    exception leaves the later ones as they were. *)
Definition values_turn (acc : list Q * list Q * list Q)
  : M D (list Q * list Q * list Q) :=
  let '(ivs, ldrs, rsts) := acc in
  responses <- query "!C" 5 ;;
  fun s1 =>
  match (x0 <- field responses 0 ;; r0 <- float_ x0 ;;
         fdiv (1023 * ZenerConstant) r0) s1 with
  | (Raise _, s2) => (Ok (ivs, ldrs, rsts), s2)
  | (Ok internal_voltage, s2) =>
      let ivs := (ivs ++ [internal_voltage])%list in
      match (x1 <- field responses 1 ;; r1 <- float_ x1 ;;
             a <- fdiv 1023 r1 ;; fdiv LDRPullupResistance (a - 1)) s2 with
      | (Raise _, s3) => (Ok (ivs, ldrs, rsts), s3)
      | (Ok LDR_resistance, s3) =>
          let ldrs := (ldrs ++ [LDR_resistance])%list in
          match (x2 <- field responses 2 ;; r2 <- float_ x2 ;;
                 a <- fdiv 1023 r2 ;;
                 b <- fdiv RainPullUpResistance (a - 1) ;;
                 c <- fdiv b RainResAt25 ;;
                 let r := np_log c in
                 ret (1 / ((r / RainBeta) + (1 / (ABSZERO + 25))) - ABSZERO)%Q)
                  s3 with
          | (Raise _, s4) => (Ok (ivs, ldrs, rsts), s4)
          | (Ok rain_sensor_temp, s4) =>
              (Ok (ivs, ldrs, (rsts ++ [rain_sensor_temp])%list), s4)
          end
      end
  end.

Fixpoint values_loop (n : nat) (acc : list Q * list Q * list Q)
  : M D (list Q * list Q * list Q) :=
  match n with
  | O => ret acc
  | S n' => acc' <- values_turn acc ;; values_loop n' acc'
  end.

Definition get_values (n : Z) : M D (option Q * option Q * option Q) :=
  acc <- values_loop (Z.to_nat n) ([], [], []) ;;
  let '(ivs, ldrs, rsts) := acc in
  ret (median_if_enough n ivs, median_if_enough n ldrs,
       median_if_enough n rsts).

End Values.

(** *** The PWM setter *)

Definition Qabs_ (x : Q) : Q := if Qlt_bool x 0 then Qopp x else x.

(** The [while] loop of [set_PWM]. *)
Fixpoint set_PWM_loop (fuel : nat) (percent : Q) (ntries count : Z)
  (success : bool) : M D unit :=
  if negb success && (count <=? ntries) then
    match fuel with
    | O => raise Unterminated
    | S fuel' =>
        let send_digital := py_int (1023 * percent / 100) in
        let send_string := "P" +:+ format_04d send_digital +:+ "!" in
        result <- query send_string 5 ;;
        let count := count + 1 in
        if truthy result then
          x <- item0 result ;; v <- float_ x ;;
          let pwm := (v * 100 / 1023)%Q in
          modify (with_PWM (Some pwm)) ;;;
          if Qgt_bool (Qabs_ (pwm - percent)) 5
          then sleep 2 ;;; set_PWM_loop fuel' percent ntries count success
          else set_PWM_loop fuel' percent ntries count true
        else set_PWM_loop fuel' percent ntries count success
    end
  else ret tt.

Definition set_PWM (percent : Q) (ntries : Z) : M D unit :=
  let percent := if Qlt_bool percent 0 then 0%Q else percent in
  let percent := if Qgt_bool percent 100 then 100%Q else percent in
  set_PWM_loop (Z.to_nat (ntries + 2)) percent ntries 0 false.

End WithPort.
End Aggregator.

(** ** Dynamically typed values in expressions *)

(** Truth value of a Python object. *)
Definition py_truth (v : pyval) : bool :=
  match v with
  | PyNone => false
  | PyBool b => b
  | PyFloat q => negb (Qeq_bool q 0)
  | PyStr s => negb (String.eqb s EmptyString)
  | PyDict kv => match kv with [] => false | _ :: _ => true end
  end.

(** An operand of [+], [-], [<], [<=], [>] whose other operand is a float
    (Python 3: a text or [None] there is a [TypeError]). *)
Definition py_num (v : pyval) : outcome Q :=
  match v with
  | PyFloat q => Ok q
  | PyBool b => Ok (if b then 1 else 0)%Q
  | _ => Raise TypeError
  end.

(** [float(v)]. *)
Definition float_of (v : pyval) : outcome Q :=
  match v with
  | PyFloat q => Ok q
  | PyBool b => Ok (if b then 1 else 0)%Q
  | PyStr s => match py_float s with
               | Some q => Ok q
               | None => Raise ValueError
               end
  | _ => Raise TypeError
  end.

(** [key in d.keys()]. *)
Definition has_key {V : Type} (d : gmap string V) (key : string) : bool :=
  match d !! key with
  | Some _ => true
  | None => false
  end.

(** [d[key]]. *)
Definition getitem {V : Type} (d : gmap string V) (key : string) : outcome V :=
  match d !! key with
  | Some v => Ok v
  | None => Raise (KeyError key)
  end.

Definition lift {D A : Type} (o : outcome A) : M D A := fun s => (o, s).

(** [collection.find({'date': {'$gt': start, '$lt': stop}})]. *)
Definition find_between (start stop : Q) (docs : list entry) : list entry :=
  List.filter (fun x => Qlt_bool start (date x) && Qlt_bool (date x) stop) docs.

(** ** Heater controller *)
Module Heater.
Import Protocol Aggregator.

Inductive mode := Proportional | Impulse.

Section WithPort.
Context {D : Type} `{Transport D}.

(** The mode the flag [self.impulse_heating] stands for ([None] and
    [False] alike are "not impulse"). *)
Definition mode_of (s : sensor D) : mode :=
  if default false (impulse_heating s) then Impulse else Proportional.

(** The chain of [if]/[elif] of the lookup table: the value bound to
    [deltaPWM], if any branch binds it. *)
Definition deltaPWM_of (deltaT : Q) : option Q :=
  let scaling := 0.5%Q in
  if Qgt_bool deltaT 8 then Some (-40 * scaling)%Q
  else if Qgt_bool deltaT 4 then Some (-20 * scaling)%Q
  else if Qgt_bool deltaT 3 then Some (-10 * scaling)%Q
  else if Qgt_bool deltaT 2 then Some (-6 * scaling)%Q
  else if Qgt_bool deltaT 1 then Some (-4 * scaling)%Q
  else if Qgt_bool deltaT 0.5 then Some (-2 * scaling)%Q
  else if Qgt_bool deltaT 0.3 then Some (-1 * scaling)%Q
  else if Qlt_bool deltaT (-0.3) then Some (1 * scaling)%Q
  else if Qlt_bool deltaT (-0.5) then Some (2 * scaling)%Q
  else if Qlt_bool deltaT (-1) then Some (4 * scaling)%Q
  else if Qlt_bool deltaT (-2) then Some (6 * scaling)%Q
  else if Qlt_bool deltaT (-3) then Some (10 * scaling)%Q
  else if Qlt_bool deltaT (-4) then Some (20 * scaling)%Q
  else if Qlt_bool deltaT (-8) then Some (40 * scaling)%Q
  else None.

(** [AAG_heater_algorithm(self, target, last_entry)]. *)
Definition AAG_heater_algorithm (target : Q) (last_entry : gmap string pyval)
  : M D Z :=
  v <- lift (getitem last_entry "rain_sensor_temp_C") ;;
  t <- lift (py_num v) ;;
  let deltaT := (t - target)%Q in
  match deltaPWM_of deltaT with
  | Some deltaPWM => ret (py_int deltaPWM)
  | None => raise (UnboundLocalError "deltaPWM")
  end.

(** [[x['data']['rain_safe'] for x in entries if 'rain_safe' in
    x['data'].keys()]]. *)
Definition rain_history_of (entries : list entry) : list pyval :=
  omap (fun x => data x !! "rain_safe") entries.

(** [len(rain_history) > 3 and not np.any(rain_history)]. *)
Definition persistent_rain (rain_history : list pyval) : bool :=
  (3 <? length rain_history)%nat && negb (existsb py_truth rain_history).

(** [self.heater_cfg[key]]. *)
Definition heater_item (key : string) : M D Q :=
  fun s => (getitem (heater_cfg s) key, s).

(** Lines 678-699: whether to use the impulse heating mechanism. *)
Definition impulse_decision (now : Q) (rain_history : list pyval) : M D unit :=
  if persistent_rain rain_history then
    heating <- gets impulse_heating ;;
    if default false heating then
      start <- gets impulse_start ;;
      match start with
      | None => raise TypeError
      | Some t0 =>
          let impulse_time := (now - t0)%Q in
          duration <- heater_item "impulse_duration" ;;
          if Qgt_bool impulse_time duration
          then modify (with_impulse (Some false) None)
          else ret tt
      end
    else modify (with_impulse (Some true) (Some now))
  else modify (with_impulse (Some false) None).

Section WithPID.
(** [PID.recalculate(value, new_set_point)] (class PID is not in
    src/AAG.py), taken as it comes: from the controller's state, the time,
    the measured value and the set point to the output and the next
    state. *)
Variable recalculate : pid -> Q -> Q -> Q -> Q * pid.

(** The [data] of the documents of a given type in [self.db.current]. *)
Definition current_of (type : string) (s : sensor D)
  : list (gmap string pyval) :=
  map snd (List.filter (fun d => String.eqb (fst d) type) (db_current s)).

(** [calculate_and_set_PWM(self)]. *)
Definition calculate_and_set_PWM : M D unit :=
  now <- gets clock ;;
  cycle <- heater_item "impulse_cycle" ;;
  let start := (now - inject_Z (py_int cycle))%Q in
  entries <- gets (fun s => find_between start now (db_weather s)) ;;
  found <- gets (current_of "weather") ;;
  last_entry <- lift (match found with
                      | x :: _ => Ok x
                      | [] => Raise IndexError
                      end) ;;
  let rain_history := rain_history_of entries in
  match last_entry !! "ambient_temp_C", last_entry !! "rain_sensor_temp_C" with
  | None, _ => ret tt
  | Some _, None => ret tt
  | Some ambient, Some rain_temp =>
      impulse_decision now rain_history ;;;
      heating <- gets impulse_heating ;;
      if default false heating then
        a <- lift (float_of ambient) ;;
        impulse_temp <- heater_item "impulse_temp" ;;
        let target_temp := (a + impulse_temp)%Q in
        r <- lift (py_num rain_temp) ;;
        if Qlt_bool r target_temp then set_PWM 100 15
        else
          new_PWM <- AAG_heater_algorithm target_temp last_entry ;;
          set_PWM (inject_Z new_PWM) 15
      else
        low_temp <- heater_item "low_temp" ;;
        a <- lift (py_num ambient) ;;
        deltaT <-
          (if Qlt_bool a low_temp then heater_item "low_delta"
           else
             high_temp <- heater_item "high_temp" ;;
             if Qgt_bool a high_temp then heater_item "high_delta"
             else
               frac <- fdiv (a - low_temp) (high_temp - low_temp) ;;
               low_delta <- heater_item "low_delta" ;;
               high_delta <- heater_item "high_delta" ;;
               ret (low_delta + frac * (high_delta - low_delta))%Q) ;;
        let target_temp := (a + deltaT)%Q in
        actual <- lift (float_of rain_temp) ;;
        out <- (fun s =>
                  let (o, c) := recalculate (heater_PID s) (clock s)
                                  actual target_temp in
                  (Ok o, with_PID c s)) ;;
        set_PWM (inject_Z (py_int out)) 15
  end.

End WithPID.
End WithPort.
End Heater.

(** ** Safety decision *)
Module Safety.

(** The dictionary [make_safety_decision] returns. *)
Record verdict := {
  Safe : bool;
  Sky : string;
  Wind : string;
  Gust : string;
  Rain : string
}.

Definition obind {A B : Type} (o : outcome A) (k : A -> outcome B) : outcome B :=
  match o with
  | Ok a => k a
  | Raise e => Raise e
  end.

(** A list comprehension whose element expression may raise. *)
Fixpoint traverse {A B : Type} (f : A -> outcome B) (l : list A)
  : outcome (list B) :=
  match l with
  | [] => Ok []
  | x :: l' => obind (f x) (fun y => obind (traverse f l') (fun ys => Ok (y :: ys)))
  end.

(** [max] and [min] of a list that is not empty. *)
Definition list_max (x : Q) (l : list Q) : Q :=
  fold_left (fun m y => if Qlt_bool m y then y else m) l x.

Definition list_min (x : Q) (l : list Q) : Q :=
  fold_left (fun m y => if Qlt_bool y m then y else m) l x.

Definition py_max (l : list Q) : outcome Q :=
  match l with
  | x :: l' => Ok (list_max x l')
  | [] => Raise ValueError
  end.

Definition py_min (l : list Q) : outcome Q :=
  match l with
  | x :: l' => Ok (list_min x l')
  | [] => Raise ValueError
  end.

(** [a - b] on two values of a sample. *)
Definition py_sub (a b : pyval) : outcome Q :=
  obind (py_num a) (fun x => obind (py_num b) (fun y => Ok (x - y)%Q)).

(** *** Thresholds: [self.cfg.get(key, default)] *)
Section Thresholds.
Variable cfg : gmap string Q.

Definition threshold_cloudy : Q := default (-22.5)%Q (cfg !! "threshold_cloudy").
Definition threshold_very_cloudy : Q := default (-15)%Q (cfg !! "threshold_very_cloudy").
Definition threshold_windy : Q := default 20%Q (cfg !! "threshold_windy").
Definition threshold_very_windy : Q := default 30%Q (cfg !! "threshold_very_windy").
Definition threshold_gusty : Q := default 40%Q (cfg !! "threshold_gusty").
Definition threshold_very_gusty : Q := default 50%Q (cfg !! "threshold_very_gusty").
Definition threshold_wet : Q := default 2000%Q (cfg !! "threshold_wet").
Definition threshold_rain : Q := default 1700%Q (cfg !! "threshold_rainy").
Definition safety_delay : Q := default 15%Q (cfg !! "safety_delay").

(** *** Cloudiness (lines 760-784)

    The filter [('ambient_temp_C' and 'sky_temp_C') in x['data'].keys()]
    tests the value of the [and], which is its second operand: the key
    ['sky_temp_C'] alone. *)
Definition sky_diff (entries : list entry) : outcome (list Q) :=
  traverse
    (fun x => obind (getitem (data x) "sky_temp_C") (fun s =>
              obind (getitem (data x) "ambient_temp_C") (fun a =>
              py_sub s a)))
    (List.filter (fun x => has_key (data x) "sky_temp_C") entries).

Definition sky_category (entries : list entry)
  (current_values : gmap string pyval) : outcome (bool * string) :=
  obind (sky_diff entries) (fun diffs =>
  if (length diffs =? 0)%nat then Ok (false, "Unknown")
  else
    obind (py_max diffs) (fun m =>
    let sky_safe := negb (Qgt_bool m threshold_very_cloudy) in
    obind (getitem current_values "sky_temp_C") (fun s =>
    obind (getitem current_values "ambient_temp_C") (fun a =>
    obind (py_sub s a) (fun last_cloud =>
    let cloud_condition :=
      if Qgt_bool last_cloud threshold_very_cloudy then "Very Cloudy"
      else if Qgt_bool last_cloud threshold_cloudy then "Cloudy"
      else "Clear" in
    Ok (sky_safe, cloud_condition)))))).

(** *** Wind and gusts (lines 786-834) *)

(** [np.convolve(a, v, 'full')]. *)
Definition convolve_full (a v : list Q) : list Q :=
  map (fun j =>
         fold_right Qplus 0%Q
           (map (fun i => if (i <=? j)%nat
                          then (nth i a 0 * nth (j - i) v 0)%Q else 0%Q)
                (seq 0 (length a))))
      (seq 0 (length a + length v - 1)).

(** [np.convolve(a, v, 'same')]: the middle of the full convolution, as
    long as the longer of the two. *)
Definition convolve_same (a v : list Q) : list Q :=
  let n := Nat.min (length a) (length v) in
  firstn (Nat.max (length a) (length v))
    (skipn (n - 1 - n / 2) (convolve_full a v)).

(** [movingaverage(interval, window_size)]. *)
Definition movingaverage (interval : list Q) (window_size : Z) : outcome (list Q) :=
  if window_size <=? 0 then Raise ValueError
  else
    let window := repeat (1 / inject_Z window_size)%Q (Z.to_nat window_size) in
    match interval with
    | [] => Raise ValueError
    | _ => Ok (map Qred (convolve_same interval window))
    end.

(** [np.ceil] followed by [int]. *)
Definition ceil (x : Q) : Z := - (Qnum (- x) / Z.pos (Qden x)).

Definition py_last (l : list Q) : outcome Q :=
  match rev l with
  | x :: _ => Ok x
  | [] => Raise IndexError
  end.

Definition wind_category (stop : Q) (entries : list entry)
  (current_values : gmap string pyval)
  : outcome ((bool * string) * (bool * string)) :=
  obind (traverse py_num (omap (fun x => data x !! "wind_speed_KPH") entries))
    (fun wind_speed =>
  if (length wind_speed =? 0)%nat
  then Ok ((false, "Unknown"), (false, "Unknown"))
  else
    obind (py_min (map date entries)) (fun first =>
    let typical_data_interval :=
      ((stop - first) / inject_Z (Z.of_nat (length entries)))%Q in
    if Qeq_bool typical_data_interval 0 then Raise ZeroDivisionError
    else
    let mavg_count := ceil (120 / typical_data_interval) in
    obind (movingaverage wind_speed mavg_count) (fun wind_mavg =>
    obind (py_max wind_mavg) (fun mw =>
    let wind_safe := negb (Qgt_bool mw threshold_very_windy) in
    obind (py_last wind_mavg) (fun lw =>
    let wind_condition :=
      if Qgt_bool lw threshold_very_windy then "Very Windy"
      else if Qgt_bool lw threshold_windy then "Windy"
      else "Calm" in
    obind (py_max wind_speed) (fun mg =>
    let gust_safe := negb (Qgt_bool mg threshold_very_gusty) in
    obind (getitem current_values "wind_speed_KPH") (fun cw =>
    obind (py_num cw) (fun current_wind =>
    let gust_condition :=
      if Qgt_bool current_wind threshold_very_gusty then "Very Gusty"
      else if Qgt_bool current_wind threshold_gusty then "Gusty"
      else "Calm" in
    Ok ((wind_safe, wind_condition), (gust_safe, gust_condition)))))))))).

(** *** Rain (lines 836-865) *)

(** [rf_value]: the rain frequencies of the window. *)
Definition rf_value (entries : list entry) : list pyval :=
  omap (fun x => data x !! "rain_frequency") entries.

Definition rain_category (entries : list entry)
  (current_values : gmap string pyval) : outcome (bool * string) :=
  if (length (rf_value entries) =? 0)%nat then Ok (false, "Unknown")
  else
    obind (getitem current_values "rain_frequency") (fun c =>
    obind (py_num c) (fun rain_frequency =>
    let '(rain_condition, rain_safe) :=
      if Qle_bool rain_frequency threshold_rain then ("Rain", false)
      else if Qle_bool rain_frequency threshold_wet then ("Wet", false)
      else ("Dry", true) in
    if rain_safe then
      obind (traverse py_num (rf_value entries)) (fun values =>
      obind (py_min values) (fun m =>
      let rain_safe :=
        if Qle_bool m threshold_rain then false
        else if Qle_bool m threshold_wet then false
        else true in
      Ok (rain_safe, rain_condition)))
    else Ok (rain_safe, rain_condition))).

End Thresholds.

(** [.sort([('date', pymongo.ASCENDING)])]. *)
Fixpoint insert_by_date (x : entry) (l : list entry) : list entry :=
  match l with
  | [] => [x]
  | y :: l' => if Qle_bool (date x) (date y) then x :: l
               else y :: insert_by_date x l'
  end.

Definition sort_by_date (l : list entry) : list entry :=
  fold_right insert_by_date [] l.

(** [make_safety_decision(self, current_values)]. *)
Definition make_safety_decision {D : Type}
  (current_values : gmap string pyval) : M D verdict :=
  c <- gets cfg ;;
  stop <- gets clock ;;
  let start := (stop - inject_Z (py_int (safety_delay c * 60)))%Q in
  entries <- gets (fun s => sort_by_date (find_between start stop (db_weather s))) ;;
  sky <- lift (sky_category c entries current_values) ;;
  wind <- lift (wind_category c stop entries current_values) ;;
  rain <- lift (rain_category c entries current_values) ;;
  let '(sky_safe, cloud_condition) := sky in
  let '((wind_safe, wind_condition), (gust_safe, gust_condition)) := wind in
  let '(rain_safe, rain_condition) := rain in
  ret {| Safe := sky_safe && wind_safe && gust_safe && rain_safe;
         Sky := cloud_condition; Wind := wind_condition;
         Gust := gust_condition; Rain := rain_condition |}.

End Safety.

(** ** The measurement cycle *)
Module Cycle.
Import Protocol Aggregator Heater Safety.

Section WithPort.
Context {D : Type} `{Transport D}.

(** numpy's logarithm, the PID controller's [recalculate] and the truth
    value astropy gives a [Quantity]: none of them is code of the driver. *)
Variable np_log : Q -> Q.
Variable recalculate : pid -> Q -> Q -> Q -> Q * pid.
Variable quantity_bool : Q -> bool.

(** [if quantity: data[key] = value]. *)
Definition put_if (cond : bool) (key : string) (value : pyval)
  (d : gmap string pyval) : gmap string pyval :=
  if cond then <[key := value]> d else d.

Definition quantity_true (q : option Q) : bool :=
  match q with
  | Some v => quantity_bool v
  | None => false
  end.

(** Truth value of a plain float or [None]. *)
Definition float_true (q : option Q) : bool :=
  match q with
  | Some v => negb (Qeq_bool v 0)
  | None => false
  end.

Definition value_of (q : option Q) : Q := default 0%Q q.

(** Modelled from the spec: [insert_current] of the store (class PanMongo,
    not in src/AAG.py) makes the sample the current one of its type and
    appends it, dated now, to the collection. *)
Definition insert_current (type : string) (d : gmap string pyval) : M D unit :=
  modify (fun s =>
    with_weather (db_weather s ++ [{| date := clock s; data := d |}])
      (with_current
         ((type, d) :: List.filter (fun x => negb (String.eqb (fst x) type))
                         (db_current s)) s)).

(** [capture(self, update_mongo)]. *)
Definition capture (update_mongo : bool) : M D (gmap string pyval) :=
  n <- gets name ;;
  fw <- gets firmware_version ;;
  sn <- gets serial_number ;;
  let data : gmap string pyval :=
    <["weather_sensor_serial_number" := PyStr sn]>
      (<["weather_sensor_firmware_version" := PyStr fw]>
         (<["weather_sensor_name" := PyStr n]> ∅)) in
  sky_temp <- get_sky_temperature 9 ;;
  let data := put_if (quantity_true sky_temp) "sky_temp_C"
                (PyFloat (value_of sky_temp)) data in
  ambient_temp <- get_ambient_temperature 5 ;;
  let data := put_if (quantity_true ambient_temp) "ambient_temp_C"
                (PyFloat (value_of ambient_temp)) data in
  vals <- get_values np_log 5 ;;
  let '(internal_voltage, LDR_resistance, rain_sensor_temp) := vals in
  let data := put_if (quantity_true internal_voltage) "internal_voltage_V"
                (PyFloat (value_of internal_voltage)) data in
  let data := put_if (quantity_true LDR_resistance) "ldr_resistance_Ohm"
                (PyFloat (value_of LDR_resistance)) data in
  let data := put_if (quantity_true rain_sensor_temp) "rain_sensor_temp_C"
                (PyStr (format_02f (value_of rain_sensor_temp))) data in
  rain_frequency <- get_rain_frequency 5 ;;
  let data := put_if (float_true rain_frequency) "rain_frequency"
                (PyFloat (value_of rain_frequency)) data in
  pwm <- get_PWM ;;
  let data := put_if (float_true pwm) "pwm_value"
                (PyFloat (value_of pwm)) data in
  errors <- get_errors ;;
  let data := put_if (py_truth errors) "errors" errors data in
  wind_speed <- get_wind_speed 3 ;;
  let data := put_if (quantity_true wind_speed) "wind_speed_KPH"
                (PyFloat (value_of wind_speed)) data in
  safe_dict <- make_safety_decision data ;;
  let data := <["safe" := PyBool (Safe safe_dict)]> data in
  let data := <["sky_condition" := PyStr (Sky safe_dict)]> data in
  let data := <["wind_condition" := PyStr (Wind safe_dict)]> data in
  let data := <["gust_condition" := PyStr (Gust safe_dict)]> data in
  let data := <["rain_condition" := PyStr (Rain safe_dict)]> data in
  calculate_and_set_PWM recalculate ;;;
  (if update_mongo then insert_current "weather" data else ret tt) ;;;
  ret data.

End WithPort.
End Cycle.

(** ** The switch *)
Module Switch.
Import Protocol.

Section WithPort.
Context {D : Type} `{Transport D}.

(** The [while not status] loop of [get_switch]; [send] is called with
    its default delay of 0.100 s. *)
Fixpoint get_switch_loop (fuel : nat) (maxtries tries : Z) : M D string :=
  match fuel with
  | O => raise Unterminated
  | S fuel' =>
      let tries := tries + 1 in
      r <- send "!F" 0.100%Q ;;
      match r with
      | None => raise TypeError          (* [re.match(pattern, None)] *)
      | Some response =>
          if matches "!Y            1!" response then ret "OPEN"
          else if matches "!X            1!" response then ret "CLOSED"
          else if maxtries <=? tries then ret "UNKNOWN"
          else get_switch_loop fuel' maxtries tries
      end
  end.

(** [get_switch(self, maxtries)]; the status is also kept in
    [self.switch]. *)
Definition get_switch (maxtries : Z) : M D string :=
  get_switch_loop (S (Z.to_nat maxtries)) maxtries 0.

End WithPort.
End Switch.

(** * Properties

    First the vocabulary of the statements and the concrete runs they are
    checked on, then the lemmas. *)

(** The shapes that the value of a field of a sample can have. *)
Inductive shape := Text | TwoDecimals | Number | Flag | Counters.

(** The dictionary of the four error counters as [get_errors] builds it:
    four [None]s, or the four counters as the texts of integers. *)
Definition error_counters (v : pyval) : Prop :=
  v = PyDict [("error_1", PyNone); ("error_2", PyNone);
              ("error_3", PyNone); ("error_4", PyNone)]
  \/ exists z1 z2 z3 z4,
       v = PyDict [("error_1", PyStr (py_str_int z1));
                   ("error_2", PyStr (py_str_int z2));
                   ("error_3", PyStr (py_str_int z3));
                   ("error_4", PyStr (py_str_int z4))].

Definition has_shape (sh : shape) (v : pyval) : Prop :=
  match sh with
  | Text => exists t, v = PyStr t
  | TwoDecimals => exists q, v = PyStr (format_02f q)
  | Number => exists q, v = PyFloat q
  | Flag => exists b, v = PyBool b
  | Counters => error_counters v
  end.

(** Every field that [capture] gives a sample (lines 570-604), in the
    order of the source, with the shape of its value. *)
Definition sample_schema : list (string * shape) :=
  [ ("weather_sensor_name", Text);
    ("weather_sensor_firmware_version", Text);
    ("weather_sensor_serial_number", Text);
    ("sky_temp_C", Number);
    ("ambient_temp_C", Number);
    ("internal_voltage_V", Number);
    ("ldr_resistance_Ohm", Number);
    ("rain_sensor_temp_C", TwoDecimals);
    ("rain_frequency", Number);
    ("pwm_value", Number);
    ("errors", Counters);
    ("wind_speed_KPH", Number);
    ("safe", Flag);
    ("sky_condition", Text);
    ("wind_condition", Text);
    ("gust_condition", Text);
    ("rain_condition", Text) ].

Definition shape_of (key : string) : option shape :=
  option_map snd (find (fun kv => String.eqb (fst kv) key) sample_schema).

(** [v] has the shape that the schema gives the field [key]; a key that
    is not in the schema has none. *)
Definition field_ok (key : string) (v : pyval) : Prop :=
  match shape_of key with
  | Some sh => has_shape sh v
  | None => False
  end.

Definition sample_ok (d : gmap string pyval) : Prop :=
  forall key v, d !! key = Some v -> field_ok key v.

(** The fields of a sample that hold what was measured: the physical
    quantities and the error counters.  (The others identify the device or
    give the verdict of the safety decision.) *)
Definition measured_fields : list string :=
  [ "sky_temp_C"; "ambient_temp_C"; "internal_voltage_V"; "ldr_resistance_Ohm";
    "rain_sensor_temp_C"; "rain_frequency"; "pwm_value"; "errors";
    "wind_speed_KPH" ].

(** A sample whose rain sensor temperature is a two-decimal text and
    whose every other measured field is a number. *)
Definition numbers_but_rain_temp (d : gmap string pyval) : Prop :=
  forall key v,
    In key measured_fields -> d !! key = Some v ->
    if String.eqb key "rain_sensor_temp_C"
    then has_shape TwoDecimals v else has_shape Number v.

(** A device that never answers. *)
Definition silent : scripted := {| buffer := EmptyString; script := [] |}.

(** A reply that matches no expected pattern; one failed [query] uses up
    six of them. *)
Definition garbage (n : nat) : list string := repeat "?" n.

(** Three wind queries of which the second fails, and the same for the
    ambient temperature. *)
Definition wind_replies : list string :=
  (["!v   1!"; "!w   10!"] ++ garbage 6 ++ ["!w   12!"])%list.

Definition ambient_replies : list string :=
  (["!2   1000!"] ++ garbage 6 ++ ["!2   1200!"])%list.

(** A device that reports a duty cycle of 0 whatever is asked of it. *)
Definition stuck_at_zero : list string := repeat "!Q   0!" 20.

(** Stored samples, one minute (or less) before time 0. *)
Definition sky_only : entry :=
  {| date := -60; data := {[ "sky_temp_C" := PyFloat (-20) ]} |}.

Definition sky_and_ambient : entry :=
  {| date := -60;
     data := <[ "sky_temp_C" := PyFloat (-20) ]>
               {[ "ambient_temp_C" := PyFloat 10 ]} |}.

Definition windy_before : entry :=
  {| date := -60; data := {[ "wind_speed_KPH" := PyFloat 5 ]} |}.

Definition rain_before : entry :=
  {| date := -60; data := {[ "rain_frequency" := PyFloat 2400 ]} |}.

Definition wet_before : list entry :=
  [ {| date := -60; data := {[ "rain_frequency" := PyFloat 2400 ]} |};
    {| date := -30; data := {[ "rain_frequency" := PyFloat 1900 ]} |} ].

Definition clear_now : gmap string pyval :=
  <[ "sky_temp_C" := PyFloat (-30) ]> {[ "ambient_temp_C" := PyFloat 10 ]}.

Definition dry_now : gmap string pyval :=
  {[ "rain_frequency" := PyFloat 2500 ]}.

(** A driver whose store holds the given samples. *)
Definition with_history (docs : list entry) : sensor scripted :=
  with_weather docs (play []).


(** A driver that started an impulse at time 1000. *)
Definition heating : sensor scripted :=
  with_impulse (Some true) (Some 1000%Q) (play []).

(** A full cycle: nine sky readings, five ambient ones, five of the
    values, five rain frequencies, the duty cycle, the error counters and
    the anemometer. *)
Definition cycle_replies : list string :=
  (repeat "!1  -2000!" 9 ++ repeat "!2  1500!" 5
   ++ repeat "!6  500!4  300!5  400!" 5 ++ repeat "!R  2100!" 5
   ++ ["!Q  511!"; "!E1  0!E2  0!E3  0!E4  0!"; "!v  1!";
       "!w  3!"; "!w  4!"; "!w  5!"])%list.

Definition first_cycle : sensor scripted :=
  with_current [("weather", ∅)] (play cycle_replies).

(** Stand-ins for what is not the driver's own code. *)
Definition log_zero (x : Q) : Q := 0%Q.
Definition pid_fifty (c : pid) (now actual set_point : Q) : Q * pid := (50%Q, c).
Definition always_true (x : Q) : bool := true.

(** The sample of that cycle. *)
Definition first_sample : gmap string pyval :=
  match fst (Cycle.capture log_zero pid_fifty always_true true first_cycle) with
  | Ok d => d
  | Raise _ => ∅
  end.

(** The next cycle, after four samples flagged as not rain-safe. *)
Definition second_cycle : sensor scripted :=
  with_weather
    [ {| date := -40; data := {[ "rain_safe" := PyBool false ]} |};
      {| date := -30; data := {[ "rain_safe" := PyBool false ]} |};
      {| date := -20; data := {[ "rain_safe" := PyBool false ]} |};
      {| date := -10; data := {[ "rain_safe" := PyBool false ]} |} ]
    (with_current [("weather", first_sample)] (play [])).

(** The heater mode of [s'] is that of [s]. *)
Definition same_mode {D : Type} (s s' : sensor D) : Prop :=
  impulse_heating s' = impulse_heating s /\ impulse_start s' = impulse_start s.

(** Every character of [s] is one the atom [a] accepts. *)
Fixpoint all_accepted (a : Re.atom) (s : string) : bool :=
  match s with
  | String c r => Re.accepts a c && all_accepted a r
  | EmptyString => true
  end.

(** The trailer of a framed reply: the byte 0x11, twelve spaces and "0". *)
Definition trailer_text : string :=
  String (ascii_of_nat 17) "            0".

(** The first two characters of a pattern are literal, as they stand. *)
Definition literal_head (pattern : string) : bool :=
  match Re.compile pattern with
  | Some (Re.One (Re.ASet [Re.CChr c1]) :: Re.One (Re.ASet [Re.CChr c2]) :: _) =>
      String.eqb (str_take 2 pattern) (String c1 (String c2 EmptyString))
  | _ => false
  end.

(** An event is a sleep or the writing of [request]. *)
Definition is_write_of (request : string) (e : event) : Prop :=
  match e with
  | EvWrite bytes => bytes = request
  | EvSleep _ => True
  end.

(** From [s] to [s'] the trace has grown, and by nothing but sleeps and
    writes of [request]. *)
Definition only_sent {D : Type} (request : string) (s s' : sensor D) : Prop :=
  exists new,
    trace s' = (new ++ trace s)%list /\ Forall (is_write_of request) new.

(** What [send] reads back after writing: the port is read (and so
    emptied) before the request goes out. *)
Definition reply_of {D : Type} `{Transport D} (request : string) (delay : Q)
  (s : sensor D) : string :=
  fst (port_read (port_wait delay
                    (port_write request (snd (port_read (AAG s)))))).

(** The percentage [set_PWM] works with: its argument brought into
    [0, 100]. *)
Definition clamp_percent (percent : Q) : Q :=
  let percent := if Qlt_bool percent 0 then 0%Q else percent in
  if Qgt_bool percent 100 then 100%Q else percent.

(** The digital value and the command [set_PWM] sends for a percentage
    (lines 454-455). *)
Definition send_digital_of (percent : Q) : Z := py_int (1023 * percent / 100).

Definition PWM_request (percent : Q) : string :=
  "P" +:+ format_04d (send_digital_of percent) +:+ "!".

(** The command of every digital value below [n] is a "set PWM"
    command. *)
Definition set_commands_known (n : nat) : bool :=
  forallb (fun k => match Protocol.find_command
                            ("P" +:+ format_04d (Z.of_nat k) +:+ "!") with
                    | Some cmd => String.eqb cmd "P\d\d\d\d!"
                    | None => false
                    end)
    (seq 0 n).

(** A framed reply to the query of the ambient temperature, and five
    replies to the query of the values. *)
Definition framed_ambient : string := "!2  1500!" +:+ trailer_text.

Definition values_replies : list string := repeat "!6  500!4  300!5  400!" 5.

(** The reply of the device to "!F" when the switch is open or closed,
    framed. *)
Definition switch_reply (open : bool) : string :=
  (if open then "!Y            1!" else "!X            1!") +:+ trailer_text.

(** The stored samples the safety decision looks at: those of the last
    [safety_delay] minutes, by date. *)
Definition window_of {D : Type} (s : sensor D) : list entry :=
  let stop := clock s in
  let start := (stop - inject_Z (py_int (Safety.safety_delay (cfg s) * 60)))%Q in
  Safety.sort_by_date (find_between start stop (db_weather s)).

(** A stored sample, half a minute old, that is very cloudy, gusty and
    wet at once, and a current one that is clear, calm and dry. *)
Definition bad_before : entry :=
  {| date := -30;
     data := <[ "sky_temp_C" := PyFloat 0 ]>
               (<[ "ambient_temp_C" := PyFloat 10 ]>
                  (<[ "wind_speed_KPH" := PyFloat 60 ]>
                     {[ "rain_frequency" := PyFloat 1500 ]})) |}.

Definition fine_now : gmap string pyval :=
  <[ "sky_temp_C" := PyFloat (-30) ]>
    (<[ "ambient_temp_C" := PyFloat 10 ]>
       (<[ "wind_speed_KPH" := PyFloat 5 ]>
          {[ "rain_frequency" := PyFloat 2500 ]})).

(** A stored sample, half a minute old, that is clear, calm and dry, and
    the verdict on it and on [fine_now]. *)
Definition good_before : entry :=
  {| date := -30; data := fine_now |}.

Definition calm_verdict : Safety.verdict :=
  {| Safety.Safe := true; Safety.Sky := "Clear"; Safety.Wind := "Calm";
     Safety.Gust := "Calm"; Safety.Rain := "Dry" |}.

(** An anemometer that is there and answers its first query with a lone
    minus sign, and error counters of which the first reads "1.5". *)
Definition wind_minus : list string := ["!v  1!"; "!w  -!"].
Definition errors_point : list string := ["!E1  1.5!E2  0!E3  0!E4  0!"].

(** A computation keeps a relation between the driver before and after
    it, whatever its outcome. *)
Definition keeps {D A : Type} (R : sensor D -> sensor D -> Prop)
  (m : M D A) : Prop :=
  forall s, R s (snd (m s)).

(** A relation that talking to the device and driving the heater keep: a
    preorder that the port, the trace, the clock, the duty cycle, the
    controller and the heater mode do not bear on. *)
Record frame {D : Type} (R : sensor D -> sensor D -> Prop) : Prop := {
  frame_refl : forall s, R s s;
  frame_trans : forall s1 s2 s3, R s1 s2 -> R s2 s3 -> R s1 s3;
  frame_AAG : forall d s, R s (with_AAG d s);
  frame_event : forall e s, R s (with_event e s);
  frame_clock : forall t s, R s (with_clock t s);
  frame_PWM : forall p s, R s (with_PWM p s);
  frame_PID : forall c s, R s (with_PID c s);
  frame_impulse : forall h t s, R s (with_impulse h t s)
}.

(** The store and the configuration of [s'] are those of [s]. *)
Definition same_store {D : Type} (s s' : sensor D) : Prop :=
  db_weather s' = db_weather s /\ db_current s' = db_current s
  /\ cfg s' = cfg s /\ heater_cfg s' = heater_cfg s.

(** The fields a sample of [capture] can have. *)
Definition sample_keys : list string :=
  [ "weather_sensor_name"; "weather_sensor_firmware_version";
    "weather_sensor_serial_number"; "sky_temp_C"; "ambient_temp_C";
    "internal_voltage_V"; "ldr_resistance_Ohm"; "rain_sensor_temp_C";
    "rain_frequency"; "pwm_value"; "errors"; "wind_speed_KPH";
    "safe"; "sky_condition"; "wind_condition"; "gust_condition";
    "rain_condition" ].

(** A cycle whose device reports a rain frequency and a duty cycle of
    zero. *)
Definition zero_replies : list string :=
  (repeat "!1  -2000!" 9 ++ repeat "!2  1500!" 5
   ++ repeat "!6  500!4  300!5  400!" 5 ++ repeat "!R  0!" 5
   ++ ["!Q  0!"; "!E1  0!E2  0!E3  0!E4  0!"; "!v  1!";
       "!w  3!"; "!w  4!"; "!w  5!"])%list.

Definition zero_cycle : sensor scripted :=
  with_current [("weather", ∅)] (play zero_replies).

(** A driver with a clear, calm and dry sample as the current one and in
    its store. *)
Definition dry_cycle : sensor scripted :=
  with_current [("weather", fine_now)] (with_history [good_before]).

(** A driver in the rain: four stored samples flagged as not rain-safe,
    and a current one whose rain sensor is colder than the target. *)
Definition impulse_cycle : sensor scripted :=
  with_weather
    [ {| date := -40; data := {[ "rain_safe" := PyBool false ]} |};
      {| date := -30; data := {[ "rain_safe" := PyBool false ]} |};
      {| date := -20; data := {[ "rain_safe" := PyBool false ]} |};
      {| date := -10; data := {[ "rain_safe" := PyBool false ]} |} ]
    (with_current
       [("weather", <[ "ambient_temp_C" := PyFloat 10 ]>
                      {[ "rain_sensor_temp_C" := PyFloat 12 ]})]
       (play ["!Q 1023!"])).

(** ** Comparisons of rationals *)

Lemma Qlt_bool_true a b : Qlt_bool a b = true <-> (a < b)%Q.
Proof.
  unfold Qlt_bool. rewrite negb_true_iff.
  split; intros Hx.
  - apply Qnot_le_lt. intros Hle. apply Qle_bool_iff in Hle. congruence.
  - destruct (Qle_bool b a) eqn:E; [|reflexivity].
    apply Qle_bool_iff in E. exfalso. exact (Qlt_not_le _ _ Hx E).
Qed.

Lemma Qlt_bool_false a b : Qlt_bool a b = false <-> (b <= a)%Q.
Proof.
  unfold Qlt_bool. rewrite negb_false_iff. apply Qle_bool_iff.
Qed.

Lemma Qle_bool_false a b : Qle_bool a b = false <-> (b < a)%Q.
Proof.
  rewrite <- Qlt_bool_true. unfold Qlt_bool.
  destruct (Qle_bool a b); cbn; split; congruence.
Qed.

(** ** The monad *)

Lemma bind_ok {D A B} (m : M D A) (k : A -> M D B) s b s' :
  bind m k s = (Ok b, s') ->
  exists a s1, m s = (Ok a, s1) /\ k a s1 = (Ok b, s').
Proof.
  unfold bind. destruct (m s) as [[a|e] s1]; [eauto|discriminate].
Qed.

(** ** Protocol engine *)
Module ProtocolFacts.
Import Protocol.

Section WithPort.
Context {D : Type} `{Transport D}.

(** A request that matches no command is answered [None] and the port is
    left alone. *)
Lemma query_unknown request maxtries (s : sensor D) :
  find_command request = None ->
  query request maxtries s = (Ok None, s).
Proof. intros Hf. unfold query. rewrite Hf. reflexivity. Qed.

(** C8: [query] fails with a [KeyError] on the commands "!G", "!H" and
    "!z": they are known commands ([self.commands] lists them) but
    [self.expects] has no reply pattern for them, so the lookup
    [self.expects[cmd]] raises before anything is sent.  The specification
    says that on every known command, these three included, [query] returns
    matched fields or [None] and fails in no other way. *)
Theorem query_no_expect (maxtries : Z) (s : sensor D) :
  query "!G" maxtries s = (Raise (KeyError "!G"), s)
  /\ query "!H" maxtries s = (Raise (KeyError "!H"), s)
  /\ query "!z" maxtries s = (Raise (KeyError "!z"), s).
Proof.
  unfold query.
  replace (find_command "!G") with (Some "!G") by (vm_compute; reflexivity).
  replace (find_command "!H") with (Some "!H") by (vm_compute; reflexivity).
  replace (find_command "!z") with (Some "!z") by (vm_compute; reflexivity).
  replace (expects !! "!G") with (@None string) by (vm_compute; reflexivity).
  replace (expects !! "!H") with (@None string) by (vm_compute; reflexivity).
  replace (expects !! "!z") with (@None string) by (vm_compute; reflexivity).
  repeat split.
Qed.

Lemma send_stops request delay (s : sensor D) :
  fst (send request delay s) <> Raise Unterminated.
Proof.
  unfold send. destruct (find_command request); [|discriminate].
  unfold bind, read_all, write, sleep, modify.
  repeat (match goal with
          | |- context [port_read ?d] => destruct (port_read d)
          end; cbn).
  destruct (Re.re_match _ _) as [[|g l]|]; cbn; discriminate.
Qed.

(** The loop of [query] ends by its own condition. *)
Lemma query_loop_stops fuel request delay expect maxtries :
  forall count result (s : sensor D),
    (Z.to_nat (maxtries + 1 - count) <= fuel)%nat ->
    fst (query_loop fuel request delay expect maxtries count result s)
    <> Raise Unterminated.
Proof.
  induction fuel as [|fuel IH]; intros count result s Hf; cbn [query_loop].
  - destruct (negb (truthy result) && (count <=? maxtries)) eqn:E;
      [|discriminate].
    apply andb_true_iff in E as [_ E]. apply Z.leb_le in E. lia.
  - destruct (negb (truthy result) && (count <=? maxtries)) eqn:E;
      [|discriminate].
    apply andb_true_iff in E as [_ E]. apply Z.leb_le in E.
    unfold bind at 1.
    pose proof (send_stops request delay s) as Hs.
    destruct (send request delay s) as [[[text|]|e] s1]; cbn in Hs |- *.
    + destruct (Re.re_match expect text).
      * apply IH. lia.
      * unfold bind, sleep, modify. apply IH. lia.
    + discriminate.
    + intros X. apply Hs. inversion X. reflexivity.
Qed.

Lemma query_stops request maxtries (s : sensor D) :
  fst (query request maxtries s) <> Raise Unterminated.
Proof.
  unfold query. destruct (find_command request) as [cmd|]; [|discriminate].
  destruct (expects !! cmd); [|discriminate].
  apply query_loop_stops. lia.
Qed.

Lemma send_writes request delay (s : sensor D) :
  (writes (trace (snd (send request delay s))) <= S (writes (trace s)))%nat.
Proof.
  unfold send. destruct (find_command request); [|cbn; lia].
  unfold bind, read_all, write, sleep, modify.
  repeat (match goal with
          | |- context [port_read ?d] => destruct (port_read d)
          end; cbn).
  destruct (Re.re_match _ _) as [[|g l]|]; cbn; lia.
Qed.

Lemma query_loop_writes fuel request delay expect maxtries :
  forall count result (s : sensor D),
    (writes (trace (snd (query_loop fuel request delay expect maxtries count
                           result s)))
     <= writes (trace s) + Z.to_nat (maxtries + 1 - count))%nat.
Proof.
  induction fuel as [|fuel IH]; intros count result s; cbn [query_loop].
  - destruct (negb (truthy result) && (count <=? maxtries)); cbn; lia.
  - destruct (negb (truthy result) && (count <=? maxtries)) eqn:E; [|cbn; lia].
    apply andb_true_iff in E as [_ E]. apply Z.leb_le in E.
    unfold bind at 1.
    pose proof (send_writes request delay s) as Hs.
    destruct (send request delay s) as [[[text|]|e] s1]; cbn in Hs |- *;
      try lia.
    destruct (Re.re_match expect text) as [groups|].
    + specialize (IH (count + 1) (Some groups) s1). lia.
    + unfold bind, sleep, modify.
      match goal with
      | |- context [query_loop fuel _ _ _ _ _ _ ?s'] =>
          specialize (IH (count + 1) None s')
      end.
      cbn in IH. lia.
Qed.

(** Whatever the device answers, [query] writes its request at most
    [maxtries + 1] times. *)
Lemma query_writes request maxtries (s : sensor D) :
  0 <= maxtries ->
  (writes (trace (snd (query request maxtries s)))
   <= writes (trace s) + Z.to_nat (maxtries + 1))%nat.
Proof.
  intros Hm. unfold query.
  destruct (find_command request) as [cmd|]; [|cbn; lia].
  destruct (expects !! cmd) as [expect|]; [|cbn; lia].
  pose proof (query_loop_writes (Z.to_nat (maxtries + 2)) request
                (default 0.200%Q (delays !! cmd)) expect maxtries 0 None s).
  replace (maxtries + 1 - 0) with (maxtries + 1) in * by lia. lia.
Qed.

(** [send] and [query] leave the heater mode alone. *)
Lemma same_mode_refl (s : sensor D) : same_mode s s.
Proof. split; reflexivity. Qed.

Lemma same_mode_trans (s1 s2 s3 : sensor D) :
  same_mode s1 s2 -> same_mode s2 s3 -> same_mode s1 s3.
Proof. intros [A B] [C E]. split; congruence. Qed.

Lemma send_same_mode request delay (s : sensor D) :
  same_mode s (snd (send request delay s)).
Proof.
  unfold send. destruct (find_command request); [|apply same_mode_refl].
  unfold bind, read_all, write, sleep, modify.
  repeat (match goal with
          | |- context [port_read ?d] => destruct (port_read d)
          end; cbn).
  destruct (Re.re_match _ _) as [[|g l]|]; cbn; split; reflexivity.
Qed.

Lemma query_loop_same_mode fuel request delay expect maxtries :
  forall count result (s : sensor D),
    same_mode s (snd (query_loop fuel request delay expect maxtries count
                        result s)).
Proof.
  induction fuel as [|fuel IH]; intros count result s; cbn [query_loop].
  - destruct (negb (truthy result) && (count <=? maxtries));
      apply same_mode_refl.
  - destruct (negb (truthy result) && (count <=? maxtries));
      [|apply same_mode_refl].
    unfold bind at 1.
    pose proof (send_same_mode request delay s) as Hs.
    destruct (send request delay s) as [[[text|]|e] s1]; cbn in Hs |- *;
      try exact Hs.
    destruct (Re.re_match expect text) as [groups|].
    + eapply same_mode_trans; [exact Hs|apply IH].
    + unfold bind, sleep, modify.
      eapply same_mode_trans; [exact Hs|].
      eapply same_mode_trans; [|apply IH]. split; reflexivity.
Qed.

Lemma query_same_mode request maxtries (s : sensor D) :
  same_mode s (snd (query request maxtries s)).
Proof.
  unfold query. destruct (find_command request) as [cmd|];
    [|apply same_mode_refl].
  destruct (expects !! cmd); [|apply same_mode_refl].
  apply query_loop_same_mode.
Qed.

End WithPort.

(** On the silent device every attempt of the temperature query fails. *)
Lemma send_silent delay (s : sensor scripted) :
  AAG s = silent ->
  exists s', send "!T" delay s = (Ok (Some EmptyString), s')
             /\ AAG s' = silent
             /\ writes (trace s') = S (writes (trace s)).
Proof.
  intros Hs. unfold send.
  replace (find_command "!T") with (Some "!T") by (vm_compute; reflexivity).
  unfold bind, read_all, write, sleep, modify. cbn. rewrite Hs. cbn.
  replace (Re.re_match trailer "") with (@None (list string))
    by (vm_compute; reflexivity).
  eexists. split; [reflexivity|]. cbn. split; reflexivity.
Qed.

Lemma query_loop_silent fuel delay expect maxtries :
  Re.re_match expect "" = None ->
  forall count (s : sensor scripted),
    AAG s = silent ->
    (Z.to_nat (maxtries + 1 - count) <= fuel)%nat ->
    exists s',
      query_loop fuel "!T" delay expect maxtries count None s = (Ok None, s')
      /\ writes (trace s')
         = (writes (trace s) + Z.to_nat (maxtries + 1 - count))%nat.
Proof.
  intros He. induction fuel as [|fuel IH]; intros count s Hs Hf;
    cbn [query_loop truthy negb andb].
  - destruct (count <=? maxtries) eqn:E.
    + apply Z.leb_le in E. lia.
    + apply Z.leb_gt in E. exists s. split; [reflexivity|lia].
  - destruct (count <=? maxtries) eqn:E.
    + apply Z.leb_le in E.
      destruct (send_silent delay s Hs) as (s' & Hsend & Hs' & Hw).
      unfold bind at 1. rewrite Hsend, He.
      unfold bind, sleep, modify.
      match goal with
      | |- context [query_loop fuel _ _ _ _ _ _ ?s1] => set (s2 := s1)
      end.
      destruct (IH (count + 1) s2) as (s3 & Hq & Hn).
      { subst s2. cbn. exact Hs'. }
      { lia. }
      exists s3. split; [exact Hq|]. rewrite Hn.
      replace (writes (trace s2)) with (S (writes (trace s)))
        by (subst s2; cbn; rewrite Hw; reflexivity).
      lia.
    + apply Z.leb_gt in E. exists s. split; [reflexivity|lia].
Qed.

(** So that device is asked [maxtries + 1] times, whatever [maxtries]. *)
Lemma query_silent_writes maxtries (s : sensor scripted) :
  0 <= maxtries ->
  AAG s = silent ->
  exists s',
    query "!T" maxtries s = (Ok None, s')
    /\ writes (trace s') = (writes (trace s) + Z.to_nat (maxtries + 1))%nat.
Proof.
  intros Hm Hs. unfold query.
  replace (find_command "!T") with (Some "!T") by (vm_compute; reflexivity).
  replace (expects !! "!T") with (Some "!2\s+([\d\.\-]+)!")
    by (vm_compute; reflexivity).
  destruct (query_loop_silent (Z.to_nat (maxtries + 2))
              (default 0.200%Q (delays !! "!T")) "!2\s+([\d\.\-]+)!" maxtries
              ltac:(vm_compute; reflexivity) 0 s Hs ltac:(lia))
    as (s' & Hq & Hn).
  exists s'. split; [exact Hq|].
  replace (maxtries + 1 - 0) with (maxtries + 1) in Hn by lia. exact Hn.
Qed.

(** Every pattern of the tables is in the fragment [Re] reads. *)
Lemma patterns_compile :
  forallb (fun p => match Re.compile p with Some _ => true | None => false end)
    (trailer :: map fst commands ++ map snd expects_table) = true.
Proof. vm_compute. reflexivity. Qed.

(** The first matching reply ends the loop and its groups are returned in
    the order of the pattern; each mismatch before it costs one sleep of
    [hibernate]. *)
Lemma query_returns_fields :
  let r := query "!C" 5 (play ["?"; "!6   123!4   456!5   789!"]) in
  fst r = Ok (Some ["123"; "456"; "789"])
  /\ writes (trace (snd r)) = 2%nat
  /\ sleeps hibernate (trace (snd r)) = 1%nat.
Proof. vm_compute. repeat split. Qed.

(** C7: with the default [maxtries = 5] and a device that never gives a
    matching reply, [query] sends the request six times (and sleeps the
    500 ms six times) before it returns [None]: the loop runs while
    [count <= maxtries] with [count] starting at 0.  The specification says
    at most [max_tries] attempts, the first included. *)
Theorem query_sends_once_more :
  let r := query "!T" 5 (play []) in
  fst r = Ok None
  /\ writes (trace (snd r)) = 6%nat
  /\ sleeps hibernate (trace (snd r)) = 6%nat.
Proof. vm_compute. repeat split. Qed.

End ProtocolFacts.

(** ** Sample aggregator *)
Module AggregatorFacts.
Import Protocol Aggregator.

(** The policy of the getters that close with [len(values) >= n - 1]. *)
Lemma median_if_enough_spec (n : Z) (values : list Q) :
  (n - 1 <= Z.of_nat (length values) ->
   median_if_enough n values = Some (np_median values))
  /\ (Z.of_nat (length values) < n - 1 -> median_if_enough n values = None).
Proof.
  unfold median_if_enough. split; intros Hn.
  - apply Z.leb_le in Hn. rewrite Hn. reflexivity.
  - destruct (n - 1 <=? Z.of_nat (length values)) eqn:E; [|reflexivity].
    apply Z.leb_le in E. lia.
Qed.

Section WithPort.
Context {D : Type} `{Transport D}.

(** [collect] gathers at most one value per attempt and never raises. *)
Lemma collect_ok n (attempt : M D Q) : forall values (s : sensor D),
  exists got s',
    collect n attempt values s = (Ok (values ++ got)%list, s')
    /\ (length got <= n)%nat.
Proof.
  induction n as [|n IH]; intros values s; cbn [collect].
  - exists [], s. rewrite app_nil_r. split; [reflexivity|cbn; lia].
  - unfold bind at 1. unfold try_except, bind at 1.
    destruct (attempt s) as [[v|e] s1]; cbn.
    + destruct (IH (values ++ [v])%list s1) as (got & s' & Hc & Hl).
      exists (v :: got), s'. rewrite Hc, <- app_assoc. split; [reflexivity|cbn; lia].
    + destruct (IH values s1) as (got & s' & Hc & Hl).
      exists got, s'. split; [exact Hc|lia].
Qed.

(** The ambient temperature is the median of what was gathered when at
    most one attempt failed, and absent otherwise. *)
Lemma get_ambient_temperature_policy (n : Z) (s : sensor D) :
  exists values s',
    (length values <= Z.to_nat n)%nat
    /\ get_ambient_temperature n s
       = (Ok (if n - 1 <=? Z.of_nat (length values)
              then Some (np_median values) else None), s').
Proof.
  unfold get_ambient_temperature, bind at 1.
  match goal with
  | |- context [collect ?k ?a [] s] =>
      destruct (collect_ok k a [] s) as (got & s' & Hc & Hl); rewrite Hc
  end.
  exists got, s'. split; [exact Hl|reflexivity].
Qed.

(** The same for the sky temperature and the rain frequency. *)
Lemma get_sky_temperature_policy (n : Z) (s : sensor D) :
  exists values s',
    (length values <= Z.to_nat n)%nat
    /\ get_sky_temperature n s
       = (Ok (if n - 1 <=? Z.of_nat (length values)
              then Some (np_median values) else None), s').
Proof.
  unfold get_sky_temperature, bind at 1.
  match goal with
  | |- context [collect ?k ?a [] s] =>
      destruct (collect_ok k a [] s) as (got & s' & Hc & Hl);
      rewrite Hc
  end.
  exists got, s'. split; [exact Hl|reflexivity].
Qed.

Lemma get_rain_frequency_policy (n : Z) (s : sensor D) :
  exists values s',
    (length values <= Z.to_nat n)%nat
    /\ get_rain_frequency n s
       = (Ok (if n - 1 <=? Z.of_nat (length values)
              then Some (np_median values) else None), s').
Proof.
  unfold get_rain_frequency, bind at 1.
  match goal with
  | |- context [collect ?k ?a [] s] =>
      destruct (collect_ok k a [] s) as (got & s' & Hc & Hl);
      rewrite Hc
  end.
  exists got, s'. split; [exact Hl|reflexivity].
Qed.
(** The loop of [set_PWM] ends by its own condition. *)
Lemma set_PWM_loop_stops fuel percent ntries :
  forall count success (s : sensor D),
    (Z.to_nat (ntries + 1 - count) <= fuel)%nat ->
    fst (set_PWM_loop fuel percent ntries count success s)
    <> Raise Unterminated.
Proof.
  induction fuel as [|fuel IH]; intros count success s Hf; cbn [set_PWM_loop].
  - destruct (negb success && (count <=? ntries)) eqn:E; [|discriminate].
    apply andb_true_iff in E as [_ E]. apply Z.leb_le in E. lia.
  - destruct (negb success && (count <=? ntries)) eqn:E; [|discriminate].
    apply andb_true_iff in E as [_ E]. apply Z.leb_le in E.
    unfold bind at 1.
    match goal with
    | |- context [query ?r 5 s] =>
        pose proof (ProtocolFacts.query_stops r 5 s) as Hq;
        destruct (query r 5 s) as [[result|e] s1]
    end; cbn in Hq |- *.
    + destruct result as [[|x l]|]; cbn [truthy].
      * apply IH. lia.
      * unfold bind, item0, ret, float_, modify, sleep.
        destruct (py_float x); [|discriminate].
        unfold ret, modify. cbn beta iota.
        match goal with
        | |- context [if ?c then _ else _] => destruct c
        end; apply IH; lia.
      * apply IH. lia.
    + intros X. apply Hq. inversion X. reflexivity.
Qed.

Lemma set_PWM_stops percent ntries (s : sensor D) :
  fst (set_PWM percent ntries s) <> Raise Unterminated.
Proof. unfold set_PWM. apply set_PWM_loop_stops. lia. Qed.

(** What [get_wind_speed] gathers: a value for each query that succeeded,
    unless a text that is no number stops it. *)
Lemma wind_loop_shape n : forall values (s s' : sensor D) o,
  wind_loop n values s = (o, s') ->
  (exists got, (length got <= n)%nat /\ o = Ok (values ++ got)%list)
  \/ (exists e, o = Raise e).
Proof.
  induction n as [|n IH]; intros values s s' o; cbn [wind_loop].
  - intros [= <- _]. left. exists []. rewrite app_nil_r. split; [cbn; lia|reflexivity].
  - unfold bind at 1.
    destruct (query "V!" 5 s) as [[result|e] s1]; [|intros [= <- _]; right; eauto].
    destruct result as [[|x l]|]; cbn [truthy].
    + intros Hw. destruct (IH _ _ _ _ Hw) as [(got & Hl & ->)|[e ->]];
        [left; exists got; split; [lia|reflexivity]|right; eauto].
    + unfold bind, item0, ret, float_, raise.
      destruct (py_float x) as [value|]; [|intros [= <- _]; right; eauto].
      intros Hw. destruct (IH _ _ _ _ Hw) as [(got & Hl & ->)|[e ->]];
        [|right; eauto].
      left. exists (value :: got). rewrite <- app_assoc. split; [cbn; lia|reflexivity].
    + intros Hw. destruct (IH _ _ _ _ Hw) as [(got & Hl & ->)|[e ->]];
        [left; exists got; split; [lia|reflexivity]|right; eauto].
Qed.

(** A wind speed is reported only from three values or more: with the
    default [n = 3] every query must have succeeded. *)
Lemma get_wind_speed_reports n v (s s' : sensor D) :
  get_wind_speed n s = (Ok (Some v), s') ->
  exists values,
    (3 <= length values <= Z.to_nat n)%nat /\ v = np_median values.
Proof.
  unfold get_wind_speed, bind at 1.
  destruct (wind_speed_enabled s) as [[enabled|e] s1]; [|discriminate].
  destruct (default false enabled); [|discriminate].
  unfold bind.
  destruct (wind_loop (Z.to_nat n) [] s1) as [o s2] eqn:Hw.
  destruct (wind_loop_shape _ _ _ _ _ Hw) as [(got & Hl & ->)|[e ->]];
    [|discriminate].
  cbn [app]. unfold ret.
  destruct (3 <=? Z.of_nat (length got)) eqn:E; [|discriminate].
  intros [= <- _]. exists got. apply Z.leb_le in E. split; [lia|reflexivity].
Qed.
Lemma set_PWM_loop_same_mode fuel percent ntries :
  forall count success (s : sensor D),
    same_mode s (snd (set_PWM_loop fuel percent ntries count success s)).
Proof.
  induction fuel as [|fuel IH]; intros count success s; cbn [set_PWM_loop].
  - destruct (negb success && (count <=? ntries)); apply ProtocolFacts.same_mode_refl.
  - destruct (negb success && (count <=? ntries)); [|apply ProtocolFacts.same_mode_refl].
    unfold bind at 1.
    match goal with
    | |- context [query ?r 5 s] =>
        pose proof (ProtocolFacts.query_same_mode r 5 s) as Hq;
        destruct (query r 5 s) as [[result|e] s1]
    end; cbn in Hq |- *; [|exact Hq].
    destruct result as [[|x l]|]; cbn [truthy].
    + eapply ProtocolFacts.same_mode_trans; [exact Hq|apply IH].
    + unfold bind, item0, ret, float_, modify, sleep.
      destruct (py_float x); [|exact Hq].
      unfold ret, modify. cbn beta iota.
      match goal with
      | |- context [if ?c then _ else _] => destruct c
      end;
        (eapply ProtocolFacts.same_mode_trans; [exact Hq|]);
        (eapply ProtocolFacts.same_mode_trans; [|apply IH]); split; reflexivity.
    + eapply ProtocolFacts.same_mode_trans; [exact Hq|apply IH].
Qed.

Lemma set_PWM_same_mode percent ntries (s : sensor D) :
  same_mode s (snd (set_PWM percent ntries s)).
Proof. unfold set_PWM. apply set_PWM_loop_same_mode. Qed.

End WithPort.

(** The request is clamped to [0, 100] before it is encoded. *)
Lemma set_PWM_clamps :
  trace (snd (set_PWM 250 15 (play ["!Q  1023!"])))
  = [EvSleep 0.750; EvWrite "P1023!"]
  /\ trace (snd (set_PWM (-3) 15 (play ["!Q  0!"])))
     = [EvSleep 0.750; EvWrite "P0000!"].
Proof. vm_compute. split; reflexivity. Qed.

(** C1: with [n = 3] wind readings of which one fails, [get_wind_speed]
    reports the wind speed absent: it closes with [len(values) >= 3], not
    with [len(values) >= n - 1] as the other getters do.  On the same
    pattern of replies [get_ambient_temperature] with [n = 3] returns the
    median of the two values it gathered.  The specification says that one
    failed attempt out of three is tolerated for the wind speed too. *)
Theorem wind_speed_tolerates_no_failure :
  fst (get_wind_speed 3 (play wind_replies)) = Ok None
  /\ fst (get_ambient_temperature 3 (play ambient_replies)) = Ok (Some 11%Q).
Proof. vm_compute. split; reflexivity. Qed.

(** C9: asked for 50 % with the default [ntries = 15] on a device whose
    readback stays at 0, [set_PWM] issues the set command sixteen times
    (and waits 2 s sixteen times) before it gives up without raising: the
    loop runs while [count <= ntries] with [count] starting at 0.  The
    specification says at most 15 attempts. *)
Theorem set_PWM_sixteen_attempts :
  let r := set_PWM 50 15 (play stuck_at_zero) in
  fst r = Ok tt
  /\ writes (trace (snd r)) = 16%nat
  /\ sleeps 2 (trace (snd r)) = 16%nat
  /\ length (script (AAG (snd r))) = 4%nat.
Proof. vm_compute. repeat split. Qed.

End AggregatorFacts.

(** ** Heater controller *)
Module HeaterFacts.
Import Protocol Aggregator Heater.

Section WithPort.
Context {D : Type} `{Transport D}.



(** An impulse always has a start: the decision keeps that true, so its
    [now - self.impulse_start] never meets [None]. *)
Lemma impulse_has_start now h (s s' : sensor D) o :
  (impulse_heating s = Some true -> is_Some (impulse_start s)) ->
  impulse_decision now h s = (o, s') ->
  o <> Raise TypeError
  /\ (impulse_heating s' = Some true -> is_Some (impulse_start s')).
Proof.
  intros Hinv.
  unfold impulse_decision, bind, gets, modify, raise, heater_item, getitem.
  destruct (persistent_rain h).
  - destruct (impulse_heating s) as [[|]|] eqn:Eh;
      cbn [default from_option id]; cbn beta iota.
    + destruct (Hinv eq_refl) as [t0 Ht]. rewrite Ht.
      destruct (heater_cfg s !! "impulse_duration").
      * destruct (Qgt_bool _ _); intros [= <- <-];
          (split; [discriminate|]); cbn; try discriminate.
        intros _. rewrite Ht. eauto.
      * intros [= <- <-]. split; [discriminate|].
        intros _. rewrite Ht. eauto.
    + intros [= <- <-]. split; [discriminate|]. cbn. eauto.
    + intros [= <- <-]. split; [discriminate|]. cbn. eauto.
  - intros [= <- <-]. split; [discriminate|]. cbn. discriminate.
Qed.

Lemma impulse_decision_cfg now h (s s1 : sensor D) :
  impulse_decision now h s = (Ok tt, s1) ->
  heater_cfg s1 = heater_cfg s.
Proof.
  unfold impulse_decision, bind, gets, modify, raise, heater_item.
  destruct (persistent_rain h).
  - destruct (default false (impulse_heating s)).
    + destruct (impulse_start s); [|discriminate].
      destruct (getitem (heater_cfg s) "impulse_duration"); [|discriminate].
      destruct (Qgt_bool _ _); intros [= <-]; reflexivity.
    + intros [= <-]. reflexivity.
  - intros [= <-]. reflexivity.
Qed.

(** Below the dead band the first test for a negative difference,
    [deltaT < -0.3], takes every case: the bands under it are never
    reached, and [int(0.5)] is 0. *)
Lemma negative_bands_collapse (target t : Q) (e : gmap string pyval)
  (s : sensor D) :
  e !! "rain_sensor_temp_C" = Some (PyFloat t) ->
  (t - target < -0.3)%Q ->
  AAG_heater_algorithm target e s = (Ok 0, s).
Proof.
  intros He Hlt. unfold AAG_heater_algorithm, bind, lift, getitem.
  rewrite He. cbn [py_num].
  unfold deltaPWM_of.
  assert (Hng : forall c, (0 <= c)%Q -> Qgt_bool (t - target) c = false).
  { intros c Hc. apply Qlt_bool_false. apply Qlt_le_weak.
    eapply Qlt_le_trans; [exact Hlt|].
    eapply Qle_trans; [|exact Hc]. discriminate. }
  rewrite !Hng by discriminate.
  rewrite (proj2 (Qlt_bool_true _ _) Hlt). reflexivity.
Qed.

(** Inside the dead band no branch binds [deltaPWM]. *)
Lemma dead_band_unbound (target t : Q) (e : gmap string pyval)
  (s : sensor D) :
  e !! "rain_sensor_temp_C" = Some (PyFloat t) ->
  (-0.3 <= t - target)%Q -> (t - target <= 0.3)%Q ->
  AAG_heater_algorithm target e s
  = (Raise (UnboundLocalError "deltaPWM"), s).
Proof.
  intros He Hlo Hhi. unfold AAG_heater_algorithm, bind, lift, getitem.
  rewrite He. cbn [py_num].
  unfold deltaPWM_of.
  assert (Hng : forall c, (0.3 <= c)%Q -> Qgt_bool (t - target) c = false).
  { intros c Hc. apply Qlt_bool_false. eapply Qle_trans; eassumption. }
  assert (Hnl : forall c, (c <= -0.3)%Q -> Qlt_bool (t - target) c = false).
  { intros c Hc. apply Qlt_bool_false. eapply Qle_trans; eassumption. }
  rewrite !Hng by discriminate. rewrite !Hnl by discriminate. reflexivity.
Qed.

(** In impulse mode a rain sensor temperature that is a text stops
    [calculate_and_set_PWM] at the comparison with the target. *)
Lemma impulse_branch_type_error
  (recalculate : pid -> Q -> Q -> Q -> Q * pid) (s s1 : sensor D)
  (last_entry : gmap string pyval) rest amb a txt cyc it :
  current_of "weather" s = last_entry :: rest ->
  last_entry !! "ambient_temp_C" = Some amb ->
  float_of amb = Ok a ->
  last_entry !! "rain_sensor_temp_C" = Some (PyStr txt) ->
  heater_cfg s !! "impulse_cycle" = Some cyc ->
  heater_cfg s !! "impulse_temp" = Some it ->
  impulse_decision (clock s)
    (rain_history_of
       (find_between (clock s - inject_Z (py_int cyc)) (clock s)
          (db_weather s)))
    s = (Ok tt, s1) ->
  mode_of s1 = Impulse ->
  calculate_and_set_PWM recalculate s = (Raise TypeError, s1).
Proof.
  intros Hcur Hamb Ha Hrst Hcyc Hit Hdec Hmode.
  pose proof (impulse_decision_cfg _ _ _ _ Hdec) as Hcfg.
  unfold calculate_and_set_PWM, bind, gets, heater_item, getitem, lift.
  rewrite Hcyc, Hcur, Hamb, Hrst, Hdec.
  unfold mode_of in Hmode.
  destruct (default false (impulse_heating s1)); [|discriminate].
  rewrite Ha, Hcfg, Hit. reflexivity.
Qed.

(** The mode with which [calculate_and_set_PWM] ends is the one its
    decision chose, whatever becomes of the heater power after it; and
    without both temperatures in the last entry nothing is decided. *)
Lemma calculate_and_set_PWM_mode
  (recalculate : pid -> Q -> Q -> Q -> Q * pid) (s : sensor D)
  last_entry rest cyc :
  heater_cfg s !! "impulse_cycle" = Some cyc ->
  current_of "weather" s = last_entry :: rest ->
  let h := rain_history_of
             (find_between (clock s - inject_Z (py_int cyc)) (clock s)
                (db_weather s)) in
  if has_key last_entry "ambient_temp_C"
     && has_key last_entry "rain_sensor_temp_C"
  then same_mode (snd (impulse_decision (clock s) h s))
         (snd (calculate_and_set_PWM recalculate s))
  else calculate_and_set_PWM recalculate s = (Ok tt, s).
Proof.
  intros Hcyc Hcur h.
  assert (Hpre : forall k : gmap string pyval -> Q -> list entry -> M D unit,
             (now <- gets clock ;;
              cycle <- heater_item "impulse_cycle" ;;
              entries <- gets (fun s => find_between
                                          (now - inject_Z (py_int cycle))%Q now
                                          (db_weather s)) ;;
              found <- gets (current_of "weather") ;;
              last_entry <- lift (match found with
                                  | x :: _ => Ok x
                                  | [] => Raise IndexError
                                  end) ;;
              k last_entry now entries) s
             = k last_entry (clock s)
                 (find_between (clock s - inject_Z (py_int cyc)) (clock s)
                    (db_weather s)) s).
  { intros k. unfold bind, gets, heater_item, getitem, lift.
    rewrite Hcyc, Hcur. reflexivity. }
  unfold has_key.
  destruct (last_entry !! "ambient_temp_C") as [ambient|] eqn:Ea;
    [|unfold calculate_and_set_PWM;
      rewrite (Hpre (fun last_entry now entries => _)), Ea; reflexivity].
  destruct (last_entry !! "rain_sensor_temp_C") as [rain_temp|] eqn:Er;
    [|unfold calculate_and_set_PWM;
      rewrite (Hpre (fun last_entry now entries => _)), Ea, Er; reflexivity].
  cbn [andb].
  unfold calculate_and_set_PWM.
  rewrite (Hpre (fun last_entry now entries => _)), Ea, Er.
  unfold bind at 1. fold h.
  destruct (impulse_decision (clock s) h s) as [[[]|e] s1]; cbn [snd];
    [|apply ProtocolFacts.same_mode_refl].
  unfold bind at 1, gets at 1. cbn beta iota.
  destruct (default false (impulse_heating s1)).
  - unfold bind at 1, lift at 1.
    destruct (float_of ambient) as [a|e]; [|apply ProtocolFacts.same_mode_refl].
    unfold bind at 1, heater_item at 1.
    destruct (getitem (heater_cfg s1) "impulse_temp") as [it|e];
      [|apply ProtocolFacts.same_mode_refl].
    unfold bind at 1, lift at 1.
    destruct (py_num rain_temp) as [r|e]; [|apply ProtocolFacts.same_mode_refl].
    destruct (Qlt_bool r (a + it)); [apply AggregatorFacts.set_PWM_same_mode|].
    unfold bind at 1, AAG_heater_algorithm, bind, lift.
    destruct (getitem last_entry "rain_sensor_temp_C") as [v|e];
      [|apply ProtocolFacts.same_mode_refl].
    destruct (py_num v) as [t|e]; [|apply ProtocolFacts.same_mode_refl].
    destruct (deltaPWM_of _); [apply AggregatorFacts.set_PWM_same_mode|apply ProtocolFacts.same_mode_refl].
  - unfold bind at 1, heater_item at 1.
    destruct (getitem (heater_cfg s1) "low_temp") as [low|e];
      [|apply ProtocolFacts.same_mode_refl].
    unfold bind at 1, lift at 1.
    destruct (py_num ambient) as [a|e]; [|apply ProtocolFacts.same_mode_refl].
    unfold bind at 1.
    match goal with
    | |- same_mode _ (snd (let (o, s') := ?m s1 in _)) =>
        assert (Hm : snd (m s1) = s1); [|destruct (m s1) as [[deltaT|e] s2]]
    end.
    { destruct (Qlt_bool a low).
      - unfold heater_item. reflexivity.
      - unfold bind at 1, heater_item at 1.
        destruct (getitem (heater_cfg s1) "high_temp") as [high|e];
          [|reflexivity].
        destruct (Qgt_bool a high); [reflexivity|].
        unfold bind at 1, fdiv.
        destruct (Qeq_bool _ 0); [reflexivity|].
        unfold ret, bind, heater_item.
        destruct (getitem (heater_cfg s1) "low_delta"); [|reflexivity].
        destruct (getitem (heater_cfg s1) "high_delta"); reflexivity. }
    + cbn [snd] in Hm. subst s2.
      unfold bind at 1, lift at 1.
      destruct (float_of rain_temp) as [actual|e]; [|apply ProtocolFacts.same_mode_refl].
      unfold bind at 1.
      destruct (recalculate _ _ _ _) as [out c].
      eapply ProtocolFacts.same_mode_trans; [|apply AggregatorFacts.set_PWM_same_mode].
      split; reflexivity.
    + cbn [snd] in Hm. subst s2. apply ProtocolFacts.same_mode_refl.
Qed.
End WithPort.


(** C6: the lookup ends wrong in three places.  A rain sensor 10 degrees
    under the target ([deltaT = -10 < -8]) gets 0, where the table says
    +40 s = 20: [deltaT < -0.3] is tested before the lower bands and
    [int(1 * 0.5)] is 0.  At the target ([deltaT = 0]) the function raises
    an [UnboundLocalError], where the table says 0: the chain has no
    closing [else].  And at [deltaT = 0.4] it returns [int(-0.5) = 0],
    where the table says -1 s. *)
Theorem heater_table_broken :
  fst (AAG_heater_algorithm 10 {[ "rain_sensor_temp_C" := PyFloat 0 ]}
         (play []))
  = Ok 0
  /\ fst (AAG_heater_algorithm 10 {[ "rain_sensor_temp_C" := PyFloat 10 ]}
            (play []))
     = Raise (UnboundLocalError "deltaPWM")
  /\ fst (AAG_heater_algorithm 10 {[ "rain_sensor_temp_C" := PyFloat 10.4 ]}
            (play []))
     = Ok 0.
Proof. vm_compute. repeat split. Qed.

End HeaterFacts.

(** ** Safety decision *)
Module SafetyFacts.
Import Safety.

(** [list_min] is the minimum. *)
Lemma list_min_spec l : forall x,
  In (list_min x l) (x :: l)
  /\ forall y, In y (x :: l) -> (list_min x l <= y)%Q.
Proof.
  induction l as [|a l IH]; intros x; cbn [list_min fold_left].
  - split; [left; reflexivity|]. intros y [<-|[]]. apply Qle_refl.
  - fold (list_min (if Qlt_bool a x then a else x) l).
    destruct (IH (if Qlt_bool a x then a else x)) as [Hin Hle].
    split.
    + destruct Hin as [Hin|Hin]; [|right; right; exact Hin].
      rewrite <- Hin. destruct (Qlt_bool a x); [right; left|left]; reflexivity.
    + intros y Hy.
      assert (Hm : (list_min (if Qlt_bool a x then a else x) l
                    <= (if Qlt_bool a x then a else x))%Q)
        by (apply Hle; left; reflexivity).
      destruct Hy as [<-|[<-|Hy]].
      * destruct (Qlt_bool a x) eqn:E; [|exact Hm].
        apply Qlt_bool_true in E.
        eapply Qle_trans; [exact Hm|]. apply Qlt_le_weak, E.
      * destruct (Qlt_bool a x) eqn:E; [exact Hm|].
        apply Qlt_bool_false in E. eapply Qle_trans; [exact Hm|exact E].
      * apply Hle. right. exact Hy.
Qed.

Lemma traverse_length {A B} (f : A -> outcome B) l : forall ys,
  traverse f l = Ok ys -> length ys = length l.
Proof.
  induction l as [|x l IH]; intros ys; cbn.
  - intros [= <-]. reflexivity.
  - destruct (f x); cbn; [|discriminate].
    destruct (traverse f l); cbn; [|discriminate].
    intros [= <-]. cbn. f_equal. apply IH. reflexivity.
Qed.

(** Without a rain frequency in the window the category is Unknown and
    unsafe, whatever the current sample holds. *)
Lemma rain_unknown_without_history cfg entries current_values :
  rf_value entries = [] ->
  rain_category cfg entries current_values = Ok (false, "Unknown").
Proof. intros Hr. unfold rain_category. rewrite Hr. reflexivity. Qed.

(** C3: when the current rain frequency lies above both thresholds (Dry)
    and the least rain frequency [m] of the window lies at or below
    [threshold_rain] or [threshold_wet], the rain category is unsafe and its
    label is still "Dry". *)
Theorem rain_override_keeps_label (cfg : gmap string Q) (entries : list entry)
  (current_values : gmap string pyval) (cur : Q) (values : list Q) (m : Q) :
  current_values !! "rain_frequency" = Some (PyFloat cur) ->
  (threshold_rain cfg < cur)%Q ->
  (threshold_wet cfg < cur)%Q ->
  traverse py_num (rf_value entries) = Ok values ->
  In m values ->
  (forall y, In y values -> (m <= y)%Q) ->
  (m <= threshold_rain cfg)%Q \/ (m <= threshold_wet cfg)%Q ->
  rain_category cfg entries current_values = Ok (false, "Dry").
Proof.
  intros Hcur Hrain Hwet Htr Hin Hmin Hlow.
  unfold rain_category.
  pose proof (traverse_length _ _ _ Htr) as Hlen.
  destruct values as [|v vs]; [destruct Hin|].
  destruct (rf_value entries) as [|r rs] eqn:Erf; [discriminate|].
  cbn [length Nat.eqb].
  unfold getitem. rewrite Hcur. cbn [obind py_num].
  apply Qle_bool_false in Hrain, Hwet. rewrite Hrain, Hwet.
  rewrite Htr. cbn [obind py_min].
  destruct (list_min_spec vs v) as [Hmem Hle].
  assert (Hlm : (list_min v vs <= m)%Q) by (apply Hle; exact Hin).
  assert (Hml : (m <= list_min v vs)%Q) by (apply Hmin; exact Hmem).
  destruct (Qle_bool (list_min v vs) (threshold_rain cfg)) eqn:E1;
    [reflexivity|].
  destruct (Qle_bool (list_min v vs) (threshold_wet cfg)) eqn:E2;
    [reflexivity|].
  apply Qle_bool_false in E1, E2.
  exfalso. destruct Hlow as [Hl|Hl].
  - apply (Qlt_not_le _ _ E1). eapply Qle_trans; eassumption.
  - apply (Qlt_not_le _ _ E2). eapply Qle_trans; eassumption.
Qed.

Lemma rain_override_keeps_label_witness :
  rain_category ∅ wet_before dry_now = Ok (false, "Dry").
Proof.
  apply (rain_override_keeps_label ∅ wet_before dry_now 2500
           [2400; 1900]%Q 1900).
  - reflexivity.
  - reflexivity.
  - reflexivity.
  - reflexivity.
  - right; left; reflexivity.
  - intros y [<-|[<-|[]]]; vm_compute; discriminate.
  - right. vm_compute. discriminate.
Defined.

(** The verdict carries the label and the flag of the rain category as
    they are. *)
Lemma verdict_carries_rain {D : Type} (current_values : gmap string pyval)
  (s s' : sensor D) (v : verdict) :
  make_safety_decision current_values s = (Ok v, s') ->
  let stop := clock s in
  let start := (stop - inject_Z (py_int (safety_delay (cfg s) * 60)))%Q in
  let entries := sort_by_date (find_between start stop (db_weather s)) in
  exists rain_safe,
    rain_category (cfg s) entries current_values = Ok (rain_safe, Rain v)
    /\ (rain_safe = false -> Safe v = false).
Proof.
  unfold make_safety_decision, bind, gets, lift, ret. cbn beta iota zeta.
  destruct (sky_category _ _ _) as [[sky_safe cloud]|e]; [|discriminate].
  destruct (wind_category _ _ _ _) as [[[wind_safe wc] [gust_safe gc]]|e];
    [|discriminate].
  destruct (rain_category _ _ _) as [[rain_safe rc]|e]; [|discriminate].
  intros [= <- _]. exists rain_safe. cbn. split; [reflexivity|].
  intros ->. rewrite andb_false_r. reflexivity.
Qed.

(** A sample labelled Dry in an unsafe verdict. *)
Lemma dry_and_unsafe_verdict :
  forall v s',
    make_safety_decision dry_now (with_history wet_before) = (Ok v, s') ->
    Rain v = "Dry" /\ Safe v = false.
Proof.
  intros v s'. vm_compute. intros [= <- _]. split; reflexivity.
Qed.

(** C2: a stored sample that has a sky temperature and no ambient
    temperature is not skipped: the filter of [sky_diff],
    [('ambient_temp_C' and 'sky_temp_C') in x['data'].keys()], looks for
    ['sky_temp_C'] only, and the subtraction raises a [KeyError] that ends
    the whole decision.  The specification says that samples missing either
    field are skipped without error. *)
Theorem sky_only_sample_raises :
  sky_category ∅ [sky_only] clear_now = Raise (KeyError "ambient_temp_C")
  /\ fst (make_safety_decision clear_now (with_history [sky_only]))
     = Raise (KeyError "ambient_temp_C").
Proof. vm_compute. split; reflexivity. Qed.

(** A sample of the window with a sky temperature and no ambient
    temperature makes [sky_diff] raise. *)
Lemma sky_diff_needs_ambient (entries : list entry) :
  Exists (fun x => has_key (data x) "sky_temp_C" = true
                   /\ has_key (data x) "ambient_temp_C" = false) entries ->
  forall l, sky_diff entries <> Ok l.
Proof.
  unfold sky_diff.
  induction entries as [|x entries IH]; intros Hex l.
  - inversion Hex.
  - cbn [List.filter].
    destruct (has_key (data x) "sky_temp_C") eqn:Es.
    + cbn [traverse].
      inversion Hex as [? ? [_ Hx]|? ? Hex']; subst.
      * unfold getitem. unfold has_key in Es, Hx.
        destruct (data x !! "sky_temp_C"); [|discriminate Es].
        destruct (data x !! "ambient_temp_C"); [discriminate Hx|].
        discriminate.
      * specialize (IH Hex').
        match goal with
        | |- obind ?t _ <> _ => destruct t
        end; cbn [obind]; [|discriminate].
        match goal with
        | |- obind ?t _ <> _ => destruct t as [ys|e] eqn:Et
        end; cbn [obind]; [|discriminate].
        exfalso. exact (IH ys eq_refl).
    + inversion Hex as [? ? [Hx _]|? ? Hex']; subst; [congruence|].
      apply IH. exact Hex'.
Qed.

Lemma sky_category_needs_ambient cfg (entries : list entry) current_values :
  Exists (fun x => has_key (data x) "sky_temp_C" = true
                   /\ has_key (data x) "ambient_temp_C" = false) entries ->
  forall r, sky_category cfg entries current_values <> Ok r.
Proof.
  intros Hex r. unfold sky_category.
  pose proof (sky_diff_needs_ambient entries Hex) as Hd.
  destruct (sky_diff entries) as [l|e]; [exfalso; exact (Hd l eq_refl)|].
  discriminate.
Qed.

(** On samples that carry both fields, or the ambient temperature only,
    the sky category is as the specification describes it. *)
Lemma sky_category_examples :
  sky_category ∅ [sky_and_ambient] clear_now = Ok (true, "Clear")
  /\ sky_category ∅ [] clear_now = Ok (false, "Unknown")
  /\ sky_category ∅
       [{| date := -60; data := {[ "ambient_temp_C" := PyFloat 10 ]} |}]
       clear_now
     = Ok (false, "Unknown").
Proof. vm_compute. repeat split. Qed.

(** C4: a current sample that lacks a field of which the window has
    readings makes [make_safety_decision] raise a [KeyError]: the wind
    speed, the rain frequency and the sky temperature of the current sample
    are read without a test for their presence.  The specification says
    that such a failure yields an absent or Unknown category and that the
    decision never raises. *)
Theorem missing_current_field_raises :
  fst (make_safety_decision ∅ (with_history [windy_before]))
  = Raise (KeyError "wind_speed_KPH")
  /\ fst (make_safety_decision ∅ (with_history [rain_before]))
     = Raise (KeyError "rain_frequency")
  /\ fst (make_safety_decision ∅ (with_history [sky_and_ambient]))
     = Raise (KeyError "sky_temp_C").
Proof. vm_compute. repeat split. Qed.

Lemma omap_nonempty {A B} (f : A -> option B) (l : list A) :
  Exists (fun x => is_Some (f x)) l -> omap f l <> [].
Proof.
  induction 1 as [x l [y Hy]|x l _ IH]; cbn.
  - rewrite Hy. discriminate.
  - destruct (f x); [discriminate|exact IH].
Qed.

(** With a wind reading in the window and none in the current sample,
    the wind category has no result. *)
Lemma wind_category_needs_current cfg stop (entries : list entry)
  (current_values : gmap string pyval) :
  Exists (fun x => is_Some (data x !! "wind_speed_KPH")) entries ->
  current_values !! "wind_speed_KPH" = None ->
  forall r, wind_category cfg stop entries current_values <> Ok r.
Proof.
  intros Hex Hcur r. unfold wind_category.
  pose proof (omap_nonempty (fun x => data x !! "wind_speed_KPH") entries Hex)
    as Hne.
  destruct (traverse py_num _) as [wind_speed|e] eqn:Et; cbn [obind];
    [|discriminate].
  pose proof (traverse_length _ _ _ Et) as Hlen.
  destruct wind_speed as [|w ws].
  { destruct (omap _ entries); [congruence|discriminate]. }
  cbn [length Nat.eqb].
  destruct (py_min _); cbn [obind]; [|discriminate].
  destruct (Qeq_bool _ 0); [discriminate|].
  destruct (movingaverage _ _); cbn [obind]; [|discriminate].
  destruct (py_max _); cbn [obind]; [|discriminate].
  destruct (py_last _); cbn [obind]; [|discriminate].
  unfold getitem. rewrite Hcur. discriminate.
Qed.

Lemma rain_category_needs_current cfg (entries : list entry)
  (current_values : gmap string pyval) :
  Exists (fun x => is_Some (data x !! "rain_frequency")) entries ->
  current_values !! "rain_frequency" = None ->
  rain_category cfg entries current_values = Raise (KeyError "rain_frequency").
Proof.
  intros Hex Hcur. unfold rain_category, rf_value.
  pose proof (omap_nonempty (fun x => data x !! "rain_frequency") entries Hex)
    as Hne.
  destruct (omap _ entries); [congruence|].
  cbn [length Nat.eqb]. unfold getitem. rewrite Hcur. reflexivity.
Qed.

(** With an empty window every category is Unknown and nothing raises. *)
Lemma empty_window_unknown :
  fst (make_safety_decision ∅ (with_history []))
  = Ok {| Safe := false; Sky := "Unknown"; Wind := "Unknown";
          Gust := "Unknown"; Rain := "Unknown" |}.
Proof. vm_compute. reflexivity. Qed.

End SafetyFacts.

(** ** The measurement cycle *)
Module CycleFacts.
Import Protocol Aggregator Heater Safety Cycle.

Lemma sample_ok_empty : sample_ok ∅.
Proof. intros key v Hk. rewrite lookup_empty in Hk. discriminate. Qed.

Lemma sample_ok_insert key v d :
  field_ok key v -> sample_ok d -> sample_ok (<[key := v]> d).
Proof.
  intros Hv Hd k w Hk.
  destruct (decide (key = k)) as [<-|Hne].
  - rewrite lookup_insert_eq in Hk. injection Hk as <-. exact Hv.
  - rewrite lookup_insert_ne in Hk by exact Hne. exact (Hd k w Hk).
Qed.

Lemma field_ok_shape key sh v :
  shape_of key = Some sh -> has_shape sh v -> field_ok key v.
Proof. unfold field_ok. intros ->. trivial. Qed.

Lemma digit_char_is_digit d :
  0 <= d < 10 -> Re.is_digit (digit_char d) = true.
Proof.
  intros Hd.
  assert (Hc : d = 0 \/ d = 1 \/ d = 2 \/ d = 3 \/ d = 4 \/ d = 5 \/ d = 6
               \/ d = 7 \/ d = 8 \/ d = 9) by lia.
  repeat (destruct Hc as [->|Hc]; [reflexivity|]). subst d. reflexivity.
Qed.

(** The text of the rain sensor temperature: a sign, an integer part, a
    point and two digits. *)
Lemma format_02f_shape (x : Q) :
  exists sign whole d1 d2,
    format_02f x = sign +:+ whole +:+ "." +:+ String d1 (String d2 "")
    /\ Re.is_digit d1 = true /\ Re.is_digit d2 = true.
Proof.
  unfold format_02f. do 4 eexists. split; [reflexivity|].
  split; apply digit_char_is_digit; apply Z.mod_pos_bound; lia.
Qed.

Section WithPort.
Context {D : Type} `{Transport D}.
Variable np_log : Q -> Q.
Variable recalculate : pid -> Q -> Q -> Q -> Q * pid.
Variable quantity_bool : Q -> bool.

Lemma sample_ok_put_if c key v d :
  field_ok key v -> sample_ok d -> sample_ok (put_if c key v d).
Proof.
  intros Hv Hd. unfold put_if.
  destruct c; [apply sample_ok_insert; assumption|exact Hd].
Qed.

(** What [get_errors] returns is a dictionary of four counters, all
    [None] or all texts of integers. *)
Lemma get_errors_shape (s s' : sensor D) v :
  get_errors s = (Ok v, s') -> error_counters v.
Proof.
  unfold get_errors. intros Hg.
  apply bind_ok in Hg as (response & s1 & _ & Hg).
  destruct (truthy response); [|injection Hg as <- _; left; reflexivity].
  assert (Hcounter : forall i (s2 s3 : sensor D) w,
             match nth_error (default [] response) i with
             | None => raise IndexError
             | Some x => match py_int_of_text x with
                         | Some z => ret (PyStr (py_str_int z))
                         | None => raise ValueError
                         end
             end s2 = (Ok w, s3) ->
             exists z, w = PyStr (py_str_int z)).
  { intros i s2 s3 w.
    destruct (nth_error (default [] response) i) as [x|]; [|discriminate].
    destruct (py_int_of_text x) as [z|]; [|discriminate].
    intros [= <- _]. eauto. }
  apply bind_ok in Hg as (e1 & s2 & H1 & Hg).
  apply bind_ok in Hg as (e2 & s3 & H2 & Hg).
  apply bind_ok in Hg as (e3 & s4 & H3 & Hg).
  apply bind_ok in Hg as (e4 & s5 & H4 & Hg).
  apply Hcounter in H1 as [z1 ->]. apply Hcounter in H2 as [z2 ->].
  apply Hcounter in H3 as [z3 ->]. apply Hcounter in H4 as [z4 ->].
  injection Hg as <- _. right. exists z1, z2, z3, z4. reflexivity.
Qed.

(** Every field of a sample that [capture] returns is a field of the
    schema and has the shape the schema gives it. *)
Lemma capture_sample_ok upd (s s' : sensor D) sample :
  capture np_log recalculate quantity_bool upd s = (Ok sample, s') ->
  sample_ok sample.
Proof.
  unfold capture. intros Hc.
  repeat (apply bind_ok in Hc as (? & ? & _ & Hc)).
  match goal with
  | v : (option Q * option Q * option Q)%type |- _ =>
      destruct v as [[iv ldr] rst]
  end.
  apply bind_ok in Hc as (rain_frequency & ? & _ & Hc).
  apply bind_ok in Hc as (pwm & ? & _ & Hc).
  apply bind_ok in Hc as (errors & ? & Herr & Hc).
  apply get_errors_shape in Herr.
  repeat (apply bind_ok in Hc as (? & ? & _ & Hc)).
  injection Hc as <- _.
  repeat (first [ apply sample_ok_insert | apply sample_ok_put_if ];
          [ eapply field_ok_shape;
            [ reflexivity
            | first [ exact Herr | cbn [has_shape]; eexists; reflexivity ] ]
          | ]).
  apply sample_ok_empty.
Qed.

(** C10: every field of a sample that [capture] returns is one of the
    schema and has its shape there: the rain sensor temperature, when
    present, is the text of a two-decimal formatting; each of the seven
    other physical quantities, when present, is a number; and the error
    counters are a dictionary of four texts of integers (or of four
    [None]s), not numbers.  So when such a sample is the last entry of a
    later cycle, has both temperatures, and the heater is in impulse mode
    after the decision of that cycle, [calculate_and_set_PWM] raises a
    [TypeError] at the comparison of the text with the target temperature
    and sets no heater power. *)
Theorem rain_sensor_temp_text_breaks_impulse upd (s0 s0' : sensor D)
  (sample : gmap string pyval) :
  capture np_log recalculate quantity_bool upd s0 = (Ok sample, s0') ->
  sample_ok sample
  /\ forall (s s1 : sensor D) rest cyc it,
       current_of "weather" s = sample :: rest ->
       is_Some (sample !! "ambient_temp_C") ->
       is_Some (sample !! "rain_sensor_temp_C") ->
       heater_cfg s !! "impulse_cycle" = Some cyc ->
       heater_cfg s !! "impulse_temp" = Some it ->
       impulse_decision (clock s)
         (rain_history_of
            (find_between (clock s - inject_Z (py_int cyc)) (clock s)
               (db_weather s)))
         s = (Ok tt, s1) ->
       mode_of s1 = Impulse ->
       calculate_and_set_PWM recalculate s = (Raise TypeError, s1).
Proof.
  intros Hc. pose proof (capture_sample_ok _ _ _ _ Hc) as Hok.
  split; [exact Hok|].
  intros s s1 rest cyc it Hcur [amb Hamb] [rst Hrst] Hcyc Hit Hdec Hmode.
  destruct (Hok _ _ Hamb) as [a ->].
  destruct (Hok _ _ Hrst) as [q ->].
  eapply HeaterFacts.impulse_branch_type_error; try eassumption.
  reflexivity.
Qed.

End WithPort.

Lemma rain_sensor_temp_text_breaks_impulse_witness :
  first_sample !! "rain_sensor_temp_C" = Some (PyStr "25.00")
  /\ sample_ok first_sample
  /\ calculate_and_set_PWM pid_fifty second_cycle
     = (Raise TypeError,
        with_impulse (Some true) (Some (clock second_cycle)) second_cycle).
Proof.
  assert (Hc : capture log_zero pid_fifty always_true true first_cycle
               = (Ok first_sample,
                  snd (capture log_zero pid_fifty always_true true
                         first_cycle))).
  { vm_compute. reflexivity. }
  destruct (rain_sensor_temp_text_breaks_impulse log_zero pid_fifty
              always_true true first_cycle _ first_sample Hc)
    as [Hok Hraise].
  split; [vm_compute; reflexivity|]. split; [exact Hok|].
  apply (Hraise second_cycle _ [] 600%Q 10%Q).
  - reflexivity.
  - vm_compute. eauto.
  - vm_compute. eauto.
  - reflexivity.
  - reflexivity.
  - vm_compute. reflexivity.
  - reflexivity.
Defined.

(** The sample of a full cycle holds its error counters as four texts:
    not every measured field besides the rain sensor temperature is a
    number. *)
Lemma error_counters_are_texts :
  fst (capture log_zero pid_fifty always_true true first_cycle)
  = Ok first_sample
  /\ first_sample !! "errors"
     = Some (PyDict [("error_1", PyStr "0"); ("error_2", PyStr "0");
                     ("error_3", PyStr "0"); ("error_4", PyStr "0")])
  /\ ~ numbers_but_rain_temp first_sample.
Proof.
  assert (He : first_sample !! "errors"
               = Some (PyDict [("error_1", PyStr "0"); ("error_2", PyStr "0");
                               ("error_3", PyStr "0"); ("error_4", PyStr "0")]))
    by (vm_compute; reflexivity).
  split; [vm_compute; reflexivity|]. split; [exact He|].
  intros Hn. specialize (Hn "errors" _ ltac:(cbn; tauto) He).
  cbn in Hn. destruct Hn as [q Hq]. discriminate Hq.
Qed.

End CycleFacts.

(** ** The fragment of regular expressions *)
Module ReFacts.
Import Re.

Lemma length_append (a b : string) :
  String.length (a +:+ b) = (String.length a + String.length b)%nat.
Proof. induction a as [|c a IH]; simpl; [reflexivity|]. f_equal. exact IH. Qed.

Lemma str_drop_length n s :
  String.length (str_drop n s) = (String.length s - n)%nat.
Proof.
  revert s. induction n as [|n IH]; intros [|c s]; cbn; try reflexivity.
  apply IH.
Qed.

Lemma str_drop_app (a b : string) : str_drop (String.length a) (a +:+ b) = b.
Proof. induction a as [|c a IH]; simpl; [destruct b; reflexivity|exact IH]. Qed.

Lemma str_take_app (a b : string) : str_take (String.length a) (a +:+ b) = a.
Proof.
  induction a as [|c a IH]; simpl; [destruct b; reflexivity|].
  f_equal. exact IH.
Qed.

Lemma run_le_length a s : (run a s <= String.length s)%nat.
Proof.
  induction s as [|c s IH]; cbn; [lia|]. destruct (accepts a c); lia.
Qed.

Lemma run_all_accepted a s t :
  all_accepted a s = true -> (String.length s <= run a (s +:+ t))%nat.
Proof.
  induction s as [|c s IH]; simpl; [lia|].
  intros Hs. apply andb_true_iff in Hs as [Hc Hs]. rewrite Hc.
  specialize (IH Hs). lia.
Qed.


(** [first_down] returns the success at the largest index. *)
Lemma first_down_found {R} (f : nat -> option R) lo k r :
  f k = Some r -> (lo <= k)%nat ->
  forall hi, (k <= hi)%nat ->
    (forall j, (k < j <= hi)%nat -> f j = None) ->
    first_down hi lo f = Some r.
Proof.
  intros Hk Hlo hi. induction hi as [|hi IH]; intros Hhi Hnone.
  - assert (k = 0)%nat by lia. subst k. cbn.
    assert (lo = 0)%nat by lia. subst lo. cbn. rewrite Hk. reflexivity.
  - cbn [first_down].
    destruct (S hi <? lo)%nat eqn:E; [apply Nat.ltb_lt in E; lia|].
    destruct (Nat.eq_dec k (S hi)) as [->|Hne].
    + rewrite Hk. reflexivity.
    + rewrite (Hnone (S hi)) by lia. apply IH; [lia|].
      intros j Hj. apply Hnone. lia.
Qed.

(** A success of [first_down] is a success at some index of the range. *)
Lemma first_down_some {R} (f : nat -> option R) lo r :
  forall hi, first_down hi lo f = Some r ->
    exists k, (lo <= k <= hi)%nat /\ f k = Some r.
Proof.
  induction hi as [|hi IH]; cbn [first_down].
  - destruct (0 <? lo)%nat eqn:E; [discriminate|].
    apply Nat.ltb_ge in E.
    destruct (f 0%nat) eqn:F; [|discriminate].
    intros [= <-]. exists 0%nat. split; [lia|exact F].
  - destruct (S hi <? lo)%nat eqn:E; [discriminate|].
    apply Nat.ltb_ge in E.
    destruct (f (S hi)) eqn:F.
    + intros [= <-]. exists (S hi). split; [lia|exact F].
    + intros Hf. destruct (IH Hf) as (k & Hk & Hfk).
      exists k. split; [lia|exact Hfk].
Qed.

(** A pattern that opens with two literal characters matches only texts
    that open with them. *)
Lemma exec_literal_head c1 c2 rest text cur acc groups :
  exec (One (ASet [CChr c1]) :: One (ASet [CChr c2]) :: rest) text cur acc
  = Some groups ->
  str_take 2 text = String c1 (String c2 EmptyString).
Proof.
  cbn [exec].
  destruct text as [|a text]; cbn; [discriminate|].
  rewrite orb_false_r.
  destruct (Ascii.eqb_spec a c1) as [->|]; cbn; [|discriminate].
  destruct text as [|b text]; cbn; [discriminate|].
  rewrite orb_false_r.
  destruct (Ascii.eqb_spec b c2) as [->|]; cbn; [|discriminate].
  destruct text; reflexivity.
Qed.

Lemma literal_head_match pattern text groups :
  literal_head pattern = true ->
  re_match pattern text = Some groups ->
  str_take 2 text = str_take 2 pattern.
Proof.
  unfold literal_head, re_match.
  destruct (compile pattern) as [[|[[|[|[c1| | |] [|]]]| | | | |] r]|];
    try discriminate.
  destruct r as [|[[|[|[c2| | |] [|]]]| | | | |] r]; try discriminate.
  intros He Hx. apply String.eqb_eq in He. rewrite He.
  eapply exec_literal_head. exact Hx.
Qed.

End ReFacts.

(** ** More on the protocol engine *)
Module ProtocolMore.
Import Protocol Re.

Lemma set_command_head request :
  matches "P\d\d\d\d!" request = true -> str_take 1 request = "P".
Proof.
  unfold matches, re_match.
  replace (compile "P\d\d\d\d!")
    with (Some [One (ASet [CChr "P"]); One (ASet [CDigit]);
                One (ASet [CDigit]); One (ASet [CDigit]);
                One (ASet [CDigit]); One (ASet [CChr "!"])])
    by (vm_compute; reflexivity).
  cbn [exec]. destruct request as [|a r]; cbn; [discriminate|].
  rewrite orb_false_r.
  destruct (Ascii.eqb_spec a "P") as [->|]; cbn; [|discriminate].
  destruct r; reflexivity.
Qed.

Lemma literal_command_head key request :
  literal_head key = true ->
  matches key request = true ->
  str_take 2 request = str_take 2 key.
Proof.
  unfold matches. intros Hk Hm.
  destruct (re_match key request) as [groups|] eqn:E; [|discriminate].
  eapply ReFacts.literal_head_match; eassumption.
Qed.

(** No request matches two command patterns. *)
Lemma commands_exclusive request k1 k2 :
  In k1 (map fst commands) -> In k2 (map fst commands) ->
  matches k1 request = true -> matches k2 request = true ->
  k1 = k2.
Proof.
  intros H1 H2 M1 M2.
  assert (A : forall k, In k (map fst commands) ->
                matches k request = true ->
                (k = "P\d\d\d\d!" /\ str_take 1 request = "P")
                \/ (k <> "P\d\d\d\d!"
                    /\ str_take 2 request = str_take 2 k)).
  { intros k Hk Mk. cbn in Hk.
    repeat (destruct Hk as [<-|Hk];
            [first [ left; split; [reflexivity|];
                     apply set_command_head; exact Mk
                   | right; split; [discriminate|];
                     apply literal_command_head;
                     [vm_compute; reflexivity|exact Mk] ]|]).
    destruct Hk. }
  destruct (A k1 H1 M1) as [[-> P1]|[N1 P1]];
    destruct (A k2 H2 M2) as [[-> P2]|[N2 P2]].
  - reflexivity.
  - exfalso. cbn in H2.
    repeat (destruct H2 as [<-|H2];
            [first [ congruence
                   | destruct request as [|a [|b r]]; cbn in P1, P2;
                     congruence ]|]).
    destruct H2.
  - exfalso. cbn in H1.
    repeat (destruct H1 as [<-|H1];
            [first [ congruence
                   | destruct request as [|a [|b r]]; cbn in P1, P2;
                     congruence ]|]).
    destruct H1.
  - rewrite P1 in P2. cbn in H1, H2.
    repeat (destruct H1 as [<-|H1]; [|]); try (destruct H1);
      repeat (destruct H2 as [<-|H2]; [|]); try (destruct H2);
      first [ reflexivity | discriminate P2 | congruence ].
Qed.

(** X1: the command of a request does not depend on the order of the
    dictionary: [find_command] finds a key exactly when that key is one of
    [self.commands] and matches, and no request matches two keys. *)
Theorem find_command_unique request key :
  find_command request = Some key
  <-> In key (map fst commands) /\ matches key request = true.
Proof.
  unfold find_command. split.
  - destruct (find _ commands) as [kv|] eqn:E; [|discriminate].
    intros [= <-]. apply find_some in E as [Hin Hm].
    split; [apply in_map; exact Hin|exact Hm].
  - intros [Hin Hm].
    destruct (find _ commands) as [kv|] eqn:E.
    + apply find_some in E as [Hin' Hm']. cbn. f_equal.
      eapply commands_exclusive; try eassumption.
      apply in_map. exact Hin'.
    + exfalso. apply in_map_iff in Hin as (kv & <- & Hkv).
      pose proof (find_none _ _ E kv Hkv) as Hn. cbn in Hn. congruence.
Qed.

Lemma short_has_no_trailer text cur acc :
  (String.length text < 14)%nat ->
  exec [GClose; One (ASet [CChr (ascii_of_nat 17)]);
        Times 12 (ASet [CSpace]); One (ASet [CChr "0"])] text cur acc
  = None.
Proof.
  intros Hlen. cbn [exec]. destruct cur as [g|]; [|reflexivity].
  destruct (1 <=? run _ text)%nat eqn:E1; [|reflexivity].
  destruct (12 <=? run _ (str_drop 1 text))%nat eqn:E2; [|reflexivity].
  destruct (1 <=? run _ (str_drop 12 (str_drop 1 text)))%nat eqn:E3;
    [|reflexivity].
  exfalso. apply Nat.leb_le in E3.
  match type of E3 with
  | (1 <= run ?a ?t)%nat => pose proof (ReFacts.run_le_length a t) as Hr
  end.
  rewrite !ReFacts.str_drop_length in Hr. lia.
Qed.

Lemma exec_One_ok a r c t cur acc :
  accepts a c = true ->
  exec (One a :: r) (String c t) cur acc
  = exec r t (grow cur (String c EmptyString)) acc.
Proof. intros Ha. cbn [exec run]. rewrite Ha. reflexivity. Qed.

Lemma trailer_text_matches g acc :
  exec [GClose; One (ASet [CChr (ascii_of_nat 17)]);
        Times 12 (ASet [CSpace]); One (ASet [CChr "0"])]
    trailer_text (Some g) acc
  = Some (rev (g :: acc)).
Proof. reflexivity. Qed.

(** The trailer is found behind a body that has no line break. *)
Lemma trailer_found body :
  all_accepted AAny body = true ->
  re_match trailer (String "!" (body +:+ trailer_text))
  = Some [String "!" body].
Proof.
  intros Hbody. unfold re_match.
  replace (compile trailer)
    with (Some [GOpen; One (ASet [CChr "!"]); Star AAny; GClose;
                One (ASet [CChr (ascii_of_nat 17)]);
                Times 12 (ASet [CSpace]); One (ASet [CChr "0"])])
    by (vm_compute; reflexivity).
  change (exec (GOpen :: ?r) ?s None ?acc) with (exec r s (Some EmptyString) acc).
  rewrite exec_One_ok by reflexivity.
  change (grow (Some EmptyString) "!") with (Some "!").
  change (exec (Star ?a :: ?r) ?s ?cur ?acc)
    with (first_down (run a s) 0
            (fun k => exec r (str_drop k s) (grow cur (str_take k s)) acc)).
  apply (ReFacts.first_down_found _ 0%nat (String.length body)).
  - rewrite ReFacts.str_drop_app, ReFacts.str_take_app.
    change (grow (Some "!") body) with (Some (String "!" body)).
    apply trailer_text_matches.
  - lia.
  - apply ReFacts.run_all_accepted. exact Hbody.
  - intros j Hj. apply short_has_no_trailer.
    rewrite ReFacts.str_drop_length, ReFacts.length_append.
    change (String.length trailer_text) with 14%nat. lia.
Qed.

(** A match of the trailer pattern has its group. *)
Lemma trailer_group text groups :
  re_match trailer text = Some groups -> groups <> [].
Proof.
  unfold re_match.
  replace (compile trailer)
    with (Some [GOpen; One (ASet [CChr "!"]); Star AAny; GClose;
                One (ASet [CChr (ascii_of_nat 17)]);
                Times 12 (ASet [CSpace]); One (ASet [CChr "0"])])
    by (vm_compute; reflexivity).
  cbn [exec].
  destruct (1 <=? run _ text)%nat; [|discriminate].
  intros Hf. apply ReFacts.first_down_some in Hf as (k & _ & Hk).
  cbn [exec grow option_map] in Hk.
  repeat match type of Hk with
         | (if ?c then _ else _) = _ => destruct c; [|discriminate]
         end.
  injection Hk as <-. discriminate.
Qed.

Section WithPort.
Context {D : Type} `{Transport D}.

Lemma only_sent_refl request (s : sensor D) : only_sent request s s.
Proof. exists []. split; [reflexivity|constructor]. Qed.

Lemma only_sent_trans request (s1 s2 s3 : sensor D) :
  only_sent request s1 s2 -> only_sent request s2 s3 ->
  only_sent request s1 s3.
Proof.
  intros (n1 & E1 & F1) (n2 & E2 & F2).
  exists (n2 ++ n1)%list. split.
  - rewrite E2, E1. apply app_assoc.
  - apply List.Forall_app. split; assumption.
Qed.

Lemma writes_app (a b : list event) :
  writes (a ++ b) = (writes a + writes b)%nat.
Proof.
  induction a as [|[x|x] a IH]; cbn; [reflexivity| |exact IH].
  f_equal. exact IH.
Qed.

(** [send] never raises; it answers [None] exactly to an unknown
    command, which it does not write. *)
Lemma send_ok request delay (s : sensor D) :
  exists r s',
    send request delay s = (Ok r, s')
    /\ only_sent request s s'
    /\ match find_command request with
       | None => r = None /\ s' = s
       | Some _ =>
           exists text, r = Some text
             /\ trace s' = EvSleep delay :: EvWrite request :: trace s
       end.
Proof.
  unfold send. destruct (find_command request) as [cmd|].
  - unfold bind, read_all, write, sleep, modify.
    destruct (port_read (AAG s)) as [stale d1]. cbn.
    destruct (port_read _) as [response d2]. cbn.
    destruct (re_match trailer response) as [[|g l]|] eqn:E.
    + exfalso. exact (trailer_group _ _ E eq_refl).
    + do 2 eexists. split; [reflexivity|]. cbn.
      split; [|eauto].
      exists [EvSleep delay; EvWrite request]. split; [reflexivity|].
      repeat constructor.
    + do 2 eexists. split; [reflexivity|]. cbn.
      split; [|eauto].
      exists [EvSleep delay; EvWrite request]. split; [reflexivity|].
      repeat constructor.
  - exists None, s. split; [reflexivity|].
    split; [apply only_sent_refl|split; reflexivity].
Qed.

Lemma send_framed request delay (s : sensor D) body :
  find_command request <> None ->
  reply_of request delay s = String "!" (body +:+ trailer_text) ->
  all_accepted AAny body = true ->
  fst (send request delay s) = Ok (Some (String "!" body)).
Proof.
  intros Hk Hr Hb. unfold send, reply_of in *.
  destruct (find_command request); [|congruence].
  unfold bind, read_all, write, sleep, modify.
  destruct (port_read (AAG s)) as [stale d1]. cbn in Hr |- *.
  destruct (port_read _) as [response d2]. cbn in Hr |- *. subst response.
  rewrite (trailer_found body Hb). reflexivity.
Qed.

(** X2: a framed reply comes back without its trailer. *)
Theorem send_strips_trailer request delay (s : sensor D) body :
  find_command request <> None ->
  reply_of request delay s = String "!" (body +:+ trailer_text) ->
  all_accepted AAny body = true ->
  fst (send request delay s) = Ok (Some (String "!" body)).
Proof. apply send_framed. Qed.

(** The loop of [query], for a known command: it never raises, what it
    returns is the result it started with or the groups of a match, and
    it writes nothing but the request. *)
Lemma query_loop_ok fuel request cmd delay expect maxtries :
  find_command request = Some cmd ->
  forall count result (s : sensor D),
    (Z.to_nat (maxtries + 1 - count) <= fuel)%nat ->
    exists r s',
      query_loop fuel request delay expect maxtries count result s
      = (Ok r, s')
      /\ only_sent request s s'
      /\ (r = result
          \/ r = None
          \/ exists text groups,
               r = Some groups /\ re_match expect text = Some groups).
Proof.
  intros Hk. induction fuel as [|fuel IH]; intros count result s Hf;
    cbn [query_loop].
  - destruct (negb (truthy result) && (count <=? maxtries)) eqn:E.
    + apply andb_true_iff in E as [_ E]. apply Z.leb_le in E. lia.
    + exists result, s. split; [reflexivity|].
      split; [apply only_sent_refl|left; reflexivity].
  - destruct (negb (truthy result) && (count <=? maxtries)) eqn:E.
    + apply andb_true_iff in E as [_ E]. apply Z.leb_le in E.
      destruct (send_ok request delay s) as (r0 & s1 & Hs & Ho & Hc).
      rewrite Hk in Hc. destruct Hc as (text & -> & _).
      unfold bind at 1. rewrite Hs.
      destruct (re_match expect text) as [groups|] eqn:Em.
      * destruct (IH (count + 1) (Some groups) s1) as (r & s' & Hq & Ho' & Hr);
          [lia|].
        exists r, s'. split; [exact Hq|].
        split; [eapply only_sent_trans; eassumption|].
        destruct Hr as [->|Hr]; [|right; exact Hr].
        right; right. eauto.
      * unfold bind, sleep, modify.
        match goal with
        | |- context [query_loop fuel _ _ _ _ _ _ ?s2] =>
            destruct (IH (count + 1) None s2) as (r & s' & Hq & Ho' & Hr);
            [lia|]
        end.
        exists r, s'. split; [exact Hq|].
        split.
        -- eapply only_sent_trans; [exact Ho|].
           eapply only_sent_trans; [|exact Ho'].
           exists [EvSleep hibernate]. split; [reflexivity|].
           repeat constructor.
        -- destruct Hr as [->|Hr]; [right; left; reflexivity|right; exact Hr].
    + exists result, s. split; [reflexivity|].
      split; [apply only_sent_refl|left; reflexivity].
Qed.

(** [query] on a command that has an expected reply. *)
Lemma query_known request cmd expect maxtries (s : sensor D) :
  find_command request = Some cmd ->
  expects !! cmd = Some expect ->
  exists r s',
    query request maxtries s = (Ok r, s')
    /\ only_sent request s s'
    /\ forall groups, r = Some groups ->
         exists text, re_match expect text = Some groups.
Proof.
  intros Hk He. unfold query. rewrite Hk, He.
  destruct (query_loop_ok (Z.to_nat (maxtries + 2)) request cmd
              (default 0.200%Q (delays !! cmd)) expect maxtries Hk 0 None s)
    as (r & s' & Hq & Ho & Hr); [lia|].
  exists r, s'. split; [exact Hq|]. split; [exact Ho|].
  intros groups ->.
  destruct Hr as [Hr|[Hr|(text & g & Hg & Hm)]]; try discriminate.
  injection Hg as <-. eauto.
Qed.

Lemma query_only_sent request maxtries (s : sensor D) :
  only_sent request s (snd (query request maxtries s)).
Proof.
  destruct (find_command request) as [cmd|] eqn:Hk.
  - destruct (expects !! cmd) as [expect|] eqn:He.
    + destruct (query_known request cmd expect maxtries s Hk He)
        as (r & s' & Hq & Ho & _).
      rewrite Hq. exact Ho.
    + unfold query. rewrite Hk, He. apply only_sent_refl.
  - unfold query. rewrite Hk. apply only_sent_refl.
Qed.

Lemma query_writes_le request maxtries (s : sensor D) :
  (writes (trace (snd (query request maxtries s)))
   <= writes (trace s) + Z.to_nat (maxtries + 1))%nat.
Proof.
  unfold query. destruct (find_command request) as [cmd|]; [|cbn; lia].
  destruct (expects !! cmd) as [expect|]; [|cbn; lia].
  pose proof (ProtocolFacts.query_loop_writes (Z.to_nat (maxtries + 2))
                request (default 0.200%Q (delays !! cmd)) expect maxtries
                0 None s) as Hw.
  replace (maxtries + 1 - 0) with (maxtries + 1) in Hw by lia. exact Hw.
Qed.


(** X4: whatever the request and the outcome, [query] puts on the port
    nothing but the request itself, at most [maxtries + 1] times, and not
    at all when [maxtries] is negative. *)
Theorem query_write_bound request maxtries (s : sensor D) :
  let s' := snd (query request maxtries s) in
  only_sent request s s'
  /\ (writes (trace s')
      <= writes (trace s) + Z.to_nat (maxtries + 1))%nat.
Proof.
  split; [apply query_only_sent|apply query_writes_le].
Qed.

End WithPort.
Lemma send_strips_trailer_witness :
  fst (send "!T" 0.200 (play [framed_ambient])) = Ok (Some "!2  1500!").
Proof.
  apply (send_strips_trailer "!T" 0.200 (play [framed_ambient]) "2  1500!").
  - vm_compute. discriminate.
  - reflexivity.
  - reflexivity.
Defined.


End ProtocolMore.

(** ** More on the sample aggregator *)
Module AggregatorMore.
Import Protocol Aggregator Re.


Section WithPort.
Context {D : Type} `{Transport D}.





Lemma values_turn_chain np_log (ivs ldrs rsts ivs' ldrs' rsts' : list Q)
  (s s' : sensor D) :
  values_turn np_log (ivs, ldrs, rsts) s = (Ok (ivs', ldrs', rsts'), s') ->
  (length rsts <= length ldrs <= length ivs)%nat ->
  (length rsts' <= length ldrs' <= length ivs')%nat.
Proof.
  unfold values_turn, bind at 1.
  destruct (query "!C" 5 s) as [[responses|e] s1]; [|discriminate].
  match goal with
  | |- context [match ?m s1 with _ => _ end] =>
      destruct (m s1) as [[v0|e0] s2]
  end; [|intros [= <- <- <- _]; trivial].
  match goal with
  | |- context [match ?m s2 with _ => _ end] =>
      destruct (m s2) as [[v1|e1] s3]
  end; [|intros [= <- <- <- _]; rewrite length_app; cbn; lia].
  match goal with
  | |- context [match ?m s3 with _ => _ end] =>
      destruct (m s3) as [[v2|e2] s4]
  end; intros [= <- <- <- _]; rewrite !length_app; cbn; lia.
Qed.

Lemma values_loop_chain np_log n : forall acc acc' (s s' : sensor D),
  values_loop np_log n acc s = (Ok acc', s') ->
  (length acc.2 <= length acc.1.2 <= length acc.1.1)%nat ->
  (length acc'.2 <= length acc'.1.2 <= length acc'.1.1)%nat.
Proof.
  induction n as [|n IH]; intros acc acc' s s'; cbn [values_loop].
  - intros [= <- _]. trivial.
  - unfold bind.
    destruct (values_turn np_log acc s) as [[acc1|e] s1] eqn:Et;
      [|discriminate].
    intros Hl Hacc. eapply IH; [exact Hl|].
    destruct acc as [[ivs ldrs] rsts], acc1 as [[ivs1 ldrs1] rsts1].
    eapply values_turn_chain; eassumption.
Qed.

(** X7: of the three quantities of [get_values] a later one is never
    there without the earlier ones: a rain sensor temperature comes with an
    LDR resistance, and an LDR resistance with an internal voltage. *)
Theorem get_values_presence np_log (n : Z) (s s' : sensor D)
  (internal_voltage LDR_resistance rain_sensor_temp : option Q) :
  get_values np_log n s
  = (Ok (internal_voltage, LDR_resistance, rain_sensor_temp), s') ->
  (is_Some rain_sensor_temp -> is_Some LDR_resistance)
  /\ (is_Some LDR_resistance -> is_Some internal_voltage).
Proof.
  unfold get_values, bind.
  destruct (values_loop np_log (Z.to_nat n) ([], [], []) s)
    as [[[[ivs ldrs] rsts]|e] s1] eqn:El; [|discriminate].
  apply values_loop_chain in El; [|cbn; lia]. cbn in El.
  unfold ret, median_if_enough. intros [= <- <- <- _].
  split; intros [x Hx].
  - destruct (n - 1 <=? Z.of_nat (length rsts)) eqn:E1; [|discriminate].
    apply Z.leb_le in E1.
    destruct (n - 1 <=? Z.of_nat (length ldrs)) eqn:E2; [eauto|].
    apply Z.leb_gt in E2. lia.
  - destruct (n - 1 <=? Z.of_nat (length ldrs)) eqn:E1; [|discriminate].
    apply Z.leb_le in E1.
    destruct (n - 1 <=? Z.of_nat (length ivs)) eqn:E2; [eauto|].
    apply Z.leb_gt in E2. lia.
Qed.

End WithPort.
Lemma get_values_presence_witness :
  exists iv ldr rst,
    fst (get_values log_zero 5 (play values_replies)) = Ok (iv, ldr, rst)
    /\ (is_Some rst -> is_Some ldr) /\ (is_Some ldr -> is_Some iv).
Proof.
  do 3 eexists. split; [vm_compute; reflexivity|].
  eapply (get_values_presence log_zero 5 (play values_replies)).
  vm_compute. reflexivity.
Defined.

End AggregatorMore.

(** ** The PWM setter *)
Module PWMFacts.
Import Protocol Aggregator.

(** On a float that is not negative [int] is the floor. *)
Lemma py_int_floor (x : Q) :
  (0 <= x)%Q ->
  (inject_Z (py_int x) <= x)%Q /\ (x < inject_Z (py_int x) + 1)%Q.
Proof.
  destruct x as [num den]. unfold py_int, Qle, Qlt. cbn.
  intros Hx. rewrite Z.mul_1_r in Hx.
  rewrite Z.quot_div_nonneg by lia.
  pose proof (Z.div_mod num (Z.pos den) ltac:(lia)) as Hdm.
  pose proof (Z.mod_pos_bound num (Z.pos den) ltac:(lia)) as Hm.
  split; nia.
Qed.

Lemma clamp_percent_range (percent : Q) :
  (0 <= clamp_percent percent)%Q /\ (clamp_percent percent <= 100)%Q.
Proof.
  unfold clamp_percent.
  destruct (Qlt_bool percent 0) eqn:E1.
  - replace (Qgt_bool 0 100) with false by reflexivity.
    split; discriminate.
  - apply Qlt_bool_false in E1.
    destruct (Qgt_bool percent 100) eqn:E2.
    + split; discriminate.
    + apply Qlt_bool_false in E2. split; assumption.
Qed.

Lemma send_digital_range (percent : Q) :
  (0 <= percent)%Q -> (percent <= 100)%Q ->
  0 <= send_digital_of percent <= 1023.
Proof.
  intros H0 H100. unfold send_digital_of.
  assert (Hx : (0 <= 1023 * percent / 100)%Q).
  { unfold Qdiv. change (/ 100)%Q with (1 # 100)%Q. lra. }
  destruct (py_int_floor _ Hx) as [Hlo Hhi].
  assert (Hup : (1023 * percent / 100 <= 1023)%Q).
  { unfold Qdiv. change (/ 100)%Q with (1 # 100)%Q. lra. }
  split.
  - assert (Hq : (-1 < inject_Z (py_int (1023 * percent / 100)))%Q) by lra.
    unfold Qlt in Hq. cbn in Hq. lia.
  - assert (Hq : (inject_Z (py_int (1023 * percent / 100)) <= 1023)%Q)
      by lra.
    unfold Qle in Hq. cbn in Hq. lia.
Qed.

(** The clamp to [0, 100] keeps the digital value within 0..1023, four
    digits, and the command is one that [self.commands] knows as
    "set PWM". *)
Lemma PWM_request_set_command (percent : Q) :
  0 <= send_digital_of (clamp_percent percent) <= 1023
  /\ find_command (PWM_request (clamp_percent percent)) = Some "P\d\d\d\d!".
Proof.
  destruct (clamp_percent_range percent) as [H0 H100].
  pose proof (send_digital_range _ H0 H100) as Hr.
  split; [exact Hr|].
  assert (Hall : set_commands_known 1024 = true) by (vm_compute; reflexivity).
  unfold set_commands_known in Hall.
  rewrite forallb_forall in Hall.
  specialize (Hall (Z.to_nat (send_digital_of (clamp_percent percent)))).
  rewrite Z2Nat.id in Hall by lia.
  unfold PWM_request.
  destruct (find_command _) as [cmd|].
  - f_equal. apply String.eqb_eq. apply Hall. apply in_seq. lia.
  - discriminate Hall. apply in_seq. lia.
Qed.

Lemma digital_close (percent : Q) :
  (0 <= percent)%Q -> (percent <= 100)%Q ->
  let pwm := (inject_Z (send_digital_of percent) * 100 / 1023)%Q in
  (pwm <= percent)%Q /\ (percent - pwm < 1 # 10)%Q.
Proof.
  intros H0 H100 pwm.
  assert (Hx : (0 <= 1023 * percent / 100)%Q).
  { unfold Qdiv. change (/ 100)%Q with (1 # 100)%Q. lra. }
  destruct (py_int_floor _ Hx) as [Hlo Hhi].
  fold (send_digital_of percent) in Hlo, Hhi.
  unfold Qdiv in Hlo, Hhi. change (/ 100)%Q with (1 # 100)%Q in Hlo, Hhi.
  split; subst pwm; unfold Qdiv; change (/ 1023)%Q with (1 # 1023)%Q; lra.
Qed.


Section WithPort.
Context {D : Type} `{Transport D}.

Lemma set_PWM_loop_frame fuel percent ntries :
  forall count success (s : sensor D),
    let s' := snd (set_PWM_loop fuel percent ntries count success s) in
    only_sent (PWM_request percent) s s'
    /\ (writes (trace s')
        <= writes (trace s) + 6 * Z.to_nat (ntries + 1 - count))%nat.
Proof.
  induction fuel as [|fuel IH]; intros count success s; cbn [set_PWM_loop].
  - destruct (negb success && (count <=? ntries)); cbn;
      (split; [apply ProtocolMore.only_sent_refl|lia]).
  - destruct (negb success && (count <=? ntries)) eqn:E;
      [|cbn; split; [apply ProtocolMore.only_sent_refl|lia]].
    apply andb_true_iff in E as [_ E]. apply Z.leb_le in E.
    change ("P" +:+ format_04d (py_int (1023 * percent / 100)) +:+ "!")
      with (PWM_request percent).
    pose proof (ProtocolMore.query_only_sent (PWM_request percent) 5 s) as Ho.
    pose proof (ProtocolMore.query_writes_le (PWM_request percent) 5 s)
      as Hw.
    change (Z.to_nat (5 + 1)) with 6%nat in Hw.
    cbv zeta.
    match goal with
    | |- context [bind ?m ?k s] =>
        change (bind m k s)
          with (match m s with
                | (Ok a, s0) => k a s0
                | (Raise e, s0) => (Raise e, s0)
                end)
    end.
    destruct (query (PWM_request percent) 5 s) as [[result|e] s1];
      cbn [snd] in Ho, Hw; [|cbn [snd]; split; [exact Ho|lia]].
    assert (Hnext : forall b s2,
               only_sent (PWM_request percent) s1 s2 ->
               writes (trace s2) = writes (trace s1) ->
               let s' := snd (set_PWM_loop fuel percent ntries (count + 1)
                                b s2) in
               only_sent (PWM_request percent) s s'
               /\ (writes (trace s')
                   <= writes (trace s)
                      + 6 * Z.to_nat (ntries + 1 - count))%nat).
    { intros b s2 Ho2 Hw2. destruct (IH (count + 1) b s2) as [Ho3 Hw3].
      cbn zeta. split.
      - eapply ProtocolMore.only_sent_trans; [exact Ho|].
        eapply ProtocolMore.only_sent_trans; eassumption.
      - lia. }
    destruct result as [[|x l]|]; cbn [truthy].
    + apply Hnext; [apply ProtocolMore.only_sent_refl|reflexivity].
    + unfold bind, item0, ret, float_.
      destruct (py_float x) as [v|];
        [|unfold raise; cbn beta iota; cbn [snd]; split; [exact Ho|lia]].
      unfold ret, modify, sleep, modify. cbn beta iota.
      match goal with
      | |- context [if ?c then _ else _] => destruct c
      end.
      * apply Hnext; [|reflexivity].
        exists [EvSleep 2]. split; [reflexivity|]. repeat constructor.
      * apply Hnext; [|reflexivity].
        exists []. split; [reflexivity|constructor].
    + apply Hnext; [apply ProtocolMore.only_sent_refl|reflexivity].
Qed.

Lemma set_PWM_frame percent ntries (s : sensor D) :
  let s' := snd (set_PWM percent ntries s) in
  only_sent (PWM_request (clamp_percent percent)) s s'
  /\ (writes (trace s')
      <= writes (trace s) + 6 * Z.to_nat (ntries + 1))%nat.
Proof.
  pose proof (set_PWM_loop_frame (Z.to_nat (ntries + 2))
                (clamp_percent percent) ntries 0 false s) as Hf.
  replace (ntries + 1 - 0) with (ntries + 1) in Hf by lia. exact Hf.
Qed.

(** X9: whatever percentage it is asked for and whatever the outcome,
    [set_PWM] writes nothing but one command, that of the percentage
    clamped to [0, 100], at most six times for each of its [ntries + 1]
    rounds; its digital value is within 0..1023 and [self.commands] knows
    the command as "set PWM". *)
Theorem set_PWM_sends_one_command percent ntries (s : sensor D) :
  let s' := snd (set_PWM percent ntries s) in
  only_sent (PWM_request (clamp_percent percent)) s s'
  /\ (writes (trace s')
      <= writes (trace s) + 6 * Z.to_nat (ntries + 1))%nat
  /\ 0 <= send_digital_of (clamp_percent percent) <= 1023
  /\ find_command (PWM_request (clamp_percent percent))
     = Some "P\d\d\d\d!".
Proof.
  destruct (set_PWM_frame percent ntries s) as [Ho Hw].
  destruct (PWM_request_set_command percent) as [Hr Hk].
  repeat split; try assumption; apply Hr.
Qed.

(** X10: a device that reads back the digital value it was sent is set
    at the first attempt: one query, no waiting, and [self.PWM] is the
    percentage read back. *)
Theorem set_PWM_settles percent ntries (s s1 : sensor D) x rest v :
  0 <= ntries ->
  query (PWM_request (clamp_percent percent)) 5 s
  = (Ok (Some (x :: rest)), s1) ->
  py_float x = Some v ->
  (v == inject_Z (send_digital_of (clamp_percent percent)))%Q ->
  set_PWM percent ntries s
  = (Ok tt, with_PWM (Some (v * 100 / 1023)%Q) s1).
Proof.
  intros Hn Hq Hx Hv.
  change (set_PWM percent ntries s)
    with (set_PWM_loop (Z.to_nat (ntries + 2)) (clamp_percent percent)
            ntries 0 false s).
  destruct (clamp_percent_range percent) as [H0 H100].
  destruct (digital_close _ H0 H100) as (Hle & Hlt).
  set (p := clamp_percent percent) in *.
  destruct (Z.to_nat (ntries + 2)) as [|fuel] eqn:Ef; [lia|].
  cbn [set_PWM_loop negb andb].
  replace (0 <=? ntries) with true by (symmetry; apply Z.leb_le; exact Hn).
  change ("P" +:+ format_04d (py_int (1023 * p / 100)) +:+ "!")
    with (PWM_request p).
  unfold bind at 1. rewrite Hq. cbn [truthy].
  unfold bind, item0, ret, float_. rewrite Hx.
  unfold ret, modify. cbn beta iota.
  replace (Qgt_bool (Qabs_ (v * 100 / 1023 - p)) 5) with false.
  - destruct fuel; reflexivity.
  - symmetry. unfold Qgt_bool. apply Qlt_bool_false. unfold Qabs_.
    unfold Qdiv in Hle, Hlt |- *.
    change (/ 1023)%Q with (1 # 1023)%Q in Hle, Hlt |- *.
    destruct (Qlt_bool _ 0) eqn:E.
    + apply Qlt_bool_true in E. lra.
    + apply Qlt_bool_false in E. lra.
Qed.

End WithPort.

Lemma set_PWM_settles_witness :
  set_PWM 50 15 (play ["!Q  511!"])
  = (Ok tt,
     with_PWM (Some (511 * 100 / 1023)%Q)
       (snd (query (PWM_request (clamp_percent 50)) 5 (play ["!Q  511!"])))).
Proof.
  apply (set_PWM_settles 50 15 (play ["!Q  511!"]) _ "511" [] 511).
  - lia.
  - vm_compute. reflexivity.
  - reflexivity.
  - vm_compute. reflexivity.
Defined.

End PWMFacts.

(** ** The switch *)
Module SwitchFacts.
Import Protocol Switch.

Section WithPort.
Context {D : Type} `{Transport D}.




(** X12: a device that answers "!Y            1!" is read as open and one
    that answers "!X            1!" as closed, at the first attempt. *)
Theorem get_switch_reads (open : bool) maxtries (s : sensor D) :
  reply_of "!F" 0.100 s = switch_reply open ->
  fst (get_switch maxtries s) = Ok (if open then "OPEN" else "CLOSED").
Proof.
  intros Hr. unfold get_switch. cbn [get_switch_loop]. unfold bind.
  assert (Hs : fst (send "!F" 0.100 s)
               = Ok (Some (if open then "!Y            1!"
                           else "!X            1!"))).
  { destruct open.
    - apply (ProtocolMore.send_framed "!F" 0.100 s "Y            1!");
        [vm_compute; discriminate|exact Hr|reflexivity].
    - apply (ProtocolMore.send_framed "!F" 0.100 s "X            1!");
        [vm_compute; discriminate|exact Hr|reflexivity]. }
  destruct (send "!F" 0.100 s) as [o s1]. cbn [fst] in Hs. subst o.
  destruct open.
  - replace (matches "!Y            1!" "!Y            1!") with true
      by (vm_compute; reflexivity).
    reflexivity.
  - replace (matches "!Y            1!" "!X            1!") with false
      by (vm_compute; reflexivity).
    replace (matches "!X            1!" "!X            1!") with true
      by (vm_compute; reflexivity).
    reflexivity.
Qed.

End WithPort.

Lemma get_switch_reads_witness :
  fst (get_switch 3 (play [switch_reply false])) = Ok "CLOSED".
Proof.
  apply (get_switch_reads false 3 (play [switch_reply false])).
  reflexivity.
Defined.

End SwitchFacts.

(** ** More on the safety decision *)
Module SafetyMore.
Import Safety.

Lemma list_max_spec l : forall x y,
  In y (x :: l) -> (y <= list_max x l)%Q.
Proof.
  induction l as [|a l IH]; intros x y; cbn [list_max fold_left].
  - intros [<-|[]]. apply Qle_refl.
  - fold (list_max (if Qlt_bool x a then a else x) l).
    intros Hy.
    assert (Hm : ((if Qlt_bool x a then a else x)
                  <= list_max (if Qlt_bool x a then a else x) l)%Q)
      by (apply IH; left; reflexivity).
    destruct Hy as [<-|[<-|Hy]].
    + destruct (Qlt_bool x a) eqn:E; [|exact Hm].
      apply Qlt_bool_true in E.
      eapply Qle_trans; [|exact Hm]. apply Qlt_le_weak, E.
    + destruct (Qlt_bool x a) eqn:E; [exact Hm|].
      apply Qlt_bool_false in E. eapply Qle_trans; [exact E|exact Hm].
    + apply IH. right. exact Hy.
Qed.

Lemma traverse_In {A B} (f : A -> outcome B) l : forall ys x,
  traverse f l = Ok ys -> In x l -> exists y, f x = Ok y /\ In y ys.
Proof.
  induction l as [|a l IH]; intros ys x; cbn; [intros _ []|].
  destruct (f a) as [b|e] eqn:Ea; cbn; [|discriminate].
  destruct (traverse f l) as [bs|e]; cbn; [|discriminate].
  intros [= <-] [<-|Hx].
  - exists b. split; [exact Ea|left; reflexivity].
  - destruct (IH bs x eq_refl Hx) as (y & Hy & Hin).
    exists y. split; [exact Hy|right; exact Hin].
Qed.

Lemma omap_In {A B} (f : A -> option B) l x y :
  In x l -> f x = Some y -> In y (omap f l).
Proof.
  intros Hx Hy. apply list_elem_of_In. apply list_elem_of_omap.
  exists x. split; [apply list_elem_of_In; exact Hx|exact Hy].
Qed.

(** The verdict is made of the three categories, and the decision leaves
    the driver as it was. *)
Lemma decision_parts {D : Type} cv (s s' : sensor D) v :
  make_safety_decision cv s = (Ok v, s') ->
  s' = s
  /\ exists sky_safe wind_safe gust_safe rain_safe,
       sky_category (cfg s) (window_of s) cv = Ok (sky_safe, Sky v)
       /\ wind_category (cfg s) (clock s) (window_of s) cv
          = Ok ((wind_safe, Wind v), (gust_safe, Gust v))
       /\ rain_category (cfg s) (window_of s) cv = Ok (rain_safe, Rain v)
       /\ Safe v = sky_safe && wind_safe && gust_safe && rain_safe.
Proof.
  unfold make_safety_decision, bind, gets, lift, ret, window_of.
  cbn beta iota zeta.
  destruct (sky_category _ _ _) as [[sky_safe cloud]|e]; [|discriminate].
  destruct (wind_category _ _ _ _) as [[[wind_safe wc] [gust_safe gc]]|e];
    [|discriminate].
  destruct (rain_category _ _ _) as [[rain_safe rc]|e]; [|discriminate].
  intros [= <- <-]. split; [reflexivity|].
  exists sky_safe, wind_safe, gust_safe, rain_safe. repeat split.
Qed.

Lemma decision_of_parts {D : Type} cv (s : sensor D)
  sky_safe sky wind_safe wind gust_safe gust rain_safe rain :
  sky_category (cfg s) (window_of s) cv = Ok (sky_safe, sky) ->
  wind_category (cfg s) (clock s) (window_of s) cv
  = Ok ((wind_safe, wind), (gust_safe, gust)) ->
  rain_category (cfg s) (window_of s) cv = Ok (rain_safe, rain) ->
  make_safety_decision cv s
  = (Ok {| Safe := sky_safe && wind_safe && gust_safe && rain_safe;
           Sky := sky; Wind := wind; Gust := gust; Rain := rain |}, s).
Proof.
  unfold make_safety_decision, bind, gets, lift, ret, window_of.
  cbn beta iota zeta. intros -> -> ->. reflexivity.
Qed.






Lemma wind_category_current c stop entries cv cv' :
  cv' !! "wind_speed_KPH" = cv !! "wind_speed_KPH" ->
  wind_category c stop entries cv' = wind_category c stop entries cv.
Proof. intros Hk. unfold wind_category, getitem. rewrite Hk. reflexivity. Qed.

Lemma rain_category_current c entries cv cv' :
  cv' !! "rain_frequency" = cv !! "rain_frequency" ->
  rain_category c entries cv' = rain_category c entries cv.
Proof. intros Hk. unfold rain_category, getitem. rewrite Hk. reflexivity. Qed.

Lemma sky_category_current c entries cv sky_safe label x y :
  sky_category c entries cv = Ok (sky_safe, label) ->
  exists label',
    sky_category c entries
      (<["sky_temp_C" := PyFloat x]> (<["ambient_temp_C" := PyFloat y]> cv))
    = Ok (sky_safe, label').
Proof.
  unfold sky_category, obind, getitem.
  rewrite lookup_insert_eq.
  rewrite lookup_insert_ne by discriminate. rewrite lookup_insert_eq.
  destruct (sky_diff entries) as [diffs|e]; [|discriminate].
  destruct (length diffs =? 0)%nat; [eauto|].
  destruct (py_max diffs) as [m|e]; [|discriminate].
  destruct (cv !! "sky_temp_C") as [a|]; [|discriminate].
  destruct (cv !! "ambient_temp_C") as [b|]; [|discriminate].
  destruct (py_sub a b) as [last_cloud|e]; [|discriminate].
  intros [= <- _]. cbn [py_sub py_num obind]. eauto.
Qed.

(** X14: the current sky and ambient temperatures bear on the sky label
    only.  Whatever they are replaced with, the decision still succeeds,
    and the verdict and the other three labels are the same: the verdict
    on the sky looks at the stored samples alone. *)
Theorem current_sky_only_labels {D : Type} cv (s s' : sensor D) v x y :
  make_safety_decision cv s = (Ok v, s') ->
  exists v',
    make_safety_decision
      (<["sky_temp_C" := PyFloat x]> (<["ambient_temp_C" := PyFloat y]> cv)) s
    = (Ok v', s)
    /\ Safe v' = Safe v /\ Wind v' = Wind v /\ Gust v' = Gust v
    /\ Rain v' = Rain v.
Proof.
  intros Hd.
  destruct (decision_parts cv s s' v Hd)
    as (-> & ss & ws & gs & rs & Hsky & Hwind & Hrain & Hsafe).
  destruct (sky_category_current _ _ _ _ _ x y Hsky) as (label' & Hsky').
  eexists. split.
  - apply decision_of_parts; [exact Hsky'| |].
    + rewrite <- Hwind. apply wind_category_current.
      rewrite !lookup_insert_ne by discriminate. reflexivity.
    + rewrite <- Hrain. apply rain_category_current.
      rewrite !lookup_insert_ne by discriminate. reflexivity.
  - cbn. rewrite Hsafe. repeat split.
Qed.

Lemma current_sky_only_labels_witness :
  exists v',
    make_safety_decision
      (<["sky_temp_C" := PyFloat 0]> (<["ambient_temp_C" := PyFloat 10]>
                                        fine_now))
      (with_history [good_before])
    = (Ok v', with_history [good_before])
    /\ Safe v' = true /\ Wind v' = "Calm" /\ Gust v' = "Calm"
    /\ Rain v' = "Dry".
Proof.
  apply (current_sky_only_labels fine_now (with_history [good_before])
           (with_history [good_before]) calm_verdict 0 10).
  vm_compute. reflexivity.
Defined.

(** X15: one stored sample of the window whose sky is warmer, against
    the ambient temperature, than [threshold_very_cloudy] makes the verdict
    unsafe, whatever the current sample holds. *)
Theorem cloudy_sample_vetoes {D : Type} cv (s s' : sensor D) v x a b :
  make_safety_decision cv s = (Ok v, s') ->
  In x (window_of s) ->
  data x !! "sky_temp_C" = Some (PyFloat a) ->
  data x !! "ambient_temp_C" = Some (PyFloat b) ->
  (threshold_very_cloudy (cfg s) < a - b)%Q ->
  Safe v = false.
Proof.
  intros Hd Hx Ha Hb Hlt.
  destruct (decision_parts cv s s' v Hd)
    as (-> & ss & ws & gs & rs & Hsky & _ & _ & ->).
  replace ss with false; [reflexivity|].
  revert Hsky. unfold sky_category, obind.
  destruct (sky_diff (window_of s)) as [diffs|e] eqn:Ed; [|discriminate].
  destruct (length diffs =? 0)%nat; [intros [= <- _]; reflexivity|].
  unfold sky_diff in Ed.
  destruct (traverse_In _ _ diffs x Ed) as (d & Hfx & Hin).
  { apply filter_In. split; [exact Hx|]. unfold has_key. rewrite Ha.
    reflexivity. }
  unfold getitem, obind in Hfx. rewrite Ha, Hb in Hfx. cbn in Hfx.
  injection Hfx as <-.
  destruct diffs as [|d0 ds]; [destruct Hin|]. cbn [py_max].
  pose proof (list_max_spec ds d0 _ Hin) as Hmax.
  destruct (getitem cv "sky_temp_C"); [|discriminate].
  destruct (getitem cv "ambient_temp_C"); [|discriminate].
  destruct (py_sub _ _); [|discriminate].
  intros [= <- _]. symmetry. apply negb_false_iff.
  apply Qlt_bool_true. eapply Qlt_le_trans; eassumption.
Qed.

Lemma cloudy_sample_vetoes_witness :
  Safe {| Safe := false; Sky := "Clear"; Wind := "Calm"; Gust := "Calm";
          Rain := "Dry" |} = false.
Proof.
  apply (cloudy_sample_vetoes fine_now (with_history [bad_before])
           (with_history [bad_before]) _ bad_before 0 10).
  - vm_compute. reflexivity.
  - left. reflexivity.
  - reflexivity.
  - reflexivity.
  - vm_compute. reflexivity.
Defined.

(** X16: one stored sample of the window whose wind speed is above
    [threshold_very_gusty] makes the verdict unsafe. *)
Theorem gusty_sample_vetoes {D : Type} cv (s s' : sensor D) v x w :
  make_safety_decision cv s = (Ok v, s') ->
  In x (window_of s) ->
  data x !! "wind_speed_KPH" = Some (PyFloat w) ->
  (threshold_very_gusty (cfg s) < w)%Q ->
  Safe v = false.
Proof.
  intros Hd Hx Hw Hlt.
  destruct (decision_parts cv s s' v Hd)
    as (-> & ss & ws & gs & rs & _ & Hwind & _ & ->).
  replace gs with false; [destruct ss, ws; reflexivity|].
  revert Hwind. unfold wind_category, obind.
  destruct (traverse py_num _) as [wind_speed|e] eqn:Et; [|discriminate].
  destruct (length wind_speed =? 0)%nat; [intros [= _ _ <- _]; reflexivity|].
  destruct (traverse_In _ _ wind_speed (PyFloat w) Et) as (q & Hq & Hin).
  { eapply omap_In; [exact Hx|exact Hw]. }
  injection Hq as <-.
  destruct (py_min _) as [first|e]; [|discriminate].
  destruct (Qeq_bool _ 0); [discriminate|].
  destruct (movingaverage _ _) as [wind_mavg|e]; [|discriminate].
  destruct (py_max wind_mavg) as [mw|e]; [|discriminate].
  destruct (py_last wind_mavg) as [lw|e]; [|discriminate].
  destruct wind_speed as [|w0 wl]; [destruct Hin|]. cbn [py_max].
  pose proof (list_max_spec wl w0 _ Hin) as Hmax.
  destruct (getitem cv "wind_speed_KPH") as [cw|e]; [|discriminate].
  destruct (py_num cw) as [current_wind|e]; [|discriminate].
  intros [= _ _ <- _]. symmetry. apply negb_false_iff.
  apply Qlt_bool_true. eapply Qlt_le_trans; eassumption.
Qed.

Lemma gusty_sample_vetoes_witness :
  Safe {| Safe := false; Sky := "Clear"; Wind := "Calm"; Gust := "Calm";
          Rain := "Dry" |} = false.
Proof.
  apply (gusty_sample_vetoes fine_now (with_history [bad_before])
           (with_history [bad_before]) _ bad_before 60).
  - vm_compute. reflexivity.
  - left. reflexivity.
  - reflexivity.
  - vm_compute. reflexivity.
Defined.

(** X17: one stored sample of the window whose rain frequency is at or
    below [threshold_wet] or [threshold_rain] makes the verdict unsafe. *)
Theorem wet_sample_vetoes {D : Type} cv (s s' : sensor D) v x r :
  make_safety_decision cv s = (Ok v, s') ->
  In x (window_of s) ->
  data x !! "rain_frequency" = Some (PyFloat r) ->
  (r <= threshold_wet (cfg s))%Q \/ (r <= threshold_rain (cfg s))%Q ->
  Safe v = false.
Proof.
  intros Hd Hx Hr Hle.
  destruct (decision_parts cv s s' v Hd)
    as (-> & ss & ws & gs & rs & _ & _ & Hrain & ->).
  replace rs with false; [destruct ss, ws, gs; reflexivity|].
  revert Hrain. unfold rain_category, obind.
  destruct (length (rf_value (window_of s)) =? 0)%nat;
    [intros [= <- _]; reflexivity|].
  destruct (getitem cv "rain_frequency") as [c|e]; [|discriminate].
  destruct (py_num c) as [rain_frequency|e]; [|discriminate].
  destruct (Qle_bool rain_frequency _); [intros [= <- _]; reflexivity|].
  destruct (Qle_bool rain_frequency _); [intros [= <- _]; reflexivity|].
  destruct (traverse py_num _) as [values|e] eqn:Et; [|discriminate].
  destruct (traverse_In _ _ values (PyFloat r) Et) as (q & Hq & Hin).
  { unfold rf_value. eapply omap_In; [exact Hx|exact Hr]. }
  injection Hq as <-.
  destruct values as [|v0 vs]; [destruct Hin|]. cbn [py_min].
  destruct (SafetyFacts.list_min_spec vs v0) as [_ Hmin].
  specialize (Hmin _ Hin).
  destruct (Qle_bool (list_min v0 vs) (threshold_rain (cfg s))) eqn:E1;
    [intros [= <- _]; reflexivity|].
  destruct (Qle_bool (list_min v0 vs) (threshold_wet (cfg s))) eqn:E2;
    [intros [= <- _]; reflexivity|].
  apply Qle_bool_false in E1, E2. exfalso.
  destruct Hle as [Hl|Hl].
  - apply (Qlt_not_le _ _ E2). eapply Qle_trans; eassumption.
  - apply (Qlt_not_le _ _ E1). eapply Qle_trans; eassumption.
Qed.

Lemma wet_sample_vetoes_witness :
  Safe {| Safe := false; Sky := "Clear"; Wind := "Calm"; Gust := "Calm";
          Rain := "Dry" |} = false.
Proof.
  apply (wet_sample_vetoes fine_now (with_history [bad_before])
           (with_history [bad_before]) _ bad_before 1500).
  - vm_compute. reflexivity.
  - left. reflexivity.
  - reflexivity.
  - left. vm_compute. discriminate.
Defined.

End SafetyMore.

(** ** The moving average *)
Module AverageFacts.
Import Safety.

Lemma convolve_full_length a v :
  length (convolve_full a v) = (length a + length v - 1)%nat.
Proof. unfold convolve_full. rewrite length_map, length_seq. reflexivity. Qed.

(** X18: on an interval that is not empty and a window of at least one,
    [movingaverage] raises nothing and gives as many values as the longer
    of the interval and the window: more values than samples when the
    window is the longer. *)
Theorem movingaverage_length interval window_size :
  0 < window_size -> interval <> [] ->
  exists out,
    movingaverage interval window_size = Ok out
    /\ length out = Nat.max (length interval) (Z.to_nat window_size).
Proof.
  intros Hw Hi. unfold movingaverage.
  destruct (window_size <=? 0) eqn:E; [apply Z.leb_le in E; lia|].
  destruct interval as [|x l]; [congruence|].
  eexists. split; [reflexivity|].
  rewrite length_map. unfold convolve_same.
  rewrite length_firstn, length_skipn, convolve_full_length, repeat_length.
  cbn [length].
  assert (Hk : (1 <= Z.to_nat window_size)%nat) by lia.
  lia.
Qed.

Lemma movingaverage_length_witness :
  exists out,
    movingaverage [60%Q] 4 = Ok out
    /\ length out = Nat.max (length [60%Q]) (Z.to_nat 4).
Proof.
  apply (movingaverage_length [60%Q] 4); [lia|discriminate].
Defined.

End AverageFacts.

(** ** More on the heater *)
Module HeaterMore.
Import Protocol Aggregator Heater.

Section WithPort.
Context {D : Type} `{Transport D}.

Lemma heater_algorithm_range target e (s s' : sensor D) z :
  AAG_heater_algorithm target e s = (Ok z, s') ->
  s' = s /\ -20 <= z <= 0
  /\ PWM_request (clamp_percent (inject_Z z)) = "P0000!".
Proof.
  unfold AAG_heater_algorithm, bind, lift.
  destruct (getitem e "rain_sensor_temp_C") as [v|x]; [|discriminate].
  destruct (py_num v) as [t|x]; [|discriminate].
  unfold deltaPWM_of, ret, raise, Qgt_bool.
  destruct (Qlt_bool (t - target) (-0.3)) eqn:E;
    repeat match goal with
           | |- context [if ?c then _ else _] => destruct c eqn:?
           end;
    cbn beta iota;
    first [ discriminate
          | intros [= <- <-]; split; [reflexivity|];
            split; [split; vm_compute; discriminate|];
            vm_compute; reflexivity
          | exfalso;
            repeat match goal with
                   | H : Qlt_bool _ _ = true |- _ => apply Qlt_bool_true in H
                   | H : Qlt_bool _ _ = false |- _ => apply Qlt_bool_false in H
                   end; lra ].
Qed.

(** X19: the lookup table never asks for heat.  Whenever
    [AAG_heater_algorithm] returns, its value lies between -20 and 0, and
    the command that [set_PWM] makes of it is that of a duty cycle of
    zero. *)
Theorem heater_algorithm_never_heats target e (s s' : sensor D) z :
  AAG_heater_algorithm target e s = (Ok z, s') ->
  s' = s /\ -20 <= z <= 0
  /\ PWM_request (clamp_percent (inject_Z z)) = "P0000!".
Proof. apply heater_algorithm_range. Qed.

Lemma heater_algorithm_state target e (s : sensor D) :
  snd (AAG_heater_algorithm target e s) = s.
Proof.
  unfold AAG_heater_algorithm, bind, lift.
  destruct (getitem e "rain_sensor_temp_C") as [v|x]; [|reflexivity].
  destruct (py_num v) as [t|x]; [|reflexivity].
  destruct (deltaPWM_of _); reflexivity.
Qed.

Lemma impulse_decision_trace now h (s : sensor D) :
  trace (snd (impulse_decision now h s)) = trace s.
Proof.
  unfold impulse_decision, bind, gets, modify, raise, heater_item.
  destruct (persistent_rain h); [|reflexivity].
  destruct (default false (impulse_heating s)); [|reflexivity].
  destruct (impulse_start s); [|reflexivity].
  destruct (getitem (heater_cfg s) "impulse_duration"); [|reflexivity].
  destruct (Qgt_bool _ _); reflexivity.
Qed.

Lemma only_sent_same_trace request (s s' : sensor D) :
  trace s' = trace s -> only_sent request s s'.
Proof. intros Ht. exists []. split; [exact Ht|constructor]. Qed.

Lemma rain_history_without_flags (entries : list entry) :
  Forall (fun x => data x !! "rain_safe" = None) entries ->
  rain_history_of entries = [].
Proof.
  unfold rain_history_of. induction 1 as [|x l Hx _ IH]; [reflexivity|].
  cbn. rewrite Hx. exact IH.
Qed.

Lemma find_between_Forall (P : entry -> Prop) start stop docs :
  Forall P docs -> Forall P (find_between start stop docs).
Proof.
  unfold find_between. rewrite !List.Forall_forall. intros Hp x Hx.
  apply filter_In in Hx as [Hx _]. apply Hp. exact Hx.
Qed.

(** X20: as long as no stored sample has a field "rain_safe", the heater
    never goes into impulse mode: a cycle that starts in proportional mode
    ends in it. *)
Theorem no_rain_safe_no_impulse recalculate (s : sensor D) :
  Forall (fun x => data x !! "rain_safe" = None) (db_weather s) ->
  mode_of s = Proportional ->
  mode_of (snd (calculate_and_set_PWM recalculate s)) = Proportional.
Proof.
  intros Hno Hmode.
  destruct (heater_cfg s !! "impulse_cycle") as [cyc|] eqn:Hcyc.
  2: { replace (snd (calculate_and_set_PWM recalculate s)) with s;
       [exact Hmode|].
       unfold calculate_and_set_PWM, bind, gets, heater_item, getitem.
       rewrite Hcyc. reflexivity. }
  destruct (current_of "weather" s) as [|last_entry rest] eqn:Hcur.
  { replace (snd (calculate_and_set_PWM recalculate s)) with s;
      [exact Hmode|].
    unfold calculate_and_set_PWM, bind, gets, heater_item, getitem, lift.
    rewrite Hcyc, Hcur. reflexivity. }
  pose proof (HeaterFacts.calculate_and_set_PWM_mode recalculate s
                last_entry rest cyc Hcyc Hcur) as Hm.
  cbv zeta in Hm.
  rewrite rain_history_without_flags in Hm
    by (apply find_between_Forall; exact Hno).
  destruct (has_key last_entry "ambient_temp_C"
            && has_key last_entry "rain_sensor_temp_C").
  - destruct Hm as [Hh _]. unfold mode_of. rewrite Hh. reflexivity.
  - rewrite Hm. exact Hmode.
Qed.

(** X21: a cycle that ends in impulse mode has set the heater, if at
    all, to full power or to none: whatever goes to the port is the command
    of a duty cycle of 100 or of 0. *)
Theorem impulse_full_or_off recalculate (s : sensor D) :
  let s' := snd (calculate_and_set_PWM recalculate s) in
  mode_of s' = Impulse ->
  only_sent "P1023!" s s' \/ only_sent "P0000!" s s'.
Proof.
  cbv zeta. intros Hmode.
  destruct (heater_cfg s !! "impulse_cycle") as [cyc|] eqn:Hcyc.
  2: { left. apply only_sent_same_trace. f_equal.
       unfold calculate_and_set_PWM, bind, gets, heater_item, getitem.
       rewrite Hcyc. reflexivity. }
  destruct (current_of "weather" s) as [|last_entry rest] eqn:Hcur.
  { left. apply only_sent_same_trace. f_equal.
    unfold calculate_and_set_PWM, bind, gets, heater_item, getitem, lift.
    rewrite Hcyc, Hcur. reflexivity. }
  pose proof (HeaterFacts.calculate_and_set_PWM_mode recalculate s
                last_entry rest cyc Hcyc Hcur) as Hm.
  cbv zeta in Hm.
  set (h := rain_history_of
              (find_between (clock s - inject_Z (py_int cyc)) (clock s)
                 (db_weather s))) in *.
  unfold has_key in Hm.
  destruct (last_entry !! "ambient_temp_C") as [ambient|] eqn:Ea;
    [|cbn [andb] in Hm; rewrite Hm; left; apply ProtocolMore.only_sent_refl].
  destruct (last_entry !! "rain_sensor_temp_C") as [rain_temp|] eqn:Er;
    [|cbn [andb] in Hm; rewrite Hm; left; apply ProtocolMore.only_sent_refl].
  cbn [andb] in Hm.
  assert (Hpre : forall k : gmap string pyval -> Q -> list entry -> M D unit,
             (now <- gets clock ;;
              cycle <- heater_item "impulse_cycle" ;;
              entries <- gets (fun s => find_between
                                          (now - inject_Z (py_int cycle))%Q now
                                          (db_weather s)) ;;
              found <- gets (current_of "weather") ;;
              last_entry <- lift (match found with
                                  | x :: _ => Ok x
                                  | [] => Raise IndexError
                                  end) ;;
              k last_entry now entries) s
             = k last_entry (clock s)
                 (find_between (clock s - inject_Z (py_int cyc)) (clock s)
                    (db_weather s)) s).
  { intros k. unfold bind, gets, heater_item, getitem, lift.
    rewrite Hcyc, Hcur. reflexivity. }
  pose proof (impulse_decision_trace (clock s) h s) as Ht.
  destruct (impulse_decision (clock s) h s) as [o s1] eqn:Ed.
  cbn [snd] in Hm, Ht.
  assert (Hs1 : forall request, only_sent request s s1)
    by (intros request; apply only_sent_same_trace; exact Ht).
  destruct (default false (impulse_heating s1)) eqn:Eh.
  2: { exfalso. destruct Hm as [Hh _]. unfold mode_of in Hmode.
       rewrite Hh, Eh in Hmode. discriminate Hmode. }
  clear Hmode Hm.
  set (P := fun s' : sensor D =>
              only_sent "P1023!" s s' \/ only_sent "P0000!" s s').
  change (P (snd (calculate_and_set_PWM recalculate s))).
  assert (HP : P s1) by (left; apply Hs1).
  unfold calculate_and_set_PWM.
  rewrite (Hpre (fun last_entry now entries => _)), Ea, Er.
  unfold bind at 1. fold h. rewrite Ed.
  destruct o as [[]|e]; [|exact HP].
  unfold bind at 1, gets at 1. cbn beta iota. rewrite Eh.
  unfold bind at 1, lift at 1.
  destruct (float_of ambient) as [a|e]; [|exact HP].
  unfold bind at 1, heater_item at 1.
  destruct (getitem (heater_cfg s1) "impulse_temp") as [it|e]; [|exact HP].
  unfold bind at 1, lift at 1.
  destruct (py_num rain_temp) as [r|e]; [|exact HP].
  destruct (Qlt_bool r (a + it)).
  - left. eapply ProtocolMore.only_sent_trans; [apply Hs1|].
    apply (PWMFacts.set_PWM_frame 100 15 s1).
  - unfold bind at 1.
    pose proof (heater_algorithm_state (a + it) last_entry s1) as Hst.
    destruct (AAG_heater_algorithm (a + it) last_entry s1) as [[z|e] s2]
      eqn:Ealg; cbn [snd] in Hst; subst s2; [|exact HP].
    right. eapply ProtocolMore.only_sent_trans; [apply Hs1|].
    destruct (heater_algorithm_range _ _ _ _ _ Ealg) as (_ & _ & Hreq).
    rewrite <- Hreq.
    apply (PWMFacts.set_PWM_frame (inject_Z z) 15 s1).
Qed.

End WithPort.

Lemma heater_algorithm_never_heats_witness :
  play [] = play [] /\ -20 <= -10 <= 0
  /\ PWM_request (clamp_percent (inject_Z (-10))) = "P0000!".
Proof.
  apply (heater_algorithm_never_heats 10
           {[ "rain_sensor_temp_C" := PyFloat 15 ]} (play []) (play []) (-10)).
  vm_compute. reflexivity.
Defined.

Lemma no_rain_safe_no_impulse_witness :
  mode_of (snd (calculate_and_set_PWM pid_fifty dry_cycle)) = Proportional.
Proof.
  apply (no_rain_safe_no_impulse pid_fifty dry_cycle).
  - repeat constructor.
  - reflexivity.
Defined.

Lemma impulse_full_or_off_witness :
  only_sent "P1023!" impulse_cycle
    (snd (calculate_and_set_PWM pid_fifty impulse_cycle))
  \/ only_sent "P0000!" impulse_cycle
       (snd (calculate_and_set_PWM pid_fifty impulse_cycle)).
Proof.
  apply (impulse_full_or_off pid_fifty impulse_cycle).
  vm_compute. reflexivity.
Defined.

End HeaterMore.

(** ** Conversions that no [try] guards *)
Module UnguardedFacts.
Import Protocol Aggregator.

Section WithPort.
Context {D : Type} `{Transport D}.

(** X22: [get_wind_speed] has no [try] around its conversion.  With the
    anemometer enabled, a reply whose field is not a number (the reply
    pattern lets a lone "-" or "." through) raises [ValueError] out of the
    getter, where the other getters count a failed attempt. *)
Theorem get_wind_speed_raises n (s s1 s2 : sensor D) x rest :
  0 < n ->
  wind_speed_enabled s = (Ok (Some true), s1) ->
  query "V!" 5 s1 = (Ok (Some (x :: rest)), s2) ->
  py_float x = None ->
  get_wind_speed n s = (Raise ValueError, s2).
Proof.
  intros Hn He Hq Hx. unfold get_wind_speed, bind at 1. rewrite He.
  cbn [default from_option id]. cbn beta iota.
  destruct (Z.to_nat n) as [|k] eqn:Ek; [lia|].
  cbn [wind_loop]. unfold bind. rewrite Hq. cbn [truthy item0].
  unfold ret, float_. rewrite Hx. reflexivity.
Qed.

(** X23: neither has [get_errors].  A counter that is not an integer
    (the reply pattern lets "1.5" through) raises [ValueError]. *)
Theorem get_errors_raises (s s1 : sensor D) x rest :
  query "!D" 5 s = (Ok (Some (x :: rest)), s1) ->
  py_int_of_text x = None ->
  get_errors s = (Raise ValueError, s1).
Proof.
  intros Hq Hx. unfold get_errors, bind at 1. rewrite Hq.
  cbn [truthy default from_option id nth_error]. cbn beta iota.
  unfold bind. cbn [nth_error]. rewrite Hx. reflexivity.
Qed.

End WithPort.

Lemma get_wind_speed_raises_witness :
  get_wind_speed 3 (play wind_minus)
  = (Raise ValueError, snd (get_wind_speed 3 (play wind_minus))).
Proof.
  apply (get_wind_speed_raises 3 (play wind_minus)
           (snd (wind_speed_enabled (play wind_minus))) _ "-" []).
  - lia.
  - vm_compute. reflexivity.
  - vm_compute. reflexivity.
  - reflexivity.
Defined.

Lemma get_errors_raises_witness :
  get_errors (play errors_point)
  = (Raise ValueError, snd (get_errors (play errors_point))).
Proof.
  apply (get_errors_raises (play errors_point) _ "1.5" ["0"; "0"; "0"]).
  - vm_compute. reflexivity.
  - reflexivity.
Defined.

End UnguardedFacts.

(** ** What a cycle leaves alone *)
Module FrameFacts.
Import Protocol Aggregator Heater Safety Cycle.

Section WithPort.
Context {D : Type} `{Transport D}.
Variable R : sensor D -> sensor D -> Prop.
Hypothesis HR : frame R.

Lemma keeps_ret {A} (a : A) : keeps R (ret a).
Proof. intros s. apply (frame_refl R HR). Qed.

Lemma keeps_raise {A} e : keeps R (@raise D A e).
Proof. intros s. apply (frame_refl R HR). Qed.

Lemma keeps_gets {A} (f : sensor D -> A) : keeps R (gets f).
Proof. intros s. apply (frame_refl R HR). Qed.

Lemma keeps_lift {A} (o : outcome A) : keeps R (lift o).
Proof. intros s. apply (frame_refl R HR). Qed.

Lemma keeps_bind {A B} (m : M D A) (k : A -> M D B) :
  keeps R m -> (forall a, keeps R (k a)) -> keeps R (bind m k).
Proof.
  intros Hm Hk s. unfold bind. specialize (Hm s).
  destruct (m s) as [[a|e] s1]; cbn [snd] in Hm; [|exact Hm].
  eapply (frame_trans R HR); [exact Hm|apply Hk].
Qed.

Lemma keeps_try {A} (body handler : M D A) :
  keeps R body -> keeps R handler -> keeps R (try_except body handler).
Proof.
  intros Hb Hh s. unfold try_except. specialize (Hb s).
  destruct (body s) as [[a|e] s1]; cbn [snd] in Hb; [exact Hb|].
  eapply (frame_trans R HR); [exact Hb|apply Hh].
Qed.

Lemma keeps_modify (f : sensor D -> sensor D) :
  (forall s, R s (f s)) -> keeps R (modify f).
Proof. intros Hf s. apply Hf. Qed.

Lemma keeps_read_all : keeps R read_all.
Proof.
  intros s. unfold read_all. destruct (port_read (AAG s)) as [txt d].
  apply (frame_AAG R HR).
Qed.

Lemma keeps_write bytes : keeps R (write bytes).
Proof.
  apply keeps_modify. intros s.
  eapply (frame_trans R HR); [apply (frame_AAG R HR)|apply (frame_event R HR)].
Qed.

Lemma keeps_sleep seconds : keeps R (sleep seconds).
Proof.
  apply keeps_modify. intros s.
  eapply (frame_trans R HR); [apply (frame_AAG R HR)|].
  eapply (frame_trans R HR); [apply (frame_clock R HR)|].
  apply (frame_event R HR).
Qed.

Lemma keeps_heater_item key : keeps R (heater_item key).
Proof. intros s. apply (frame_refl R HR). Qed.

Lemma keeps_item0 result : keeps R (item0 result).
Proof. intros s. destruct result as [[|x l]|]; apply (frame_refl R HR). Qed.

Lemma keeps_float_ text : keeps R (float_ text).
Proof.
  intros s. unfold float_. destruct (py_float text); apply (frame_refl R HR).
Qed.

Lemma keeps_fdiv a b : keeps R (fdiv a b).
Proof.
  intros s. unfold fdiv. destruct (Qeq_bool b 0); apply (frame_refl R HR).
Qed.

Lemma keeps_field responses i : keeps R (field responses i).
Proof.
  intros s. unfold field. destruct responses as [l|];
    [destruct (nth_error l i)|]; apply (frame_refl R HR).
Qed.

Ltac keeps_step :=
  first [ apply keeps_ret | apply keeps_raise | apply keeps_gets
        | apply keeps_lift | apply keeps_read_all | apply keeps_write
        | apply keeps_sleep | apply keeps_heater_item | apply keeps_item0
        | apply keeps_float_ | apply keeps_fdiv | apply keeps_field
        | assumption
        | apply keeps_bind; [|intros ?]
        | apply keeps_try
        | match goal with
          | |- keeps _ (match ?x with _ => _ end) => destruct x
          | |- keeps _ (if ?c then _ else _) => destruct c
          end ].

Lemma keeps_send request delay : keeps R (send request delay).
Proof. unfold send. repeat keeps_step. Qed.

Lemma keeps_query_loop fuel request delay expect maxtries :
  forall count result,
    keeps R (query_loop fuel request delay expect maxtries count result).
Proof.
  induction fuel as [|fuel IH]; intros count result; cbn [query_loop].
  - repeat keeps_step.
  - destruct (negb (truthy result) && (count <=? maxtries));
      [|apply keeps_ret].
    apply keeps_bind; [apply keeps_send|intros r].
    destruct r as [text|]; [|apply keeps_raise].
    destruct (Re.re_match expect text); [apply IH|].
    apply keeps_bind; [apply keeps_sleep|intros _; apply IH].
Qed.

Lemma keeps_query request maxtries : keeps R (query request maxtries).
Proof.
  unfold query. destruct (find_command request); [|apply keeps_ret].
  destruct (expects !! _); [apply keeps_query_loop|apply keeps_raise].
Qed.

Lemma keeps_collect n (attempt : M D Q) :
  keeps R attempt -> forall values, keeps R (collect n attempt values).
Proof.
  intros Ha. induction n as [|n IH]; intros values; cbn [collect].
  - apply keeps_ret.
  - apply keeps_bind; [|intros r; apply IH].
    apply keeps_try; [|apply keeps_ret].
    apply keeps_bind; [exact Ha|intros v; apply keeps_ret].
Qed.

Ltac keeps_more :=
  first [ apply keeps_query | apply keeps_collect | keeps_step ].

Lemma keeps_get_ambient_temperature n : keeps R (get_ambient_temperature n).
Proof. unfold get_ambient_temperature. repeat keeps_more. Qed.

Lemma keeps_get_sky_temperature n : keeps R (get_sky_temperature n).
Proof. unfold get_sky_temperature. repeat keeps_more. Qed.

Lemma keeps_get_rain_frequency n : keeps R (get_rain_frequency n).
Proof. unfold get_rain_frequency. repeat keeps_more. Qed.

Lemma keeps_get_PWM : keeps R get_PWM.
Proof.
  unfold get_PWM. repeat keeps_more.
  apply keeps_modify. apply (frame_PWM R HR).
Qed.

Lemma keeps_get_errors : keeps R get_errors.
Proof. unfold get_errors. repeat keeps_more. Qed.

Lemma keeps_wind_speed_enabled : keeps R wind_speed_enabled.
Proof. unfold wind_speed_enabled. repeat keeps_more. Qed.

Lemma keeps_wind_loop n : forall values, keeps R (wind_loop n values).
Proof.
  induction n as [|n IH]; intros values; cbn [wind_loop].
  - apply keeps_ret.
  - apply keeps_bind; [apply keeps_query|intros result].
    destruct (truthy result); [|apply IH].
    repeat (apply keeps_bind; [keeps_step|intros ?]). apply IH.
Qed.

Lemma keeps_get_wind_speed n : keeps R (get_wind_speed n).
Proof.
  unfold get_wind_speed.
  apply keeps_bind; [apply keeps_wind_speed_enabled|intros enabled].
  destruct (default false enabled); [|apply keeps_ret].
  apply keeps_bind; [apply keeps_wind_loop|intros values; apply keeps_ret].
Qed.

Lemma keeps_values_turn np_log acc : keeps R (values_turn np_log acc).
Proof.
  destruct acc as [[ivs ldrs] rsts]. unfold values_turn.
  apply keeps_bind; [apply keeps_query|intros responses].
  intros s1.
  match goal with
  | |- context [match ?m s1 with _ => _ end] =>
      assert (H1 : keeps R m) by (repeat keeps_more);
      specialize (H1 s1); destruct (m s1) as [[v0|e0] s2]
  end; cbn [snd] in H1 |- *; [|exact H1].
  match goal with
  | |- context [match ?m s2 with _ => _ end] =>
      assert (H2 : keeps R m) by (repeat keeps_more);
      specialize (H2 s2); destruct (m s2) as [[v1|e1] s3]
  end; cbn [snd] in H2 |- *;
    [|eapply (frame_trans R HR); eassumption].
  match goal with
  | |- context [match ?m s3 with _ => _ end] =>
      assert (H3 : keeps R m) by (repeat keeps_more);
      specialize (H3 s3); destruct (m s3) as [[v2|e2] s4]
  end; cbn [snd] in H3 |- *;
    (eapply (frame_trans R HR); [exact H1|]);
    eapply (frame_trans R HR); eassumption.
Qed.

Lemma keeps_values_loop np_log n :
  forall acc, keeps R (values_loop np_log n acc).
Proof.
  induction n as [|n IH]; intros acc; cbn [values_loop].
  - apply keeps_ret.
  - apply keeps_bind; [apply keeps_values_turn|intros acc'; apply IH].
Qed.

Lemma keeps_get_values np_log n : keeps R (get_values np_log n).
Proof.
  unfold get_values.
  apply keeps_bind; [apply keeps_values_loop|intros [[ivs ldrs] rsts]].
  apply keeps_ret.
Qed.

Lemma keeps_set_PWM_loop fuel percent ntries :
  forall count success,
    keeps R (set_PWM_loop fuel percent ntries count success).
Proof.
  induction fuel as [|fuel IH]; intros count success; cbn [set_PWM_loop].
  - repeat keeps_step.
  - destruct (negb success && (count <=? ntries)); [|apply keeps_ret].
    apply keeps_bind; [apply keeps_query|intros result].
    destruct (truthy result); [|apply IH].
    apply keeps_bind; [apply keeps_item0|intros x].
    apply keeps_bind; [apply keeps_float_|intros v].
    apply keeps_bind;
      [apply keeps_modify; apply (frame_PWM R HR)|intros _].
    match goal with
    | |- context [if ?c then _ else _] => destruct c
    end; [|apply IH].
    apply keeps_bind; [apply keeps_sleep|intros _; apply IH].
Qed.

Lemma keeps_set_PWM percent ntries : keeps R (set_PWM percent ntries).
Proof. unfold set_PWM. apply keeps_set_PWM_loop. Qed.

Lemma keeps_make_safety_decision cv :
  keeps R (make_safety_decision (D := D) cv).
Proof.
  intros s. unfold make_safety_decision, bind, gets, lift, ret.
  cbn beta iota zeta.
  destruct (sky_category _ _ _) as [[sky_safe cloud]|e];
    [|apply (frame_refl R HR)].
  destruct (wind_category _ _ _ _) as [[[wind_safe wc] [gust_safe gc]]|e];
    [|apply (frame_refl R HR)].
  destruct (rain_category _ _ _) as [[rain_safe rc]|e];
    apply (frame_refl R HR).
Qed.

Lemma keeps_impulse_decision now rain_history :
  keeps R (impulse_decision now rain_history).
Proof.
  unfold impulse_decision.
  destruct (persistent_rain rain_history);
    [|apply keeps_modify; apply (frame_impulse R HR)].
  apply keeps_bind; [apply keeps_gets|intros heating].
  destruct (default false heating);
    [|apply keeps_modify; apply (frame_impulse R HR)].
  apply keeps_bind; [apply keeps_gets|intros start].
  destruct start as [t0|]; [|apply keeps_raise].
  apply keeps_bind; [apply keeps_heater_item|intros duration].
  destruct (Qgt_bool _ _);
    [apply keeps_modify; apply (frame_impulse R HR)|apply keeps_ret].
Qed.

Lemma keeps_AAG_heater_algorithm target e :
  keeps R (AAG_heater_algorithm target e).
Proof. unfold AAG_heater_algorithm. repeat keeps_step. Qed.

Lemma keeps_calculate_and_set_PWM recalculate :
  keeps R (calculate_and_set_PWM recalculate).
Proof.
  unfold calculate_and_set_PWM.
  repeat (apply keeps_bind; [keeps_step|intros ?]).
  destruct (_ !! "ambient_temp_C") as [ambient|]; [|apply keeps_ret].
  destruct (_ !! "rain_sensor_temp_C") as [rain_temp|]; [|apply keeps_ret].
  apply keeps_bind; [apply keeps_impulse_decision|intros _].
  apply keeps_bind; [apply keeps_gets|intros heating].
  destruct (default false heating).
  - repeat (apply keeps_bind; [keeps_step|intros ?]).
    match goal with
    | |- context [if ?c then _ else _] => destruct c
    end; [apply keeps_set_PWM|].
    apply keeps_bind; [apply keeps_AAG_heater_algorithm|intros ?].
    apply keeps_set_PWM.
  - apply keeps_bind; [apply keeps_heater_item|intros low_temp].
    apply keeps_bind; [apply keeps_lift|intros amb].
    apply keeps_bind.
    { destruct (Qlt_bool amb low_temp); [apply keeps_heater_item|].
      apply keeps_bind; [apply keeps_heater_item|intros high_temp].
      destruct (Qgt_bool amb high_temp); [apply keeps_heater_item|].
      repeat keeps_step. }
    intros deltaT.
    apply keeps_bind; [apply keeps_lift|intros actual].
    apply keeps_bind; [|intros out; apply keeps_set_PWM].
    intros s. destruct (recalculate _ _ _ _) as [o c]. cbn [snd].
    apply (frame_PID R HR).
Qed.

End WithPort.
End FrameFacts.

(** ** More on the measurement cycle *)
Module CycleMore.
Import Protocol Aggregator Heater Safety Cycle.

Lemma same_store_frame {D : Type} : frame (same_store (D := D)).
Proof.
  split; try (intros; repeat split; reflexivity).
  intros s1 s2 s3 (A1 & A2 & A3 & A4) (B1 & B2 & B3 & B4).
  repeat split; congruence.
Qed.

Lemma lookup_put_if_ne c key k v (d : gmap string pyval) :
  k <> key -> put_if c k v d !! key = d !! key.
Proof.
  intros Hne. unfold put_if. destruct c; [|reflexivity].
  apply lookup_insert_ne. exact Hne.
Qed.

Ltac in_keys := cbn; repeat first [ left; reflexivity | right ].

Section WithPort.
Context {D : Type} `{Transport D}.
Variable np_log : Q -> Q.
Variable recalculate : pid -> Q -> Q -> Q -> Q * pid.
Variable quantity_bool : Q -> bool.

(** X24: a sample that [capture] returns always has the three
    identification fields and the five fields of the verdict, and never a
    field besides the seventeen of [sample_keys]; in particular it has no
    field "rain_safe", the one that [calculate_and_set_PWM] looks for in
    the stored samples. *)
Theorem capture_sample_keys upd (s s' : sensor D) sample :
  capture np_log recalculate quantity_bool upd s = (Ok sample, s') ->
  (forall key, is_Some (sample !! key) -> In key sample_keys)
  /\ sample !! "rain_safe" = None
  /\ Forall (fun key => is_Some (sample !! key))
       [ "weather_sensor_name"; "weather_sensor_firmware_version";
         "weather_sensor_serial_number"; "safe"; "sky_condition";
         "wind_condition"; "gust_condition"; "rain_condition" ].
Proof.
  unfold capture. intros Hc.
  repeat (apply bind_ok in Hc as (? & ? & _ & Hc)).
  match goal with
  | v : (option Q * option Q * option Q)%type |- _ =>
      destruct v as [[iv ldr] rst]
  end.
  repeat (apply bind_ok in Hc as (? & ? & _ & Hc)).
  injection Hc as Hs _.
  assert (Hkeys : forall key, is_Some (sample !! key) -> In key sample_keys).
  { intros key [v Hv]. subst sample.
    repeat match type of Hv with
           | <[?k := _]> _ !! key = _ =>
               destruct (decide (k = key)) as [<-|Hne];
               [in_keys|rewrite lookup_insert_ne in Hv by exact Hne; clear Hne]
           | put_if ?c ?k _ _ !! key = _ =>
               destruct (decide (k = key)) as [<-|Hne];
               [in_keys|rewrite lookup_put_if_ne in Hv by exact Hne; clear Hne]
           end.
    rewrite lookup_empty in Hv. discriminate Hv. }
  split; [exact Hkeys|]. split.
  - destruct (sample !! "rain_safe") as [v|] eqn:E; [|reflexivity].
    exfalso. specialize (Hkeys "rain_safe" (ex_intro _ v E)).
    cbn in Hkeys. repeat destruct Hkeys as [Hkeys|Hkeys]; try discriminate.
    exact Hkeys.
  - subst sample.
    repeat (constructor;
            [repeat first [ rewrite lookup_insert_ne by discriminate
                          | rewrite lookup_put_if_ne by discriminate ];
             rewrite lookup_insert_eq; eauto|]).
    constructor.
Qed.

(** X25: a rain frequency or a duty cycle that reads zero is left out of
    the sample, as a reading that failed is: where a sample has one of the
    two fields, its value is a number other than zero. *)
Theorem capture_drops_zero upd (s s' : sensor D) sample key v :
  capture np_log recalculate quantity_bool upd s = (Ok sample, s') ->
  key = "rain_frequency" \/ key = "pwm_value" ->
  sample !! key = Some v ->
  exists q, v = PyFloat q /\ ~ (q == 0)%Q.
Proof.
  unfold capture. intros Hc Hkey Hv.
  repeat (apply bind_ok in Hc as (? & ? & _ & Hc)).
  match goal with
  | v : (option Q * option Q * option Q)%type |- _ =>
      destruct v as [[iv ldr] rst]
  end.
  repeat (apply bind_ok in Hc as (? & ? & _ & Hc)).
  injection Hc as Hs _. subst sample.
  assert (Hz : forall (x : option Q) w,
             float_true x = true -> Some (PyFloat (value_of x)) = Some w ->
             exists q, w = PyFloat q /\ ~ (q == 0)%Q).
  { intros [q|] w Hx [= <-]; [|discriminate Hx].
    exists q. split; [reflexivity|]. cbn in Hx.
    apply negb_true_iff in Hx. intros Hq. apply Qeq_bool_iff in Hq.
    congruence. }
  destruct Hkey as [->| ->];
    repeat first [ rewrite lookup_insert_ne in Hv by discriminate
                 | rewrite lookup_put_if_ne in Hv by discriminate ];
    unfold put_if at 1 in Hv;
    match type of Hv with
    | (if float_true ?x then _ else _) !! _ = _ =>
        destruct (float_true x) eqn:Ex;
        [rewrite lookup_insert_eq in Hv; exact (Hz x v Ex Hv)|]
    end;
    repeat first [ rewrite lookup_insert_ne in Hv by discriminate
                 | rewrite lookup_put_if_ne in Hv by discriminate ];
    rewrite lookup_empty in Hv; discriminate Hv.
Qed.

Lemma keeps_capture (R : sensor D -> sensor D -> Prop) (HR : frame R) :
  keeps R (capture np_log recalculate quantity_bool false).
Proof.
  unfold capture.
  apply (FrameFacts.keeps_bind R HR (gets name));
    [apply FrameFacts.keeps_gets; exact HR|intros n].
  apply (FrameFacts.keeps_bind R HR (gets firmware_version));
    [apply FrameFacts.keeps_gets; exact HR|intros fw].
  apply (FrameFacts.keeps_bind R HR (gets serial_number));
    [apply FrameFacts.keeps_gets; exact HR|intros sn].
  cbv zeta.
  apply (FrameFacts.keeps_bind R HR (get_sky_temperature 9));
    [apply FrameFacts.keeps_get_sky_temperature; exact HR|intros sky_temp].
  apply (FrameFacts.keeps_bind R HR (get_ambient_temperature 5));
    [apply FrameFacts.keeps_get_ambient_temperature; exact HR
    |intros ambient_temp].
  apply (FrameFacts.keeps_bind R HR (get_values np_log 5));
    [apply FrameFacts.keeps_get_values; exact HR|intros [[iv ldr] rst]].
  apply (FrameFacts.keeps_bind R HR (get_rain_frequency 5));
    [apply FrameFacts.keeps_get_rain_frequency; exact HR
    |intros rain_frequency].
  apply (FrameFacts.keeps_bind R HR get_PWM);
    [apply FrameFacts.keeps_get_PWM; exact HR|intros pwm].
  apply (FrameFacts.keeps_bind R HR get_errors);
    [apply FrameFacts.keeps_get_errors; exact HR|intros errors].
  apply (FrameFacts.keeps_bind R HR (get_wind_speed 3));
    [apply FrameFacts.keeps_get_wind_speed; exact HR|intros wind_speed].
  apply FrameFacts.keeps_bind;
    [exact HR|apply FrameFacts.keeps_make_safety_decision; exact HR
    |intros safe_dict].
  apply FrameFacts.keeps_bind;
    [exact HR|apply FrameFacts.keeps_calculate_and_set_PWM; exact HR
    |intros _].
  apply FrameFacts.keeps_bind;
    [exact HR|apply FrameFacts.keeps_ret; exact HR|intros _].
  apply FrameFacts.keeps_ret. exact HR.
Qed.

(** X26: without [update_mongo], [capture] leaves the store and the
    configuration as they were, whatever the device sends and whether or
    not the cycle raises. *)
Theorem capture_without_update_keeps_store (s : sensor D) :
  same_store s (snd (capture np_log recalculate quantity_bool false s)).
Proof. apply (keeps_capture same_store same_store_frame). Qed.

Lemma calculate_needs_current (s : sensor D) :
  current_of "weather" s = [] ->
  exists e, calculate_and_set_PWM recalculate s = (Raise e, s).
Proof.
  intros Hcur.
  unfold calculate_and_set_PWM, bind, gets, heater_item, getitem, lift.
  destruct (heater_cfg s !! "impulse_cycle"); [|eauto].
  rewrite Hcur. eauto.
Qed.

Lemma bind_dies {A B} (m : M D A) (k : A -> M D B) (s0 s : sensor D) :
  same_store s0 s ->
  keeps same_store m ->
  (forall a s1, same_store s0 s1 ->
     exists e s', k a s1 = (Raise e, s') /\ same_store s0 s') ->
  exists e s', bind m k s = (Raise e, s') /\ same_store s0 s'.
Proof.
  intros H0 Hm Hk. unfold bind. specialize (Hm s).
  destruct (m s) as [[a|e] s1]; cbn [snd] in Hm.
  - apply Hk. eapply (frame_trans _ same_store_frame); eassumption.
  - exists e, s1. split; [reflexivity|].
    eapply (frame_trans _ same_store_frame); eassumption.
Qed.

(** X27: with no current weather document in the store, [capture] never
    returns a sample, with or without [update_mongo]: the heater step,
    which comes before the sample is stored, raises on the missing
    document.  The store is left as it was, so the next cycle fares the
    same. *)
Theorem capture_needs_current_document upd (s : sensor D) :
  current_of "weather" s = [] ->
  exists e s',
    capture np_log recalculate quantity_bool upd s = (Raise e, s')
    /\ same_store s s'.
Proof.
  intros Hcur. unfold capture.
  assert (H0 : same_store s s) by apply (frame_refl _ same_store_frame).
  assert (Hdone : forall (k : unit -> M D (gmap string pyval)) s1,
             same_store s s1 ->
             exists e s',
               bind (calculate_and_set_PWM recalculate) k s1 = (Raise e, s')
               /\ same_store s s').
  { intros k s1 Hs1. destruct (calculate_needs_current s1) as [e He].
    { unfold current_of in *. destruct Hs1 as (_ & Hc & _). rewrite Hc.
      exact Hcur. }
    exists e, s1. unfold bind. rewrite He. split; [reflexivity|exact Hs1]. }
  assert (HF : frame (same_store (D := D))) by apply same_store_frame.
  apply (bind_dies (gets name) _ s s H0);
    [apply FrameFacts.keeps_gets; exact HF|intros n s1 H1].
  apply (bind_dies (gets firmware_version) _ s s1 H1);
    [apply FrameFacts.keeps_gets; exact HF|intros fw s2 H2].
  apply (bind_dies (gets serial_number) _ s s2 H2);
    [apply FrameFacts.keeps_gets; exact HF|intros sn s3 H3].
  cbv zeta.
  apply (bind_dies (get_sky_temperature 9) _ s s3 H3);
    [apply FrameFacts.keeps_get_sky_temperature; exact HF
    |intros sky_temp s4 H4].
  apply (bind_dies (get_ambient_temperature 5) _ s s4 H4);
    [apply FrameFacts.keeps_get_ambient_temperature; exact HF
    |intros ambient_temp s5 H5].
  apply (bind_dies (get_values np_log 5) _ s s5 H5);
    [apply FrameFacts.keeps_get_values; exact HF
    |intros [[iv ldr] rst] s6 H6].
  apply (bind_dies (get_rain_frequency 5) _ s s6 H6);
    [apply FrameFacts.keeps_get_rain_frequency; exact HF
    |intros rain_frequency s7 H7].
  apply (bind_dies get_PWM _ s s7 H7);
    [apply FrameFacts.keeps_get_PWM; exact HF|intros pwm s8 H8].
  apply (bind_dies get_errors _ s s8 H8);
    [apply FrameFacts.keeps_get_errors; exact HF|intros errors s9 H9].
  apply (bind_dies (get_wind_speed 3) _ s s9 H9);
    [apply FrameFacts.keeps_get_wind_speed; exact HF
    |intros wind_speed s10 H10].
  apply (bind_dies (make_safety_decision _) _ s s10 H10);
    [apply FrameFacts.keeps_make_safety_decision; exact HF
    |intros safe_dict s11 H11].
  apply Hdone. assumption.
Qed.

End WithPort.

Lemma capture_drops_zero_witness :
  exists q, PyFloat 2100 = PyFloat q /\ ~ (q == 0)%Q.
Proof.
  apply (capture_drops_zero log_zero pid_fifty always_true true first_cycle
           (snd (capture log_zero pid_fifty always_true true first_cycle))
           first_sample "rain_frequency" (PyFloat 2100)).
  - vm_compute. reflexivity.
  - left. reflexivity.
  - vm_compute. reflexivity.
Defined.

Lemma capture_sample_keys_witness :
  (forall key, is_Some (first_sample !! key) -> In key sample_keys)
  /\ first_sample !! "rain_safe" = None
  /\ Forall (fun key => is_Some (first_sample !! key))
       [ "weather_sensor_name"; "weather_sensor_firmware_version";
         "weather_sensor_serial_number"; "safe"; "sky_condition";
         "wind_condition"; "gust_condition"; "rain_condition" ].
Proof.
  apply (capture_sample_keys log_zero pid_fifty always_true true first_cycle
           (snd (capture log_zero pid_fifty always_true true first_cycle))
           first_sample).
  vm_compute. reflexivity.
Defined.

Lemma capture_needs_current_document_witness :
  exists e s',
    capture log_zero pid_fifty always_true true (play cycle_replies)
    = (Raise e, s')
    /\ same_store (play cycle_replies) s'.
Proof.
  apply (capture_needs_current_document log_zero pid_fifty always_true true
           (play cycle_replies)).
  reflexivity.
Defined.

End CycleMore.
